(** * data_insight: the reversible editing session of [app.py]

    [app.py] is a Streamlit script: every click re-runs [main], and the
    branch guarded by the clicked button acts on the table kept in
    [st.session_state.datasets[file.name]] and on the edit history kept in
    [st.session_state.user_settings[file.name]].  This development embeds
    those branches, together with the part of the pandas interface they
    call, and states the properties of the drop/restore session, of the
    filter and of the merge.

    Tables are pandas [DataFrame]s.  Cells are integers, text or the
    missing value; floating point numbers are not represented, and the
    dtype of a column is the one the parser infers from its cells.  A
    column label is text or, for a numeric header cell of a spreadsheet, a
    number.  Row labels are the integers of the index that [pd.read_csv] /
    [pd.read_excel] create, and that index has no name: "Set Index" (line
    91), which makes a column the index and gives the index its name, is
    outside what is modelled. *)

From Stdlib Require Import List String Ascii ZArith Bool Lia Arith.
From Stdlib Require Import Permutation Sorted DecimalString.
Import ListNotations.
Open Scope string_scope.
Open Scope list_scope.
Open Scope Z_scope.

Set Implicit Arguments.

(** ** Values, rows and frames *)

Inductive value : Type :=
| VInt (z : Z)
| VStr (s : string)
| VNaN.

Definition value_eqb (a b : value) : bool :=
  match a, b with
  | VInt x, VInt y => Z.eqb x y
  | VStr x, VStr y => String.eqb x y
  | VNaN, VNaN => true
  | _, _ => false
  end.

(** A column label: the text of a header cell, or the number a header
    cell of a spreadsheet holds. *)
Inductive label : Type :=
| Text (s : string)
| Number (n : Z).

Definition label_eqb (a b : label) : bool :=
  match a, b with
  | Text x, Text y => String.eqb x y
  | Number x, Number y => Z.eqb x y
  | _, _ => false
  end.

(** [isinstance(l, str)] *)
Definition is_text (l : label) : bool :=
  match l with
  | Text _ => true
  | Number _ => false
  end.

(** [str(z)] *)
Definition Z_text (z : Z) : string := NilZero.string_of_int (Z.to_int z).

(** [str(l)] *)
Definition label_text (l : label) : string :=
  match l with
  | Text s => s
  | Number n => Z_text n
  end.

(** A row is its label in the index and its cells, in column order.  The
    index of a frame is the list of these labels; it carries no name. *)
Definition row : Type := (Z * list value)%type.

Record DataFrame : Type := mkDF {
  columns : list label;
  rows : list row
}.

Definition index (df : DataFrame) : list Z := map fst (rows df).

(** [pd.DataFrame()] *)
Definition DataFrame_new : DataFrame := mkDF [] [].

(** [df.empty]: some axis has length zero. *)
Definition empty (df : DataFrame) : bool :=
  match columns df, rows df with
  | [], _ => true
  | _, [] => true
  | _, _ => false
  end.

(** The invariant of a table: every row has one cell per column, and column
    names are unique. *)
Definition well_formed (df : DataFrame) : Prop :=
  NoDup (columns df) /\
  Forall (fun r : row => List.length (snd r) = List.length (columns df))
         (rows df).

(** ** Exceptions *)

Inductive exn : Type :=
| KeyError
| InvalidIndexError
| ValueError
| MergeError
| AttributeError
| TypeError.

Inductive result (A : Type) : Type :=
| Ok (a : A)
| Raise (e : exn).
Arguments Ok {A} a.
Arguments Raise {A} e.

Definition result_bind {A B} (r : result A) (f : A -> result B) : result B :=
  match r with
  | Ok a => f a
  | Raise e => Raise e
  end.

(** ** Membership tests *)

Definition mem_label (s : label) (l : list label) : bool :=
  existsb (label_eqb s) l.

Definition mem_Z (k : Z) (l : list Z) : bool :=
  existsb (Z.eqb k) l.

Fixpoint nodup_labelb (l : list label) : bool :=
  match l with
  | [] => true
  | x :: t => negb (mem_label x t) && nodup_labelb t
  end.

Fixpoint nodup_Zb (l : list Z) : bool :=
  match l with
  | [] => true
  | x :: t => negb (mem_Z x t) && nodup_Zb t
  end.

Fixpoint list_label_eqb (a b : list label) : bool :=
  match a, b with
  | [], [] => true
  | x :: a', y :: b' => label_eqb x y && list_label_eqb a' b'
  | _, _ => false
  end.

Definition list_Z_eqb (a b : list Z) : bool :=
  if list_eq_dec Z.eq_dec a b then true else false.

(** ** Column selection and removal *)

(** The cells of one row, tagged with the name of their column. *)
Definition labelled (cols : list label) (cells : list value)
  : list (label * value) :=
  combine cols cells.

(** The values tagged [n]. *)
Definition named (n : label) (l : list (label * value)) : list value :=
  map snd (filter (fun p => label_eqb (fst p) n) l).

(** The cells a row holds under the label [n] (all of them when the label is
    repeated). *)
Definition cells_named (n : label) (cols : list label) (cells : list value)
  : list value :=
  named n (labelled cols cells).

(** The first cell under [n], the missing value when there is none. *)
Definition cell (cols : list label) (cells : list value) (n : label)
  : value :=
  hd VNaN (cells_named n cols cells).

(** [df[names]] with a list of labels: the named columns in the order asked,
    [KeyError] when a label is absent. *)
Definition getitem (df : DataFrame) (names : list label) : result DataFrame :=
  if forallb (fun n => mem_label n (columns df)) names then
    Ok (mkDF
          (flat_map (fun n => filter (label_eqb n) (columns df)) names)
          (map (fun r : row =>
                  (fst r,
                   flat_map (fun n => cells_named n (columns df) (snd r)) names))
               (rows df)))
  else Raise KeyError.

(** [df.drop(columns=names)]: every column whose label is listed goes,
    [KeyError] when a label is absent. *)
Definition drop_columns_of (df : DataFrame) (names : list label)
  : result DataFrame :=
  if forallb (fun n => mem_label n (columns df)) names then
    Ok (mkDF
          (filter (fun c => negb (mem_label c names)) (columns df))
          (map (fun r : row =>
                  (fst r,
                   map snd (filter (fun p => negb (mem_label (fst p) names))
                                   (labelled (columns df) (snd r)))))
               (rows df)))
  else Raise KeyError.

(** ** Row selection and removal *)

(** [df.loc[keys]] with a list of labels: for each label, in the order asked,
    the rows that carry it; [KeyError] when a label is absent. *)
Definition loc (df : DataFrame) (keys : list Z) : result DataFrame :=
  if forallb (fun k => mem_Z k (index df)) keys then
    Ok (mkDF (columns df)
             (flat_map (fun k => filter (fun r : row => Z.eqb (fst r) k) (rows df))
                       keys))
  else Raise KeyError.

(** [df.drop(index=keys)] *)
Definition drop_index_of (df : DataFrame) (keys : list Z) : result DataFrame :=
  if forallb (fun k => mem_Z k (index df)) keys then
    Ok (mkDF (columns df)
             (filter (fun r : row => negb (mem_Z (fst r) keys)) (rows df)))
  else Raise KeyError.

(** [df.loc[df.index.isin(keys)]]: a boolean mask, no label can be missing. *)
Definition loc_isin (df : DataFrame) (keys : list Z) : DataFrame :=
  mkDF (columns df) (filter (fun r : row => mem_Z (fst r) keys) (rows df)).

(** ** Concatenation *)

(** A row laid out again on the columns [target]; a column it does not have
    is filled with the missing value. *)
Definition realign (target cols : list label) (r : row) : row :=
  (fst r, map (cell cols (snd r)) target).

Definition union_label (a b : list label) : list label :=
  a ++ filter (fun c => negb (mem_label c a)) b.

Definition union_Z (a b : list Z) : list Z :=
  a ++ filter (fun k => negb (mem_Z k a)) b.

(** [pd.concat([a, b])]: rows of [a], then rows of [b].  With the same
    columns on both sides nothing is re-laid.  Otherwise the columns are
    the union, in order of first appearance, and both frames are reindexed
    on it, which pandas refuses for a frame with repeated column labels. *)
Definition concat (a b : DataFrame) : result DataFrame :=
  if list_label_eqb (columns a) (columns b) then
    Ok (mkDF (columns a) (rows a ++ rows b))
  else if nodup_labelb (columns a) && nodup_labelb (columns b) then
    let u := union_label (columns a) (columns b) in
    Ok (mkDF u (map (realign u (columns a)) (rows a)
                ++ map (realign u (columns b)) (rows b)))
  else Raise InvalidIndexError.

(** The cells of the row labelled [k], missing values when there is none. *)
Definition cells_at (df : DataFrame) (k : Z) : list value :=
  match find (fun r : row => Z.eqb (fst r) k) (rows df) with
  | Some r => snd r
  | None => repeat VNaN (List.length (columns df))
  end.

Fixpoint zip_rows (ra rb : list row) : list row :=
  match ra, rb with
  | (k, ca) :: ta, (_, cb) :: tb => (k, ca ++ cb) :: zip_rows ta tb
  | _, _ => []
  end.

(** [pd.concat([a, b], axis=1)]: columns of [a], then columns of [b], rows
    aligned on the index labels.  With equal indexes rows are paired in
    place.  Otherwise the index is the union, in order of first appearance,
    and both frames are reindexed on it, which pandas refuses for a frame
    with repeated row labels. *)
Definition concat_axis1 (a b : DataFrame) : result DataFrame :=
  if list_Z_eqb (index a) (index b) then
    Ok (mkDF (columns a ++ columns b) (zip_rows (rows a) (rows b)))
  else if nodup_Zb (index a) && nodup_Zb (index b) then
    Ok (mkDF (columns a ++ columns b)
             (map (fun k => (k, cells_at a k ++ cells_at b k))
                  (union_Z (index a) (index b))))
  else Raise InvalidIndexError.

(** [df.rename(columns={old: new})]: labels equal to [old] become [new];
    a label that does not occur is ignored. *)
Definition rename_column (df : DataFrame) (old new : label) : DataFrame :=
  mkDF (map (fun c => if label_eqb c old then new else c) (columns df))
       (rows df).

(** ** Column assignment *)

(** Positions of the label [n] among [cols]. *)
Fixpoint positions (n : label) (cols : list label) (from : nat) : list nat :=
  match cols with
  | [] => []
  | c :: t =>
      if label_eqb c n then from :: positions n t (S from)
      else positions n t (S from)
  end.

Fixpoint set_nth (j : nat) (v : value) (cells : list value) : list value :=
  match cells, j with
  | [], _ => []
  | _ :: t, O => v :: t
  | c :: t, S j' => c :: set_nth j' v t
  end.

Definition column_cells (df : DataFrame) (j : nat) : list value :=
  map (fun r : row => nth j (snd r) VNaN) (rows df).

Fixpoint set_cells (j : nat) (rs : list row) (vs : list value) : list row :=
  match rs, vs with
  | (k, cells) :: t, v :: vt => (k, set_nth j v cells) :: set_cells j t vt
  | (k, cells) :: t, [] => (k, set_nth j VNaN cells) :: set_cells j t []
  | [], _ => []
  end.

Fixpoint append_cells (rs : list row) (vs : list value) : list row :=
  match rs, vs with
  | (k, cells) :: t, v :: vt => (k, cells ++ [v]) :: append_cells t vt
  | (k, cells) :: t, [] => (k, cells ++ [VNaN]) :: append_cells t []
  | [], _ => []
  end.

(** [df[name] = values], the values carrying the index of [df]: a new label
    adds a column at the end, an existing one is overwritten wherever it
    occurs. *)
Definition setitem (df : DataFrame) (name : label) (vs : list value)
  : DataFrame :=
  match positions name (columns df) 0 with
  | [] => mkDF (columns df ++ [name]) (append_cells (rows df) vs)
  | js => mkDF (columns df)
               (fold_left (fun rs j => set_cells j rs vs) js (rows df))
  end.

Fixpoint result_all {A} (l : list (result A)) : result (list A) :=
  match l with
  | [] => Ok []
  | Ok a :: t => result_bind (result_all t) (fun r => Ok (a :: r))
  | Raise e :: _ => Raise e
  end.

(** ** The session state of one uploaded file *)

(** [st.session_state.user_settings[file.name]] *)
Record Settings : Type := mkSettings {
  dropped_columns : list label;
  dropped_rows : list Z;
  dropped_rows_df : DataFrame;
  dropped_columns_df : DataFrame
}.

(** The value the [defaultdict] creates on first access. *)
Definition default_settings : Settings :=
  mkSettings [] [] DataFrame_new DataFrame_new.

(** [st.session_state.datasets[file.name]] and the settings of that file. *)
Record Session : Type := mkSession {
  dataset : DataFrame;
  settings : Settings
}.

(** Within one run of the script the local name [data] either still
    designates the frame object stored in the session (line 45), so that an
    in-place method changes the stored table, or has been rebound to a fresh
    frame by an assignment [data = ...]. *)
Inductive binding : Type :=
| Aliased
| Rebound (df : DataFrame).

Record Run : Type := mkRun {
  session : Session;
  data : binding
}.

(** What the user is shown. *)
Inductive outcome : Type :=
| Success
| Warning
| Error (e : exn)
| Uncaught (e : exn).

(** ** Statements: state and exceptions *)

(** A statement runs in the state of the run; when it raises, the state is
    the one reached at the point of the raise. *)
Definition M (A : Type) : Type := Run -> result A * Run.

Definition ret {A} (a : A) : M A := fun r => (Ok a, r).

Definition bind {A B} (m : M A) (k : A -> M B) : M B :=
  fun r =>
    match m r with
    | (Ok a, r') => k a r'
    | (Raise e, r') => (Raise e, r')
    end.

Definition lift {A} (x : result A) : M A := fun r => (x, r).

(** [try: body except Exception as e: handler e] *)
Definition try_except {A} (body : M A) (handler : exn -> M A) : M A :=
  fun r =>
    match body r with
    | (Ok a, r') => (Ok a, r')
    | (Raise e, r') => handler e r'
    end.

Notation "x <- m ;; k" := (bind m (fun x => k))
  (at level 61, m at next level, right associativity).
Notation "m ;; k" := (bind m (fun _ => k))
  (at level 61, right associativity).

(** The frame [data] designates. *)
Definition read_data : M DataFrame :=
  fun r =>
    match data r with
    | Aliased => (Ok (dataset (session r)), r)
    | Rebound df => (Ok df, r)
    end.

(** An in-place change of the frame [data] designates. *)
Definition write_data (df : DataFrame) : M unit :=
  fun r =>
    match data r with
    | Aliased =>
        (Ok tt, mkRun (mkSession df (settings (session r))) Aliased)
    | Rebound _ => (Ok tt, mkRun (session r) (Rebound df))
    end.

(** [data = df] *)
Definition rebind_data (df : DataFrame) : M unit :=
  fun r => (Ok tt, mkRun (session r) (Rebound df)).

(** [st.session_state.datasets[file.name] = df]; a name that designated the
    frame stored before keeps designating that frame. *)
Definition store_dataset (df : DataFrame) : M unit :=
  fun r =>
    let kept := match data r with
                | Aliased => Rebound (dataset (session r))
                | Rebound d => Rebound d
                end in
    (Ok tt, mkRun (mkSession df (settings (session r))) kept).

Definition read_settings : M Settings :=
  fun r => (Ok (settings (session r)), r).

Definition write_settings (s : Settings) : M unit :=
  fun r => (Ok tt, mkRun (mkSession (dataset (session r)) s) (data r)).

Definition set_dropped_columns_df (df : DataFrame) : M unit :=
  s <- read_settings ;;
  write_settings
    (mkSettings (dropped_columns s) (dropped_rows s) (dropped_rows_df s) df).

Definition set_dropped_rows_df (df : DataFrame) : M unit :=
  s <- read_settings ;;
  write_settings
    (mkSettings (dropped_columns s) (dropped_rows s) df (dropped_columns_df s)).

Definition set_dropped_columns (l : list label) : M unit :=
  s <- read_settings ;;
  write_settings
    (mkSettings l (dropped_rows s) (dropped_rows_df s) (dropped_columns_df s)).

Definition set_dropped_rows (l : list Z) : M unit :=
  s <- read_settings ;;
  write_settings
    (mkSettings (dropped_columns s) l (dropped_rows_df s) (dropped_columns_df s)).

(** ** Inner join *)

Definition count_label (n : label) (l : list label) : nat :=
  List.length (filter (label_eqb n) l).

(** A label of [renamed] that repeats an earlier one although the label it
    stands for, in [original], did not: a duplicate caused by the suffixes. *)
Fixpoint suffix_clash (renamed original seen_r seen_o : list label) : bool :=
  match renamed, original with
  | r :: rt, o :: ot =>
      (mem_label r seen_r && negb (mem_label o seen_o))
      || suffix_clash rt ot (r :: seen_r) (o :: seen_o)
  | _, _ => false
  end.

Fixpoint number_rows (from : Z) (cells : list (list value)) : list row :=
  match cells with
  | [] => []
  | c :: t => (from, c) :: number_rows (from + 1) t
  end.

Definition without_column (on : label) (cols : list label)
  (cells : list value) : list value :=
  map snd (filter (fun p => negb (label_eqb (fst p) on)) (labelled cols cells)).

(** The columns of a frame but the key, and the values of its key column. *)
Definition other_columns (on : label) (df : DataFrame) : list label :=
  filter (fun c => negb (label_eqb c on)) (columns df).

Definition key_values (on : label) (df : DataFrame) : list value :=
  map (fun r : row => cell (columns df) (snd r) on) (rows df).

(** The rows of the inner join: a row of [left] with each row of [right]
    that holds an equal key, in the order of [left], numbered from 0. *)
Definition inner_join_rows (left right : DataFrame) (on : label) : list row :=
  number_rows 0
    (flat_map
       (fun l : row =>
          map (fun r : row =>
                 snd l ++ without_column on (columns right) (snd r))
              (filter (fun r : row =>
                         value_eqb (cell (columns left) (snd l) on)
                                   (cell (columns right) (snd r) on))
                      (rows right)))
       (rows left)).

(** *** The dtypes of the key columns *)

Definition isna (v : value) : bool :=
  match v with
  | VNaN => true
  | _ => false
  end.

Definition is_str (v : value) : bool :=
  match v with
  | VStr _ => true
  | _ => false
  end.

Definition is_int (v : value) : bool :=
  match v with
  | VInt _ => true
  | _ => false
  end.

Inductive dtype : Type :=
| int64
| float64
| object.

(** The dtype of a column that holds these cells, as the parser infers it:
    [object] when a cell is text or the column has no cell, [float64] for
    integers with missing cells (and for missing cells only), [int64] for
    integers. *)
Definition dtype_of (vs : list value) : dtype :=
  if existsb is_str vs then object
  else match vs with
       | [] => object
       | _ :: _ => if existsb isna vs then float64 else int64
       end.

Definition is_numeric_dtype (d : dtype) : bool :=
  match d with
  | object => false
  | _ => true
  end.

Definition dtype_eqb (a b : dtype) : bool :=
  match a, b with
  | int64, int64 | float64, float64 | object, object => true
  | _, _ => false
  end.

(** The answers of [lib.infer_dtype]: "integer", "floating", "string",
    "mixed-integer", "mixed" and "empty". *)
Inductive inferred : Type :=
| inferred_integer
| inferred_floating
| inferred_string
| inferred_mixed_integer
| inferred_mixed
| inferred_empty.

(** [lib.infer_dtype(values, skipna=False)] *)
Definition infer_dtype (vs : list value) : inferred :=
  match dtype_of vs with
  | int64 => inferred_integer
  | float64 => inferred_floating
  | object =>
      match vs with
      | [] => inferred_empty
      | _ :: _ =>
          if forallb is_str vs then inferred_string
          else if existsb is_int vs then inferred_mixed_integer
          else inferred_mixed
      end
  end.

(** [bool_types] and [string_types] of [_maybe_coerce_merge_keys]. *)
Definition bool_types (i : inferred) : bool :=
  match i with
  | inferred_integer | inferred_mixed_integer | inferred_empty => true
  | _ => false
  end.

Definition string_types (i : inferred) : bool :=
  match i with
  | inferred_string | inferred_mixed | inferred_empty => true
  | _ => false
  end.

(** [_maybe_coerce_merge_keys], on the key column of either side: whether
    the join is refused ([ValueError], "You are trying to merge on ... and
    ... columns").  Nothing is checked when one side only has no row; equal
    dtypes, and two numeric dtypes, go through; an [object] column against
    a numeric one is refused when one side is text-like and the other is
    not. *)
Definition merge_keys_refused (lk rk : list value) : bool :=
  match lk, rk with
  | [], _ :: _ => false
  | _ :: _, [] => false
  | _, _ =>
      if dtype_eqb (dtype_of lk) (dtype_of rk) then false
      else if is_numeric_dtype (dtype_of lk) && is_numeric_dtype (dtype_of rk)
      then false
      else if bool_types (infer_dtype lk) && bool_types (infer_dtype rk)
      then false
      else (string_types (infer_dtype lk) && negb (string_types (infer_dtype rk)))
           || (string_types (infer_dtype rk)
               && negb (string_types (infer_dtype lk)))
  end.

(** The label [f"{c}{suffix}"]. *)
Definition with_suffix (c : label) (suffix : string) : label :=
  Text (String.append (label_text c) suffix).

(** [left.merge(right, on=on, how="inner")], both frames with an index that
    has no name.  The key must be a column of both frames ([KeyError]) and
    occur once in each ([ValueError]), and the dtypes of the two key columns
    must go together ([ValueError]).  The output has the columns of [left],
    then those of [right] but the key; a name on both sides gets the default
    suffixes [_x] and [_y], and names that the suffixes make collide are
    refused ([MergeError], as pandas does from version 2.0 on; earlier
    versions warned). *)
Definition merge (left right : DataFrame) (on : label) : result DataFrame :=
  if negb (mem_label on (columns right)) then Raise KeyError
  else if (1 <? count_label on (columns right))%nat then Raise ValueError
  else if negb (mem_label on (columns left)) then Raise KeyError
  else if (1 <? count_label on (columns left))%nat then Raise ValueError
  else if merge_keys_refused (key_values on left) (key_values on right)
  then Raise ValueError
  else
    let rcols := other_columns on right in
    let llabels :=
      map (fun c => if mem_label c rcols then with_suffix c "_x" else c)
          (columns left) in
    let rlabels :=
      map (fun c => if mem_label c (columns left) then with_suffix c "_y" else c)
          rcols in
    if suffix_clash llabels (columns left) [] []
       || suffix_clash rlabels rcols [] []
    then Raise MergeError
    else Ok (mkDF (llabels ++ rlabels) (inner_join_rows left right on)).

(** What the join gives when nothing has to be renamed. *)
Definition joined (left right : DataFrame) (on : label) : DataFrame :=
  mkDF (columns left ++ other_columns on right)
       (inner_join_rows left right on).

(** Tables that can be joined without any renaming: each satisfies the
    table invariant, and no name but the key is shared. *)
Definition joinable (on : label) (tables : list DataFrame) : Prop :=
  Forall well_formed tables /\
  NoDup (flat_map (other_columns on) tables).

(** Key columns of one kind: every table has a row (the dtype of a column
    without cells is not told by its cells), and in every table that has
    the column [on] its cells are all integers, or in every such table they
    are all text. *)
Definition keys_alike (on : label) (tables : list DataFrame) : Prop :=
  (forall d, In d tables -> rows d <> []) /\
  ((forall d, In d tables -> In on (columns d) ->
              forallb is_int (key_values on d) = true) \/
   (forall d, In d tables -> In on (columns d) ->
              forallb is_str (key_values on d) = true)).

(** Lines 216-218:
    [data = datasets[0]]
    [for df in datasets[1:]:]
    [    data = data.merge(df, on=merge_on, how="inner") if merge_on else data] *)
Fixpoint merge_loop (data0 : DataFrame) (rest : list DataFrame)
  (merge_on : string) : result DataFrame :=
  match rest with
  | [] => Ok data0
  | df :: t =>
      result_bind
        (if String.eqb merge_on "" then Ok data0
         else merge data0 df (Text merge_on))
        (fun d => merge_loop d t merge_on)
  end.

(** The "Merge/Join" choice of the combiner, offered when more than one file
    is loaded (line 209). *)
Definition Merge_Join (datasets : list DataFrame) (merge_on : string)
  : result DataFrame :=
  match datasets with
  | [] => Raise ValueError
  | d0 :: rest => merge_loop d0 rest merge_on
  end.

(** ** Text helpers *)

(** [s.split(sep)] for a one-character separator. *)
Fixpoint split_on (sep : ascii) (s : string) : list string :=
  match s with
  | EmptyString => [EmptyString]
  | String c t =>
      if Ascii.eqb c sep then EmptyString :: split_on sep t
      else match split_on sep t with
           | h :: r => String c h :: r
           | [] => [String c EmptyString]
           end
  end.

Definition is_space (c : ascii) : bool :=
  let n := nat_of_ascii c in
  ((9 <=? n) && (n <=? 13) || (28 <=? n) && (n <=? 32))%nat.

Fixpoint lstrip (s : string) : string :=
  match s with
  | EmptyString => EmptyString
  | String c t => if is_space c then lstrip t else s
  end.

Fixpoint rstrip (s : string) : string :=
  match s with
  | EmptyString => EmptyString
  | String c t =>
      match rstrip t with
      | EmptyString => if is_space c then EmptyString else String c EmptyString
      | t' => String c t'
      end
  end.

(** [s.strip()] *)
Definition strip (s : string) : string := rstrip (lstrip s).

(** [sep.join(names)]: the texts with [sep] between them, [TypeError] for
    an item that is not text. *)
Definition join (sep : string) (names : list label) : result string :=
  if forallb is_text names
  then Ok (String.concat sep (map label_text names))
  else Raise TypeError.

(** ** The branches of the script *)

Section Script.

(** The reordering done by [DataFrame.sort_index()].  Its default algorithm
    ([kind="quicksort"]) is free to order rows with equal labels in any way,
    so the function is left open here; the properties below only rely on its
    contract [sorts_by_label]. *)
Variable sort_rows : list row -> list row.

(** [Series.astype(dtype)] on the cells of one column. *)
Variable astype : string -> list value -> result (list value).

(** [DataFrame.eval(expression)], one value per row. *)
Variable df_eval : DataFrame -> string -> result (list value).

Definition sort_index (df : DataFrame) : DataFrame :=
  mkDF (columns df) (sort_rows (rows df)).

(** Lines 122-135, "Drop Selected Columns".  The message of line 132 is
    built inside the [try], after the table and the settings were written:
    [', '.join(drop_columns)] raises for a label that is not text. *)
Definition Drop_Selected_Columns (drop_columns : list label) : M outcome :=
  try_except
    (d <- read_data ;;
     dropped_columns_df <- lift (getitem d drop_columns) ;;
     set_dropped_columns_df dropped_columns_df ;;
     d <- read_data ;;
     d' <- lift (drop_columns_of d drop_columns) ;;
     write_data d' ;;
     s <- read_settings ;;
     set_dropped_columns (dropped_columns s ++ drop_columns) ;;
     lift (join ", " drop_columns) ;;
     ret Success)
    (fun e => ret (Error e)).

(** Lines 138-159, "Restore Selected Columns"; line 156 builds its message
    as line 132 does. *)
Definition Restore_Selected_Columns (restore_columns : list label)
  : M outcome :=
  try_except
    (s <- read_settings ;;
     if empty (dropped_columns_df s) then ret Warning
     else
       restored_columns <- lift (getitem (dropped_columns_df s) restore_columns) ;;
       d <- read_data ;;
       d' <- lift (concat_axis1 d restored_columns) ;;
       rebind_data d' ;;
       store_dataset d' ;;
       s <- read_settings ;;
       set_dropped_columns
         (filter (fun col => negb (mem_label col restore_columns))
                 (dropped_columns s)) ;;
       lift (join ", " restore_columns) ;;
       ret Success)
    (fun e => ret (Error e)).

(** Lines 165-178, "Drop Selected Rows".  The message of line 175 is built
    from [map(str, drop_rows)], which does not raise. *)
Definition Drop_Selected_Rows (drop_rows : list Z) : M outcome :=
  try_except
    (d <- read_data ;;
     dropped_rows_df <- lift (loc d drop_rows) ;;
     set_dropped_rows_df dropped_rows_df ;;
     d <- read_data ;;
     d' <- lift (drop_index_of d drop_rows) ;;
     write_data d' ;;
     s <- read_settings ;;
     set_dropped_rows (dropped_rows s ++ drop_rows) ;;
     ret Success)
    (fun e => ret (Error e)).

(** Lines 181-202, "Restore Selected Rows". *)
Definition Restore_Selected_Rows (restore_rows : list Z) : M outcome :=
  try_except
    (s <- read_settings ;;
     if empty (dropped_rows_df s) then ret Warning
     else
       let restored_rows := loc_isin (dropped_rows_df s) restore_rows in
       d <- read_data ;;
       c <- lift (concat d restored_rows) ;;
       rebind_data (sort_index c) ;;
       store_dataset (sort_index c) ;;
       s <- read_settings ;;
       set_dropped_rows
         (filter (fun k => negb (mem_Z k restore_rows)) (dropped_rows s)) ;;
       ret Success)
    (fun e => ret (Error e)).

(** Lines 64-69, "Convert Column":
    [data[column_to_convert] = data[column_to_convert].astype(dtype_option)].
    The right-hand side is evaluated first: the column, or the columns when
    the label is repeated, and their conversion. *)
Definition Convert_Column (column_to_convert : label) (dtype_option : string)
  : M outcome :=
  try_except
    (d <- read_data ;;
     match positions column_to_convert (columns d) 0 with
     | [] => lift (Raise KeyError)
     | js =>
         converted <-
           lift (result_all
                   (map (fun j => astype dtype_option (column_cells d j)) js)) ;;
         write_data
           (mkDF (columns d)
                 (fold_left (fun rs jv => set_cells (fst jv) rs (snd jv))
                            (combine js converted) (rows d))) ;;
         ret Success
     end)
    (fun e => ret (Error e)).

(** Lines 101-111, "Rename Columns": the column is picked among the labels
    of the table, the new name is the text typed in the box. *)
Definition Rename_Columns (column_to_rename : label) (new_column_name : string)
  : M outcome :=
  if String.eqb new_column_name "" then ret Success
  else
    d <- read_data ;;
    write_data (rename_column d column_to_rename (Text new_column_name)) ;;
    ret Success.

(** Lines 231-238, the formula box, when [data] is the table of the file
    (one file loaded). *)
Definition Custom_Formula (custom_formula : string) : M outcome :=
  if String.eqb custom_formula "" then ret Success
  else
    try_except
      (match split_on "="%char custom_formula with
       | [col_name; expression] =>
           d <- read_data ;;
           vs <- lift (df_eval d (strip expression)) ;;
           d <- read_data ;;
           write_data (setitem d (Text (strip col_name)) vs) ;;
           ret Success
       | _ => lift (Raise ValueError)
       end)
      (fun e => ret (Error e)).

(** Lines 209-218 with "Merge/Join" chosen; [data] of the file is
    [datasets[0]], [others] are the tables of the files after it.  No
    [try] surrounds the loop. *)
Definition Combine_Merge_Join (others : list DataFrame) (merge_on : string)
  : M outcome :=
  match others with
  | [] => ret Success
  | _ =>
      d <- read_data ;;
      m <- lift (merge_loop d others merge_on) ;;
      (if String.eqb merge_on "" then ret tt else rebind_data m) ;;
      ret Success
  end.

(** One click: the script runs the branch of the clicked button with [data]
    designating the stored table (line 45), and the session is what the run
    leaves behind.  Nothing else of the script acts in that run: none of
    the check boxes of lines 55-100, which rebind [data], is ticked, the
    box of line 101 is not ticked either, and the formula box of line 231
    is empty.  An exception no [try] catches ends the run. *)
Definition click (h : M outcome) (s : Session) : outcome * Session :=
  match h (mkRun s Aliased) with
  | (Ok o, r) => (o, session r)
  | (Raise e, r) => (Uncaught e, session r)
  end.

(** The four operations of the edit history, on the session of one file. *)
Definition dropColumns (s : Session) (names : list label) :=
  click (Drop_Selected_Columns names) s.
Definition restoreColumns (s : Session) (names : list label) :=
  click (Restore_Selected_Columns names) s.
Definition dropRows (s : Session) (keys : list Z) :=
  click (Drop_Selected_Rows keys) s.
Definition restoreRows (s : Session) (keys : list Z) :=
  click (Restore_Selected_Rows keys) s.

(** The core operations a user can trigger on one file. *)
Inductive operation : Type :=
| DropColumns (names : list label)
| RestoreColumns (names : list label)
| DropRows (keys : list Z)
| RestoreRows (keys : list Z)
| Convert (column : label) (dtype : string)
| Rename (old : label) (new : string)
| Formula (text : string)
| MergeJoin (others : list DataFrame) (merge_on : string).

Definition handler (op : operation) : M outcome :=
  match op with
  | DropColumns names => Drop_Selected_Columns names
  | RestoreColumns names => Restore_Selected_Columns names
  | DropRows keys => Drop_Selected_Rows keys
  | RestoreRows keys => Restore_Selected_Rows keys
  | Convert c t => Convert_Column c t
  | Rename o n => Rename_Columns o n
  | Formula f => Custom_Formula f
  | MergeJoin others k => Combine_Merge_Join others k
  end.

Definition apply (op : operation) (s : Session) : outcome * Session :=
  click (handler op) s.

End Script.


(** What a drop or a restore of columns reports once its work is done:
    success, or the error raised while the message of line 132, or 156, is
    built. *)
Definition reported (names : list label) : outcome :=
  match join ", " names with
  | Ok _ => Success
  | Raise e => Error e
  end.

(** Ascending order of row labels. *)
Definition label_le (a b : row) : Prop := fst a <= fst b.

(** The contract of a row sort: a permutation in ascending label order. *)
Definition sorts_by_label (sort_rows : list row -> list row) : Prop :=
  (forall l, Permutation l (sort_rows l)) /\
  (forall l, Sorted label_le (sort_rows l)).

(** Insertion sort on labels, one function that meets the contract. *)
Fixpoint insert_row (r : row) (l : list row) : list row :=
  match l with
  | [] => [r]
  | h :: t => if fst r <=? fst h then r :: l else h :: insert_row r t
  end.

Fixpoint insertion_sort (l : list row) : list row :=
  match l with
  | [] => []
  | h :: t => insert_row h (insertion_sort t)
  end.

(** The values of the column [c], top to bottom. *)
Definition column (df : DataFrame) (c : label) : list value :=
  map (fun r : row => cell (columns df) (snd r) c) (rows df).

(** ** Filter *)

(** [str(v)], the text [astype(str)] gives a cell. *)
Definition to_text (v : value) : string :=
  match v with
  | VInt z => Z_text z
  | VStr s => s
  | VNaN => "nan"
  end.

(** The fragment of the regular expressions of [re] that is modelled: a
    sequence of characters, each an ordinary character standing for itself
    or a dot standing for any character but the newline. *)
Inductive re_atom : Type :=
| Lit (c : ascii)
| AnyChar.

Definition is_meta (c : ascii) : bool :=
  existsb (Ascii.eqb c)
          (list_ascii_of_string ".^$*+?{}[]\|()").

(** [re.compile(pat)] on that fragment; [None] for a pattern that uses any
    other construct. *)
Fixpoint re_compile (pat : string) : option (list re_atom) :=
  match pat with
  | EmptyString => Some []
  | String c t =>
      if Ascii.eqb c "."%char then option_map (cons AnyChar) (re_compile t)
      else if is_meta c then None
      else option_map (cons (Lit c)) (re_compile t)
  end.

Definition atom_matches (a : re_atom) (c : ascii) : bool :=
  match a with
  | Lit x => Ascii.eqb x c
  | AnyChar => negb (Ascii.eqb c "010"%char)
  end.

(** The pattern matches a prefix of [s]. *)
Fixpoint re_match (p : list re_atom) (s : string) : bool :=
  match p, s with
  | [], _ => true
  | a :: p', String c s' => atom_matches a c && re_match p' s'
  | _ :: _, EmptyString => false
  end.

(** [re.search]: the pattern matches somewhere in [s]. *)
Fixpoint re_search (p : list re_atom) (s : string) : bool :=
  re_match p s
  || match s with
     | EmptyString => false
     | String _ s' => re_search p s'
     end.

(** Lines 227-228, "Apply Filter":
    [data = data[data[col_to_filter].astype(str).str.contains(filter_value)]].
    [str.contains] is called with its default [regex=True]: the argument is
    compiled as a pattern, and a row is kept when the pattern is found in
    the text of its cell.  [data[col]] is a frame, without [.str], when the
    label is repeated.  [None] when [filter_value] is outside the modelled
    patterns. *)
Definition Apply_Filter (data : DataFrame) (col_to_filter : label)
  (filter_value : string) : option (result DataFrame) :=
  match positions col_to_filter (columns data) 0 with
  | [] => Some (Raise KeyError)
  | [_] =>
      option_map
        (fun p =>
           Ok (mkDF (columns data)
                 (filter (fun r : row =>
                            re_search p
                              (to_text (cell (columns data) (snd r) col_to_filter)))
                         (rows data))))
        (re_compile filter_value)
  | _ => Some (Raise AttributeError)
  end.

(** What the claim about the filter calls a literal substring. *)
Definition substring_of (sub s : string) : Prop :=
  exists pre post, s = String.append pre (String.append sub post).

Definition no_meta (pat : string) : Prop :=
  Forall (fun c => is_meta c = false) (list_ascii_of_string pat).

(** ** Sequences of operations *)

Section Sequences.

Variable sort_rows : list row -> list row.
Variable astype : string -> list value -> result (list value).
Variable df_eval : DataFrame -> string -> result (list value).

Definition run (ops : list operation) (s : Session) : Session :=
  fold_left (fun s op => snd (apply sort_rows astype df_eval op s)) ops s.

(** A session together with the names and labels of the most recent drop
    that was carried out, kept beside it for the statement of the
    invariant.  A drop of columns is carried out when it reports success,
    and also when it ends with the [TypeError] of line 132, which is raised
    after lines 125-130 have run. *)
Record Tracked : Type := mkTracked {
  now : Session;
  last_columns : list label;
  last_rows : list Z
}.

Definition step_tracked (t : Tracked) (op : operation) : Tracked :=
  let (o, s') := apply sort_rows astype df_eval op (now t) in
  match op, o with
  | DropColumns names, Success => mkTracked s' names (last_rows t)
  | DropColumns names, Error TypeError => mkTracked s' names (last_rows t)
  | DropRows keys, Success => mkTracked s' (last_columns t) keys
  | _, _ => mkTracked s' (last_columns t) (last_rows t)
  end.

Definition run_tracked (ops : list operation) (t : Tracked) : Tracked :=
  fold_left step_tracked ops t.

(** The names and labels of the most recent drop are in the snapshots. *)
Definition last_drop_retrievable (t : Tracked) : Prop :=
  (forall n, In n (last_columns t) ->
             In n (columns (dropped_columns_df (settings (now t))))) /\
  (forall k, In k (last_rows t) ->
             In k (index (dropped_rows_df (settings (now t))))).

End Sequences.

(** ** The rest of the script *)

(** *** The check boxes that rebind [data] (lines 55-58, 96-100) *)

Fixpoint cells_eqb (a b : list value) : bool :=
  match a, b with
  | [], [] => true
  | x :: a', y :: b' => value_eqb x y && cells_eqb a' b'
  | _, _ => false
  end.

(** The rows whose cells were not seen before, first occurrences kept. *)
Fixpoint unseen_rows (seen : list (list value)) (rs : list row) : list row :=
  match rs with
  | [] => []
  | r :: t =>
      if existsb (cells_eqb (snd r)) seen then unseen_rows seen t
      else r :: unseen_rows (snd r :: seen) t
  end.

(** [df.drop_duplicates()]: rows are compared on their cells, not on their
    label; missing values compare equal; the first of equal rows stays.  A
    frame that is [.empty] is returned as it is, so the rows of a frame
    without columns all stay. *)
Definition drop_duplicates (df : DataFrame) : DataFrame :=
  if empty df then df
  else mkDF (columns df) (unseen_rows [] (rows df)).

(** [df.dropna()]: the rows with a missing cell go. *)
Definition dropna (df : DataFrame) : DataFrame :=
  mkDF (columns df)
       (filter (fun r : row => negb (existsb isna (snd r))) (rows df)).

(** [df.fillna(fill_value)], the value being the text typed in the box. *)
Definition fillna (df : DataFrame) (fill_value : string) : DataFrame :=
  mkDF (columns df)
       (map (fun r : row =>
               (fst r,
                map (fun v => if isna v then VStr fill_value else v) (snd r)))
            (rows df)).

(** Lines 55-56, 96-100: each ticked box assigns a new frame to [data];
    [fill_missing] is the text of the box when "Fill Missing Values" is
    ticked. *)
Definition Preprocessing (remove_duplicates drop_missing : bool)
  (fill_missing : option string) : M unit :=
  (if remove_duplicates
   then d <- read_data ;; rebind_data (drop_duplicates d)
   else ret tt) ;;
  (if drop_missing
   then d <- read_data ;; rebind_data (dropna d)
   else ret tt) ;;
  (match fill_missing with
   | Some fill_value => d <- read_data ;; rebind_data (fillna d fill_value)
   | None => ret tt
   end).

(** The frame [data] designates after these lines, from the stored one. *)
Definition preprocessed (remove_duplicates drop_missing : bool)
  (fill_missing : option string) (d : DataFrame) : DataFrame :=
  let d1 := if remove_duplicates then drop_duplicates d else d in
  let d2 := if drop_missing then dropna d1 else d1 in
  match fill_missing with
  | Some fill_value => fillna d2 fill_value
  | None => d2
  end.

Definition ticked (remove_duplicates drop_missing : bool)
  (fill_missing : option string) : bool :=
  remove_duplicates || drop_missing
  || match fill_missing with Some _ => true | None => false end.

(** *** The options of the drop widgets (lines 120, 163) *)

(** [[col for col in data.columns if col not in settings["dropped_columns"]]] *)
Definition available_columns (data : DataFrame) (settings : Settings)
  : list label :=
  filter (fun col => negb (mem_label col (dropped_columns settings)))
         (columns data).

Fixpoint insert_label (k : Z) (l : list Z) : list Z :=
  match l with
  | [] => [k]
  | h :: t =>
      if k <? h then k :: l
      else if k =? h then l
      else h :: insert_label k t
  end.

(** [idx.unique()]: each label once, in order of first appearance. *)
Fixpoint unique (seen idx : list Z) : list Z :=
  match idx with
  | [] => []
  | k :: t =>
      if mem_Z k seen then unique seen t else k :: unique (k :: seen) t
  end.

(** [idx.difference(other)]: the labels of [idx] that are not in [other],
    each once.  With an empty [other] they come as [idx.unique()], in the
    order of the index; otherwise in ascending order. *)
Definition index_difference (idx other : list Z) : list Z :=
  match other with
  | [] => unique [] idx
  | _ :: _ =>
      fold_right insert_label []
                 (filter (fun k => negb (mem_Z k other)) idx)
  end.

(** [list(data.index.difference(settings["dropped_rows"]))] *)
Definition available_rows (data : DataFrame) (settings : Settings) : list Z :=
  index_difference (index data) (dropped_rows settings).

(** *** Concatenate (lines 211-212) *)

Fixpoint concat_all (acc : DataFrame) (rest : list DataFrame)
  : result DataFrame :=
  match rest with
  | [] => Ok acc
  | d :: t => result_bind (concat acc d) (fun a => concat_all a t)
  end.

(** [ignore_index=True]: the rows are numbered from 0. *)
Definition reset_index (df : DataFrame) : DataFrame :=
  mkDF (columns df) (number_rows 0 (map snd (rows df))).

(** [pd.concat(datasets, ignore_index=True)] *)
Definition Concatenate (datasets : list DataFrame) : result DataFrame :=
  match datasets with
  | [] => Raise ValueError
  | d0 :: rest => result_bind (concat_all d0 rest) (fun d => Ok (reset_index d))
  end.

(** The cells of a row laid out on the columns [target]. *)
Definition relaid (target : list label) (df : DataFrame) : list (list value) :=
  map (fun r : row => map (cell (columns df) (snd r)) target) (rows df).

(** The number of [=] signs in a formula. *)
Definition equal_signs (s : string) : nat :=
  List.length (filter (Ascii.eqb "="%char) (list_ascii_of_string s)).

(** ** Sample tables *)

(** The table [{id:[1,2,3], v:[10,20,30]}] of the scenario in the
    specification, as [pd.read_csv] would load it. *)
Definition sample_table : DataFrame :=
  mkDF [Text "id"; Text "v"]
       [(0, [VInt 1; VInt 10]); (1, [VInt 2; VInt 20]); (2, [VInt 3; VInt 30])].

Definition sample_session : Session := mkSession sample_table default_settings.

(** The sample session after "Drop Selected Columns" with [v], and after a
    second drop with [id]. *)
Definition sample_without_v : Session :=
  snd (dropColumns sample_session [Text "v"]).

Definition sample_without_v_id : Session :=
  snd (dropColumns sample_without_v [Text "id"]).

(** A file with a header line and no data line: columns, no row. *)
Definition header_only_session : Session :=
  mkSession (mkDF [Text "id"; Text "v"] []) default_settings.

(** A table whose index is not ascending, as a restore of columns leaves
    it when it brings back a row that was dropped in between (line 148). *)
Definition unsorted_session : Session :=
  mkSession (mkDF [Text "v"] [(2, [VInt 20]); (1, [VInt 10])]) default_settings.

(** The sample session after "Drop Selected Rows" with the labels 1 and 0. *)
Definition sample_rows_dropped : Session :=
  snd (dropRows sample_session [1; 0]).


(** A column of texts, one of which holds a dot. *)
Definition codes_table : DataFrame :=
  mkDF [Text "code"] [(0, [VStr "abc"]); (1, [VStr "a.c"]); (2, [VStr "ac"])].

(** Tables to join on [k]: three that share no other name and no key
    value, and two that both have a column [v]. *)
Definition orders : DataFrame :=
  mkDF [Text "k"; Text "amount"] [(0, [VInt 1; VInt 50]); (1, [VInt 2; VInt 70])].
Definition clients : DataFrame :=
  mkDF [Text "k"; Text "name"] [(0, [VInt 2; VStr "Ada"]); (1, [VInt 3; VStr "Bob"])].
Definition regions : DataFrame :=
  mkDF [Text "k"; Text "region"] [(0, [VInt 3; VStr "north"]); (1, [VInt 1; VStr "south"])].
Definition readings_a : DataFrame := mkDF [Text "k"; Text "v"] [(0, [VInt 1; VInt 5])].
Definition readings_b : DataFrame := mkDF [Text "k"; Text "v"] [(0, [VInt 2; VInt 6])].

(** A table whose first two rows hold the same cells. *)
Definition repeated_table : DataFrame :=
  mkDF [Text "id"; Text "v"]
       [(0, [VInt 1; VInt 10]); (1, [VInt 1; VInt 10]); (2, [VInt 2; VInt 20])].

(** A table with a missing cell, and its session after the row 0 was
    dropped. *)
Definition gappy_table : DataFrame :=
  mkDF [Text "id"; Text "v"]
       [(0, [VInt 1; VInt 10]); (1, [VInt 2; VNaN]); (2, [VInt 3; VInt 30])].

Definition gappy_row_dropped : Session :=
  snd (dropRows (mkSession gappy_table default_settings) [0]).

(** A sheet whose header row holds two numbers, as [pd.read_excel] loads
    it: the labels of the second and third column are the integers 2023
    and 2024. *)
Definition ledger_table : DataFrame :=
  mkDF [Text "item"; Number 2023; Number 2024]
       [(0, [VStr "rent"; VInt 900; VInt 950]);
        (1, [VStr "power"; VInt 120; VInt 130])].

Definition ledger_session : Session := mkSession ledger_table default_settings.

(** The ledger after "Drop Selected Columns" with the column 2024. *)
Definition ledger_without_2024 : Session :=
  mkSession
    (mkDF [Text "item"; Number 2023]
          [(0, [VStr "rent"; VInt 900]); (1, [VStr "power"; VInt 120])])
    (mkSettings [Number 2024] [] DataFrame_new
                (mkDF [Number 2024] [(0, [VInt 950]); (1, [VInt 130])])).

(** Conversions used where a concrete pandas is needed: both refuse. *)
Definition astype_refuses (dtype : string) (cells : list value)
  : result (list value) := Raise TypeError.

Definition eval_refuses (df : DataFrame) (expression : string)
  : result (list value) := Raise ValueError.

(** Unfolds one click down to the pandas calls it makes. *)
Ltac unfold_script :=
  cbv beta iota zeta delta
    [dropColumns restoreColumns dropRows restoreRows click apply handler
     Drop_Selected_Columns Restore_Selected_Columns Drop_Selected_Rows
     Restore_Selected_Rows Convert_Column Rename_Columns Custom_Formula
     Combine_Merge_Join try_except bind ret lift read_data write_data
     rebind_data store_dataset set_dropped_columns_df set_dropped_rows_df
     set_dropped_columns set_dropped_rows read_settings write_settings
     session data dataset settings dropped_columns dropped_rows
     dropped_rows_df dropped_columns_df fst snd].

(** * Properties *)

(** ** Labels *)

Lemma label_eqb_spec (a b : label) : reflect (a = b) (label_eqb a b).
Proof.
  destruct a as [x|x], b as [y|y]; cbn; try (constructor; discriminate).
  - destruct (String.eqb_spec x y); constructor; congruence.
  - destruct (Z.eqb_spec x y); constructor; congruence.
Qed.

Lemma label_eqb_eq (a b : label) : label_eqb a b = true <-> a = b.
Proof. destruct (label_eqb_spec a b); split; congruence. Qed.

Lemma label_eqb_neq (a b : label) : label_eqb a b = false <-> a <> b.
Proof. destruct (label_eqb_spec a b); split; congruence. Qed.

Lemma label_eqb_refl (a : label) : label_eqb a a = true.
Proof. now apply label_eqb_eq. Qed.

Lemma label_dec (a b : label) : {a = b} + {a <> b}.
Proof.
  destruct (label_eqb_spec a b); [now left | now right].
Qed.



(** ** Lists and membership *)

Lemma mem_label_In (s : label) (l : list label) :
  mem_label s l = true <-> In s l.
Proof.
  unfold mem_label. rewrite existsb_exists. split.
  - intros [x [Hin Heq]]. apply label_eqb_eq in Heq. now subst.
  - intros Hin. exists s. split; [assumption | apply label_eqb_refl].
Qed.

Lemma mem_label_false (s : label) (l : list label) :
  mem_label s l = false <-> ~ In s l.
Proof.
  rewrite <- mem_label_In. destruct (mem_label s l); split; congruence.
Qed.

Lemma mem_Z_In (k : Z) (l : list Z) : mem_Z k l = true <-> In k l.
Proof.
  unfold mem_Z. rewrite existsb_exists. split.
  - intros [x [Hin Heq]]. apply Z.eqb_eq in Heq. now subst.
  - intros Hin. exists k. split; [assumption | apply Z.eqb_refl].
Qed.

Lemma mem_Z_false (k : Z) (l : list Z) : mem_Z k l = false <-> ~ In k l.
Proof.
  rewrite <- mem_Z_In. destruct (mem_Z k l); split; congruence.
Qed.

Lemma getitem_ok_iff (df : DataFrame) (names : list label) :
  (exists d, getitem df names = Ok d) <->
  forallb (fun n => mem_label n (columns df)) names = true.
Proof.
  unfold getitem.
  destruct (forallb _ names); split; intros H; try congruence.
  - eexists; reflexivity.
  - destruct H as [d H]. discriminate.
Qed.




(** ** What each click computes *)

(** With no box ticked, lines 55-100 leave [data] designating the stored
    table. *)
Lemma click_unticked (rd dm : bool) (fm : option string) (h : M outcome)
  (s : Session) :
  ticked rd dm fm = false ->
  click (Preprocessing rd dm fm ;; h) s = click h s.
Proof.
  destruct rd, dm, fm; try discriminate. intros _.
  unfold click, Preprocessing, bind, ret. reflexivity.
Qed.


Lemma reported_other (names : list label) :
  forallb is_text names = false -> reported names = Error TypeError.
Proof. unfold reported, join. now intros ->. Qed.

Lemma reported_success (names : list label) :
  reported names = Success -> forallb is_text names = true.
Proof. unfold reported, join. now destruct (forallb is_text names). Qed.

Lemma reported_if (names : list label) :
  reported names = if forallb is_text names then Success else Error TypeError.
Proof. unfold reported, join. now destruct (forallb is_text names). Qed.

Lemma reported_cases (names : list label) :
  reported names = Success \/ reported names = Error TypeError.
Proof. unfold reported, join. destruct (forallb is_text names); auto. Qed.

Lemma dropColumns_eq (s : Session) (names : list label) :
  dropColumns s names =
  match getitem (dataset s) names, drop_columns_of (dataset s) names with
  | Ok snap, Ok d =>
      (reported names,
       mkSession d
         (mkSettings (dropped_columns (settings s) ++ names)
                     (dropped_rows (settings s))
                     (dropped_rows_df (settings s)) snap))
  | _, _ => (Error KeyError, s)
  end.
Proof.
  destruct s as [d [dc dr drd dcd]]. unfold_script.
  unfold getitem, drop_columns_of, reported.
  destruct (forallb _ names); [|reflexivity].
  destruct (join ", " names); reflexivity.
Qed.

Lemma dropRows_eq (s : Session) (keys : list Z) :
  dropRows s keys =
  match loc (dataset s) keys, drop_index_of (dataset s) keys with
  | Ok snap, Ok d =>
      (Success,
       mkSession d
         (mkSettings (dropped_columns (settings s))
                     (dropped_rows (settings s) ++ keys)
                     snap (dropped_columns_df (settings s))))
  | _, _ => (Error KeyError, s)
  end.
Proof.
  destruct s as [d [dc dr drd dcd]]. unfold_script.
  unfold loc, drop_index_of.
  destruct (forallb _ keys); reflexivity.
Qed.

Lemma restoreColumns_eq (s : Session) (names : list label) :
  restoreColumns s names =
  if empty (dropped_columns_df (settings s)) then (Warning, s)
  else
    match getitem (dropped_columns_df (settings s)) names with
    | Raise e => (Error e, s)
    | Ok restored =>
        match concat_axis1 (dataset s) restored with
        | Raise e => (Error e, s)
        | Ok d =>
            (reported names,
             mkSession d
               (mkSettings
                  (filter (fun col => negb (mem_label col names))
                          (dropped_columns (settings s)))
                  (dropped_rows (settings s))
                  (dropped_rows_df (settings s))
                  (dropped_columns_df (settings s))))
        end
    end.
Proof.
  destruct s as [d [dc dr drd dcd]]. unfold_script.
  destruct (empty dcd); [reflexivity|].
  destruct (getitem dcd names) as [restored|e]; [|reflexivity].
  destruct (concat_axis1 d restored); [|reflexivity].
  unfold reported. destruct (join ", " names); reflexivity.
Qed.

Lemma restoreRows_eq (sort_rows : list row -> list row) (s : Session)
  (keys : list Z) :
  restoreRows sort_rows s keys =
  if empty (dropped_rows_df (settings s)) then (Warning, s)
  else
    match concat (dataset s) (loc_isin (dropped_rows_df (settings s)) keys) with
    | Raise e => (Error e, s)
    | Ok c =>
        (Success,
         mkSession (sort_index sort_rows c)
           (mkSettings
              (dropped_columns (settings s))
              (filter (fun k => negb (mem_Z k keys))
                      (dropped_rows (settings s)))
              (dropped_rows_df (settings s))
              (dropped_columns_df (settings s))))
    end.
Proof.
  destruct s as [d [dc dr drd dcd]]. unfold_script.
  destruct (empty drd); [reflexivity|].
  destruct (concat d (loc_isin drd keys)); reflexivity.
Qed.

(** ** Failed operations *)

Section Failure.

Variable sort_rows : list row -> list row.
Variable astype : string -> list value -> result (list value).
Variable df_eval : DataFrame -> string -> result (list value).






End Failure.


(** C6.  The claim fails on the code.  On the sheet whose header holds the
    numbers 2023 and 2024, "Drop Selected Columns" with the column 2024
    ends in the error branch, with the [TypeError] of line 132, and the
    call is not undone: the table has lost the column, the snapshot holds
    it and the label is listed as dropped.  "Restore Selected Columns" with
    that label then also ends in the error branch, with the [TypeError] of
    line 156, after the column was put back and the label taken off the
    list.  The handlers of the rows build the same message from
    [map(str, ...)]: dropping and restoring the row 0 of that sheet both
    report success. *)
Theorem column_drop_reports_error_after_dropping :
  dropColumns ledger_session [Number 2024]
  = (Error TypeError, ledger_without_2024) /\
  ledger_without_2024 <> ledger_session /\
  fst (restoreColumns ledger_without_2024 [Number 2024]) = Error TypeError /\
  columns (dataset (snd (restoreColumns ledger_without_2024 [Number 2024])))
  = [Text "item"; Number 2023; Number 2024] /\
  dropped_columns
    (settings (snd (restoreColumns ledger_without_2024 [Number 2024]))) = [] /\
  snd (restoreColumns ledger_without_2024 [Number 2024])
  <> ledger_without_2024 /\
  fst (dropRows ledger_session [0]) = Success /\
  fst (restoreRows insertion_sort (snd (dropRows ledger_session [0])) [0])
  = Success.
Proof.
  repeat split; try reflexivity; discriminate.
Qed.

(** ** Dropping and restoring columns *)

(** A drop of columns that was carried out: it reports success, or the
    error of line 132. *)
Lemma dropColumns_carried_out (s s' : Session) (names : list label)
  (o : outcome) :
  dropColumns s names = (o, s') ->
  o = Success \/ o = Error TypeError ->
  forallb (fun n => mem_label n (columns (dataset s))) names = true /\
  getitem (dataset s) names = Ok (dropped_columns_df (settings s')) /\
  drop_columns_of (dataset s) names = Ok (dataset s') /\
  dropped_columns (settings s') = dropped_columns (settings s) ++ names /\
  dropped_rows (settings s') = dropped_rows (settings s) /\
  dropped_rows_df (settings s') = dropped_rows_df (settings s).
Proof.
  rewrite dropColumns_eq.
  destruct (getitem (dataset s) names) as [snap|e] eqn:Hg.
  2:{ intros H [->| ->]; discriminate. }
  destruct (drop_columns_of (dataset s) names) as [d|e] eqn:Hd.
  2:{ intros H [->| ->]; discriminate. }
  intros H _. injection H as _ <-. cbn.
  repeat split; try reflexivity.
  apply getitem_ok_iff. now exists snap.
Qed.

Lemma dropColumns_success (s s' : Session) (names : list label) :
  dropColumns s names = (Success, s') ->
  forallb (fun n => mem_label n (columns (dataset s))) names = true /\
  getitem (dataset s) names = Ok (dropped_columns_df (settings s')) /\
  drop_columns_of (dataset s) names = Ok (dataset s') /\
  dropped_columns (settings s') = dropped_columns (settings s) ++ names /\
  dropped_rows (settings s') = dropped_rows (settings s) /\
  dropped_rows_df (settings s') = dropped_rows_df (settings s).
Proof.
  intros H. apply (dropColumns_carried_out _ _ H). now left.
Qed.

Lemma getitem_columns (df d : DataFrame) (names : list label) :
  getitem df names = Ok d ->
  forall c, In c (columns d) <-> In c names /\ In c (columns df).
Proof.
  unfold getitem. destruct (forallb _ names); [|discriminate].
  intros H. injection H as <-. cbn. intros c.
  rewrite in_flat_map. split.
  - intros [n [Hn Hc]]. apply filter_In in Hc as [Hc Heq].
    apply label_eqb_eq in Heq. subst. now split.
  - intros [Hn Hc]. exists c. split; [assumption|].
    apply filter_In. split; [assumption | apply label_eqb_refl].
Qed.

Lemma drop_columns_of_columns (df d : DataFrame) (names : list label) :
  drop_columns_of df names = Ok d ->
  columns d = filter (fun c => negb (mem_label c names)) (columns df).
Proof.
  unfold drop_columns_of. destruct (forallb _ names); [|discriminate].
  intros H. now injection H as <-.
Qed.

Lemma getitem_absent (df : DataFrame) (names : list label) (a : label) :
  In a names -> ~ In a (columns df) -> getitem df names = Raise KeyError.
Proof.
  intros Ha Hn. unfold getitem.
  destruct (forallb _ names) eqn:Hall; [|reflexivity].
  rewrite forallb_forall in Hall. specialize (Hall a Ha).
  apply mem_label_In in Hall. contradiction.
Qed.

(** C4. With none of the boxes "Remove Duplicates", "Drop Rows with
    Missing Values" and "Fill Missing Values" ticked: a drop of the columns
    [A] and then a drop of the columns [B], both carried out, overwrite the
    snapshot, so a restore of [A] right after fails and changes nothing:
    with the key error raised by the lookup of [A] in the snapshot, or with
    the nothing-to-restore warning when that snapshot is empty.  The
    columns of [A] are neither in the table nor in the snapshot. *)
Theorem restore_after_overwrite_fails (rd dm : bool) (fm : option string)
  (s s1 s2 : Session) (A B : list label) :
  ticked rd dm fm = false ->
  click (Preprocessing rd dm fm ;; Drop_Selected_Columns A) s
  = (reported A, s1) ->
  click (Preprocessing rd dm fm ;; Drop_Selected_Columns B) s1
  = (reported B, s2) ->
  A <> [] ->
  click (Preprocessing rd dm fm ;; Restore_Selected_Columns A) s2 =
    (if empty (dropped_columns_df (settings s2)) then Warning
     else Error KeyError, s2) /\
  forall a, In a A ->
    ~ In a (columns (dataset s2)) /\
    ~ In a (columns (dropped_columns_df (settings s2))).
Proof.
  intros Hbox HA HB Hne.
  rewrite (@click_unticked rd dm fm _ _ Hbox) in HA.
  rewrite (@click_unticked rd dm fm _ _ Hbox) in HB.
  rewrite (@click_unticked rd dm fm _ _ Hbox).
  change (click (Drop_Selected_Columns A) s) with (dropColumns s A) in HA.
  change (click (Drop_Selected_Columns B) s1) with (dropColumns s1 B) in HB.
  change (click (Restore_Selected_Columns A) s2) with (restoreColumns s2 A).
  destruct (dropColumns_carried_out _ _ HA (reported_cases A))
    as (_ & _ & HdA & _).
  destruct (dropColumns_carried_out _ _ HB (reported_cases B))
    as (_ & HgB & HdB & _).
  apply drop_columns_of_columns in HdA, HdB.
  assert (Hout : forall a, In a A -> ~ In a (columns (dataset s1))).
  { intros a Ha. rewrite HdA. intros Hin. apply filter_In in Hin as [_ Hin].
    apply negb_true_iff, mem_label_false in Hin. contradiction. }
  assert (Hlost : forall a, In a A ->
            ~ In a (columns (dataset s2)) /\
            ~ In a (columns (dropped_columns_df (settings s2)))).
  { intros a Ha. split.
    - rewrite HdB. intros Hin. apply filter_In in Hin as [Hin _].
      now apply (Hout a).
    - intros Hin. apply (getitem_columns _ _ HgB) in Hin as [_ Hin].
      now apply (Hout a). }
  split; [|exact Hlost].
  rewrite restoreColumns_eq.
  destruct (empty _); [reflexivity|].
  destruct A as [|a A]; [congruence|].
  rewrite (@getitem_absent _ (a :: A) a); [reflexivity | now left |].
  apply Hlost. now left.
Qed.

Lemma restore_after_overwrite_fails_witness :
  (ticked false false None = false /\
   click (Preprocessing false false None ;; Drop_Selected_Columns [Text "v"])
         sample_session = (reported [Text "v"], sample_without_v) /\
   click (Preprocessing false false None ;; Drop_Selected_Columns [Text "id"])
         sample_without_v = (reported [Text "id"], sample_without_v_id) /\
   [Text "v"] <> []) /\
  click (Preprocessing false false None ;; Restore_Selected_Columns [Text "v"])
        sample_without_v_id
  = (Error KeyError, sample_without_v_id).
Proof.
  split.
  - repeat split. discriminate.
  - apply (@restore_after_overwrite_fails false false None sample_session
             sample_without_v sample_without_v_id [Text "v"] [Text "id"]).
    + reflexivity.
    + reflexivity.
    + reflexivity.
    + discriminate.
Defined.

(** C4, as stated, fails: with the table [{id, v}], dropping [v], then
    [id], then restoring [v] ends in the error branch with a key error, not
    in the nothing-to-restore warning. *)
Lemma restore_after_overwrite_is_not_nothing_to_restore :
  dropColumns sample_session [Text "v"] = (Success, sample_without_v) /\
  dropColumns sample_without_v [Text "id"] = (Success, sample_without_v_id) /\
  fst (restoreColumns sample_without_v_id [Text "v"]) = Error KeyError /\
  fst (restoreColumns sample_without_v_id [Text "v"]) <> Warning.
Proof.
  repeat split. discriminate.
Qed.

Lemma getitem_nil (df : DataFrame) :
  getitem df [] = Ok (mkDF [] (map (fun r : row => (fst r, [])) (rows df))).
Proof. reflexivity. Qed.

Lemma concat_axis1_columns (a b d : DataFrame) :
  concat_axis1 a b = Ok d -> columns d = columns a ++ columns b.
Proof.
  unfold concat_axis1.
  destruct (list_Z_eqb _ _).
  - intros H. now injection H as <-.
  - destruct (_ && _); [|discriminate].
    intros H. now injection H as <-.
Qed.

Lemma concat_axis1_raises (a b : DataFrame) (e : exn) :
  concat_axis1 a b = Raise e -> e = InvalidIndexError.
Proof.
  unfold concat_axis1.
  destruct (list_Z_eqb _ _); [discriminate|].
  destruct (_ && _); [discriminate|].
  intros H. now injection H.
Qed.

(** C5. With an empty snapshot of dropped columns the restore ends in the
    nothing-to-restore warning and changes nothing, whatever the names.
    With a snapshot that is not empty and an empty list of names it does
    not: the restore runs with no column, and succeeds unless the alignment
    of the rows fails.  In both cases no column is added to the table. *)
Theorem restore_columns_guard (s : Session) (names : list label) :
  (empty (dropped_columns_df (settings s)) = true ->
   restoreColumns s names = (Warning, s)) /\
  (empty (dropped_columns_df (settings s)) = false ->
   fst (restoreColumns s []) = Success \/
   restoreColumns s [] = (Error InvalidIndexError, s)) /\
  (empty (dropped_columns_df (settings s)) = true \/ names = [] ->
   columns (dataset (snd (restoreColumns s names))) = columns (dataset s)).
Proof.
  assert (Hnil : columns (dataset (snd (restoreColumns s []))) =
                 columns (dataset s)).
  { rewrite restoreColumns_eq. destruct (empty _); [reflexivity|].
    rewrite getitem_nil.
    destruct (concat_axis1 _ _) as [d|e] eqn:Hc; [|reflexivity].
    cbn. rewrite (concat_axis1_columns _ _ Hc). cbn. apply app_nil_r. }
  split; [|split].
  - intros He. rewrite restoreColumns_eq, He. reflexivity.
  - intros He. rewrite restoreColumns_eq, He, getitem_nil.
    destruct (concat_axis1 _ _) as [d|e] eqn:Hc.
    + now left.
    + right. now rewrite (concat_axis1_raises _ _ Hc).
  - intros [He | ->]; [|exact Hnil].
    rewrite restoreColumns_eq, He. reflexivity.
Qed.

Lemma restore_columns_guard_witness :
  empty (dropped_columns_df (settings sample_session)) = true /\
  restoreColumns sample_session [Text "v"] = (Warning, sample_session).
Proof.
  split.
  - reflexivity.
  - apply (proj1 (restore_columns_guard sample_session [Text "v"])). reflexivity.
Defined.

(** C5, as stated, fails: after [v] was dropped from the table [{id, v}],
    a restore with an empty list of names ends in the success branch, not
    in the nothing-to-restore warning. *)
Lemma restore_columns_empty_names_succeeds :
  empty (dropped_columns_df (settings sample_without_v)) = false /\
  fst (restoreColumns sample_without_v []) = Success /\
  fst (restoreColumns sample_without_v []) <> Warning.
Proof.
  repeat split. discriminate.
Qed.

(** ** Labelled cells *)

Lemma labelled_fst_snd (l : list (label * value)) :
  labelled (map fst l) (map snd l) = l.
Proof.
  unfold labelled. induction l as [|[k v] l IH]; cbn; [reflexivity|].
  now rewrite IH.
Qed.

Lemma labelled_fst (cols : list label) (cells : list value) :
  List.length cells = List.length cols ->
  map fst (labelled cols cells) = cols.
Proof.
  unfold labelled. revert cells.
  induction cols as [|c cols IH]; intros [|v cells] H; cbn in *;
    try reflexivity; try discriminate.
  f_equal. apply IH. now injection H.
Qed.

Lemma filter_map_fst (P : label -> bool) (l : list (label * value)) :
  map fst (filter (fun p => P (fst p)) l) = filter P (map fst l).
Proof.
  induction l as [|[k v] l IH]; cbn; [reflexivity|].
  destruct (P k); cbn; now rewrite IH.
Qed.

Lemma labelled_filter (P : label -> bool) (cols : list label)
  (cells : list value) :
  List.length cells = List.length cols ->
  labelled (filter P cols)
           (map snd (filter (fun p => P (fst p)) (labelled cols cells)))
  = filter (fun p => P (fst p)) (labelled cols cells).
Proof.
  intros H.
  rewrite <- (labelled_fst cols cells H) at 1.
  rewrite <- filter_map_fst. apply labelled_fst_snd.
Qed.

Lemma labelled_app (c1 c2 : list label) (v1 v2 : list value) :
  List.length v1 = List.length c1 ->
  labelled (c1 ++ c2) (v1 ++ v2) = labelled c1 v1 ++ labelled c2 v2.
Proof.
  unfold labelled. revert v1.
  induction c1 as [|c c1 IH]; intros [|v v1] H; cbn in *;
    try reflexivity; try discriminate.
  f_equal. apply IH. now injection H.
Qed.

Lemma labelled_map (f : label -> value) (names : list label) :
  labelled names (map f names) = map (fun n => (n, f n)) names.
Proof.
  unfold labelled. induction names as [|n names IH]; cbn; [reflexivity|].
  now rewrite IH.
Qed.

Lemma named_app (n : label) (l1 l2 : list (label * value)) :
  named n (l1 ++ l2) = named n l1 ++ named n l2.
Proof. unfold named. now rewrite filter_app, map_app. Qed.

Lemma named_absent (n : label) (l : list (label * value)) :
  ~ In n (map fst l) -> named n l = [].
Proof.
  unfold named. induction l as [|[k v] l IH]; cbn; [reflexivity|].
  intros H. destruct (label_eqb_spec k n) as [->|Hne].
  - exfalso. apply H. now left.
  - apply IH. intros Hin. apply H. now right.
Qed.

Lemma named_present (n : label) (l : list (label * value)) :
  NoDup (map fst l) -> In n (map fst l) ->
  named n l = [hd VNaN (named n l)].
Proof.
  induction l as [|[k v] l IH]; cbn; [contradiction|].
  intros Hnd Hin. inversion Hnd as [|? ? Hk Hnd']; subst.
  unfold named. cbn. destruct (label_eqb_spec k n) as [->|Hne].
  - cbn. f_equal. fold (named n l). now apply named_absent.
  - apply IH; [assumption|]. destruct Hin as [Heq|Hin]; [contradiction|assumption].
Qed.

Lemma named_filter (P : label -> bool) (n : label)
  (l : list (label * value)) :
  named n (filter (fun p => P (fst p)) l) = if P n then named n l else [].
Proof.
  unfold named. induction l as [|[k v] l IH]; cbn.
  - now destruct (P n).
  - destruct (P k) eqn:HP; cbn; destruct (label_eqb_spec k n) as [->|Hne].
    + rewrite HP in *. cbn. now rewrite IH.
    + exact IH.
    + rewrite HP in *. exact IH.
    + exact IH.
Qed.

Lemma named_tabulate (f : label -> value) (names : list label) (c : label) :
  NoDup names ->
  named c (map (fun n => (n, f n)) names) = if mem_label c names then [f c] else [].
Proof.
  intros Hnd.
  destruct (mem_label c names) eqn:Hm.
  - apply mem_label_In in Hm.
    assert (Hfst : map fst (map (fun n => (n, f n)) names) = names).
    { rewrite map_map. cbn. apply map_id. }
    rewrite named_present; rewrite ?Hfst; try assumption.
    f_equal. clear Hfst. induction names as [|n names IH]; [contradiction|].
    inversion Hnd as [|? ? Hn Hnd']; subst.
    unfold named. cbn. destruct (label_eqb_spec n c) as [->|Hne].
    + reflexivity.
    + apply IH; [assumption|]. destruct Hm; [contradiction|assumption].
  - apply mem_label_false in Hm. apply named_absent.
    rewrite map_map. cbn. now rewrite map_id.
Qed.

Lemma flat_map_singletons {A B} (g : A -> list B) (h : A -> B) (l : list A) :
  (forall a, In a l -> g a = [h a]) -> flat_map g l = map h l.
Proof.
  induction l as [|a l IH]; cbn; intros H; [reflexivity|].
  rewrite (H a (or_introl eq_refl)). cbn. f_equal.
  apply IH. intros b Hb. apply H. now right.
Qed.

Lemma filter_eqb_NoDup (n : label) (l : list label) :
  NoDup l -> In n l -> filter (label_eqb n) l = [n].
Proof.
  induction l as [|c l IH]; cbn; [contradiction|].
  intros Hnd Hin. inversion Hnd as [|? ? Hc Hnd']; subst.
  destruct (label_eqb_spec n c) as [->|Hne].
  - f_equal. clear IH Hin Hnd Hnd'. induction l as [|x l IH]; [reflexivity|].
    cbn. destruct (label_eqb_spec c x) as [->|Hx].
    + exfalso. apply Hc. now left.
    + apply IH. intros H. apply Hc. now right.
  - apply IH; [assumption|]. destruct Hin as [Heq|Hin]; [congruence|assumption].
Qed.

Lemma select_names_NoDup (names cols : list label) :
  NoDup cols -> incl names cols ->
  flat_map (fun n => filter (label_eqb n) cols) names = names.
Proof.
  intros Hnd Hin.
  rewrite (@flat_map_singletons _ _ _ (fun n => n)).
  - apply map_id.
  - intros n Hn. apply filter_eqb_NoDup; [assumption | now apply Hin].
Qed.

(** ** Round trip on columns *)

Lemma getitem_well_formed (df : DataFrame) (names : list label) :
  well_formed df -> incl names (columns df) ->
  getitem df names =
  Ok (mkDF names
        (map (fun r : row => (fst r, map (cell (columns df) (snd r)) names))
             (rows df))).
Proof.
  intros [Hnd Hlen] Hin. unfold getitem.
  replace (forallb _ names) with true.
  2:{ symmetry. apply forallb_forall. intros n Hn.
      apply mem_label_In. now apply Hin. }
  rewrite (select_names_NoDup Hnd Hin). do 2 f_equal.
  apply map_ext_in. intros r Hr. f_equal.
  rewrite Forall_forall in Hlen. specialize (Hlen r Hr).
  apply flat_map_singletons. intros n Hn. unfold cell, cells_named.
  apply named_present; rewrite (labelled_fst _ _ Hlen);
    [assumption | now apply Hin].
Qed.

Lemma getitem_tabulated (names : list label) (f : row -> label -> value)
  (rs : list row) :
  NoDup names ->
  getitem (mkDF names (map (fun r : row => (fst r, map (f r) names)) rs)) names
  = Ok (mkDF names (map (fun r : row => (fst r, map (f r) names)) rs)).
Proof.
  intros Hnd. unfold getitem. cbn [columns rows].
  replace (forallb _ names) with true.
  2:{ symmetry. apply forallb_forall. intros n Hn. now apply mem_label_In. }
  rewrite (select_names_NoDup Hnd (incl_refl names)). do 2 f_equal.
  rewrite map_map. apply map_ext. intros r. cbn. f_equal.
  rewrite (@flat_map_singletons _ _ _ (f r)); [reflexivity|].
  intros n Hn. unfold cells_named. rewrite labelled_map, (named_tabulate _ _ Hnd).
  apply mem_label_In in Hn. now rewrite Hn.
Qed.

Lemma zip_rows_map (f g : row -> list value) (rs : list row) :
  zip_rows (map (fun r : row => (fst r, f r)) rs)
           (map (fun r : row => (fst r, g r)) rs)
  = map (fun r : row => (fst r, f r ++ g r)) rs.
Proof.
  induction rs as [|r rs IH]; cbn; [reflexivity|]. now rewrite IH.
Qed.

Lemma list_Z_eqb_refl (l : list Z) : list_Z_eqb l l = true.
Proof. unfold list_Z_eqb. destruct (list_eq_dec _ l l); congruence. Qed.

Lemma list_label_eqb_refl (l : list label) : list_label_eqb l l = true.
Proof.
  induction l as [|x l IH]; cbn; [reflexivity|].
  now rewrite label_eqb_refl, IH.
Qed.

Lemma kept_cells_length (P : label -> bool) (cols : list label)
  (cells : list value) :
  List.length cells = List.length cols ->
  List.length (map snd (filter (fun p => P (fst p)) (labelled cols cells)))
  = List.length (filter P cols).
Proof.
  intros H. rewrite <- (labelled_fst cols cells H) at 2.
  rewrite <- filter_map_fst. now rewrite !length_map.
Qed.

Lemma restored_cell (cols names : list label) (cells : list value)
  (c : label) :
  NoDup names ->
  List.length cells = List.length cols ->
  cell (filter (fun x => negb (mem_label x names)) cols ++ names)
       (map snd (filter (fun p => negb (mem_label (fst p) names))
                        (labelled cols cells))
        ++ map (cell cols cells) names) c
  = cell cols cells c.
Proof.
  intros Hnd Hlen. unfold cell at 1. unfold cells_named.
  rewrite labelled_app
    by (apply (kept_cells_length (fun x => negb (mem_label x names))), Hlen).
  rewrite named_app.
  rewrite (labelled_filter (fun x => negb (mem_label x names)) _ _ Hlen).
  rewrite (named_filter (fun x => negb (mem_label x names))).
  rewrite labelled_map, (named_tabulate _ _ Hnd).
  destruct (mem_label c names); cbn; [reflexivity|].
  now rewrite app_nil_r.
Qed.

(** C1. With none of the boxes "Remove Duplicates", "Drop Rows with
    Missing Values" and "Fill Missing Values" ticked, for a table with
    unique column names and one cell per column in every row, and a set [A]
    of its column names, the table having at least one row unless [A] is
    empty: the drop of [A] is carried out, and the restore of [A] then
    gives the table back up to column order.  The columns outside [A] keep
    their relative order, those of [A] follow, the index is the same and
    every column holds the values it held.  Both clicks report success when
    the names of [A] are text, and the error of their message otherwise,
    the work being done all the same; for an empty [A] the restore stops at
    its guard and leaves the table, which the drop did not change. *)
Theorem drop_then_restore_columns (rd dm : bool) (fm : option string)
  (s : Session) (A : list label) :
  ticked rd dm fm = false ->
  well_formed (dataset s) ->
  rows (dataset s) <> [] \/ A = [] ->
  NoDup A -> incl A (columns (dataset s)) ->
  exists s1 s2 o,
    click (Preprocessing rd dm fm ;; Drop_Selected_Columns A) s
    = (reported A, s1) /\
    click (Preprocessing rd dm fm ;; Restore_Selected_Columns A) s1
    = (o, s2) /\
    (o = reported A \/ (o = Warning /\ A = [])) /\
    columns (dataset s2) =
      filter (fun c => negb (mem_label c A)) (columns (dataset s)) ++ A /\
    index (dataset s2) = index (dataset s) /\
    forall c, column (dataset s2) c = column (dataset s) c.
Proof.
  intros Hbox Hwf Hrows Hnd Hin.
  enough (exists s1 s2 o,
            dropColumns s A = (reported A, s1) /\
            restoreColumns s1 A = (o, s2) /\
            (o = reported A \/ (o = Warning /\ A = [])) /\
            columns (dataset s2) =
              filter (fun c => negb (mem_label c A)) (columns (dataset s)) ++ A /\
            index (dataset s2) = index (dataset s) /\
            forall c, column (dataset s2) c = column (dataset s) c)
    as (s1 & s2 & o & H1 & H2 & H3).
  { exists s1, s2, o. rewrite !(@click_unticked rd dm fm _ _ Hbox).
    exact (conj H1 (conj H2 H3)). }
  clear Hbox.
  destruct s as [[cols rs] st]. cbn [dataset columns rows] in *.
  assert (Hall : forallb (fun n => mem_label n cols) A = true).
  { apply forallb_forall. intros n Hn. apply mem_label_In. now apply Hin. }
  assert (Hdrop :
            dropColumns (mkSession (mkDF cols rs) st) A =
            (reported A,
             mkSession
               (mkDF (filter (fun c => negb (mem_label c A)) cols)
                     (map (fun r : row =>
                             (fst r,
                              map snd
                                (filter (fun p => negb (mem_label (fst p) A))
                                        (labelled cols (snd r))))) rs))
               (mkSettings (dropped_columns st ++ A) (dropped_rows st)
                  (dropped_rows_df st)
                  (mkDF A (map (fun r : row =>
                                  (fst r, map (cell cols (snd r)) A)) rs))))).
  { rewrite dropColumns_eq. cbn [dataset settings].
    rewrite (getitem_well_formed Hwf Hin). unfold drop_columns_of.
    cbn [columns rows]. rewrite Hall. reflexivity. }
  assert (Hcells : forall r c, In r rs ->
            cell (filter (fun x => negb (mem_label x A)) cols ++ A)
                 (map snd (filter (fun p => negb (mem_label (fst p) A))
                                  (labelled cols (snd r)))
                  ++ map (cell cols (snd r)) A) c
            = cell cols (snd r) c).
  { intros r c Hr. destruct Hwf as [_ Hlen]. cbn [columns rows] in Hlen.
    rewrite Forall_forall in Hlen.
    apply restored_cell; [exact Hnd | exact (Hlen r Hr)]. }
  destruct A as [|a A'].
  - (* nothing selected: the snapshot has no column *)
    do 3 eexists. split; [exact Hdrop|]. split.
    { rewrite restoreColumns_eq. reflexivity. }
    split; [right; now split|].
    cbn [dataset columns rows]. split; [now rewrite app_nil_r|]. split.
    + unfold index. cbn [rows]. now rewrite map_map.
    + intros c. unfold column. cbn [columns rows]. rewrite map_map.
      apply map_ext_in. intros r Hr. cbn [snd].
      rewrite <- (Hcells r c Hr). cbn [map]. now rewrite !app_nil_r.
  - destruct Hrows as [Hrows|Hnil]; [|discriminate].
    do 3 eexists. split; [exact Hdrop|]. split.
    { rewrite restoreColumns_eq.
      cbn [dataset settings dropped_columns_df dropped_columns dropped_rows
           dropped_rows_df].
      replace (empty _) with false.
      2:{ unfold empty. cbn [columns rows].
          destruct rs; [congruence|]. reflexivity. }
      rewrite (getitem_tabulated (fun r => cell cols (snd r)) rs Hnd).
      unfold concat_axis1, index. cbn [columns rows].
      rewrite !map_map. cbn [fst]. rewrite list_Z_eqb_refl.
      reflexivity. }
    split; [now left|].
    cbn [dataset columns rows]. split; [reflexivity|]. split.
    + unfold index. cbn [rows].
      rewrite (zip_rows_map
                 (fun r => map snd (filter (fun p => negb (mem_label (fst p) (a :: A')))
                                           (labelled cols (snd r))))
                 (fun r => map (cell cols (snd r)) (a :: A'))).
      rewrite map_map. reflexivity.
    + intros c. unfold column. cbn [columns rows].
      rewrite (zip_rows_map
                 (fun r => map snd (filter (fun p => negb (mem_label (fst p) (a :: A')))
                                           (labelled cols (snd r))))
                 (fun r => map (cell cols (snd r)) (a :: A'))).
      rewrite map_map. apply map_ext_in. intros r Hr. cbn [snd].
      now apply Hcells.
Qed.

Lemma sample_table_well_formed : well_formed sample_table.
Proof.
  split.
  - repeat constructor; cbn; intuition discriminate.
  - repeat constructor.
Qed.

Lemma drop_then_restore_columns_witness :
  (ticked false false None = false /\
   well_formed (dataset sample_session) /\
   (rows (dataset sample_session) <> [] \/ [Text "v"] = []) /\
   NoDup [Text "v"] /\
   incl [Text "v"] (columns (dataset sample_session))) /\
  exists s1 s2 o,
    click (Preprocessing false false None ;; Drop_Selected_Columns [Text "v"])
          sample_session = (reported [Text "v"], s1) /\
    click (Preprocessing false false None ;;
           Restore_Selected_Columns [Text "v"]) s1 = (o, s2) /\
    (o = reported [Text "v"] \/ (o = Warning /\ [Text "v"] = [])) /\
    columns (dataset s2) =
      filter (fun c => negb (mem_label c [Text "v"]))
             (columns (dataset sample_session)) ++ [Text "v"] /\
    index (dataset s2) = index (dataset sample_session) /\
    forall c, column (dataset s2) c = column (dataset sample_session) c.
Proof.
  assert (H0 : ticked false false None = false) by reflexivity.
  assert (H1 : well_formed (dataset sample_session))
    by exact sample_table_well_formed.
  assert (H2 : rows (dataset sample_session) <> [] \/ [Text "v"] = [])
    by (left; discriminate).
  assert (H4 : NoDup [Text "v"]) by (repeat constructor; cbn; intuition).
  assert (H5 : incl [Text "v"] (columns (dataset sample_session))).
  { intros c [<-|[]]. cbn. now right; left. }
  split.
  - exact (conj H0 (conj H1 (conj H2 (conj H4 H5)))).
  - exact (@drop_then_restore_columns false false None sample_session
             [Text "v"] H0 H1 H2 H4 H5).
Defined.

(** C1, as stated, fails on a table without rows: the snapshot taken by
    the drop has the column but no row, the guard of the restore takes it
    for nothing to restore, and the column does not come back. *)
Lemma header_only_column_not_restored :
  well_formed (dataset header_only_session) /\
  dropColumns header_only_session [Text "v"]
  = (Success, snd (dropColumns header_only_session [Text "v"])) /\
  restoreColumns (snd (dropColumns header_only_session [Text "v"])) [Text "v"]
  = (Warning, snd (dropColumns header_only_session [Text "v"])) /\
  columns (dataset (snd (restoreColumns
                           (snd (dropColumns header_only_session [Text "v"]))
                           [Text "v"]))) = [Text "id"].
Proof.
  split; [|repeat split].
  split; [repeat constructor; cbn; intuition discriminate | constructor].
Qed.

(** ** Insertion sort meets the contract *)

Lemma insert_row_perm (r : row) (l : list row) :
  Permutation (r :: l) (insert_row r l).
Proof.
  induction l as [|h t IH]; cbn; [reflexivity|].
  destruct (fst r <=? fst h); [reflexivity|].
  rewrite perm_swap. now constructor.
Qed.

Lemma insert_row_sorted (r : row) (l : list row) :
  Sorted label_le l -> Sorted label_le (insert_row r l).
Proof.
  induction 1 as [|h t Hs IH Hhd]; cbn.
  - repeat constructor.
  - destruct (Z.leb_spec (fst r) (fst h)) as [Hle|Hgt].
    + constructor; [now constructor | now constructor].
    + constructor; [exact IH|].
      destruct t as [|h' t']; cbn.
      * constructor. unfold label_le. lia.
      * inversion Hhd; subst. destruct (fst r <=? fst h');
          constructor; unfold label_le in *; lia.
Qed.

Lemma insertion_sort_contract : sorts_by_label insertion_sort.
Proof.
  split; intros l; induction l as [|h t IH]; cbn.
  - reflexivity.
  - rewrite <- insert_row_perm. now constructor.
  - constructor.
  - now apply insert_row_sorted.
Qed.

(** ** Selecting rows by label *)

Lemma filter_partition_perm {A} (p : A -> bool) (l : list A) :
  Permutation l (filter (fun x => negb (p x)) l ++ filter p l).
Proof.
  induction l as [|x l IH]; cbn; [reflexivity|].
  destruct (p x); cbn.
  - now apply Permutation_cons_app.
  - now constructor.
Qed.

Lemma filter_or_perm {A} (p q : A -> bool) (l : list A) :
  (forall x, In x l -> p x = true -> q x = false) ->
  Permutation (filter (fun x => p x || q x) l) (filter p l ++ filter q l).
Proof.
  induction l as [|x l IH]; cbn; intros H; [reflexivity|].
  assert (IH' := IH (fun y Hy => H y (or_intror Hy))).
  destruct (p x) eqn:Hp; cbn.
  - rewrite (H x (or_introl eq_refl) Hp). now constructor.
  - destruct (q x); [|exact IH'].
    now apply Permutation_cons_app.
Qed.

Lemma rows_labelled_perm (keys : list Z) (l : list row) :
  NoDup keys ->
  Permutation (filter (fun r : row => mem_Z (fst r) keys) l)
              (flat_map (fun k => filter (fun r : row => Z.eqb (fst r) k) l) keys).
Proof.
  induction 1 as [|k keys Hk Hnd IH]; cbn.
  - induction l; [reflexivity | assumption].
  - rewrite <- IH. apply filter_or_perm.
    intros r _ Heq. apply Z.eqb_eq in Heq. apply mem_Z_false. now rewrite Heq.
Qed.

Lemma isin_of_loc (keys : list Z) (l : list row) :
  filter (fun r : row => mem_Z (fst r) keys)
         (flat_map (fun k => filter (fun r : row => Z.eqb (fst r) k) l) keys)
  = flat_map (fun k => filter (fun r : row => Z.eqb (fst r) k) l) keys.
Proof.
  apply forallb_filter_id. apply forallb_forall. intros r Hr.
  apply in_flat_map in Hr as [k [Hk Hr]]. apply filter_In in Hr as [_ Heq].
  apply Z.eqb_eq in Heq. apply mem_Z_In. now rewrite Heq.
Qed.

Lemma loc_rows_nonempty (keys : list Z) (l : list row) :
  keys <> [] -> incl keys (map fst l) ->
  flat_map (fun k => filter (fun r : row => Z.eqb (fst r) k) l) keys <> [].
Proof.
  destruct keys as [|k keys]; [congruence|]. intros _ Hin. cbn.
  assert (Hk : In k (map fst l)) by (apply Hin; now left).
  apply in_map_iff in Hk as [r [Hr Hl]].
  intros Hnil. apply app_eq_nil in Hnil as [Hnil _].
  assert (Hf : In r (filter (fun r : row => Z.eqb (fst r) k) l)).
  { apply filter_In. split; [assumption|]. now apply Z.eqb_eq. }
  rewrite Hnil in Hf. contradiction.
Qed.

(** ** Dropping and restoring rows *)

Lemma empty_false_iff (df : DataFrame) :
  empty df = false <-> columns df <> [] /\ rows df <> [].
Proof.
  unfold empty. destruct (columns df), (rows df); split; intros H;
    try discriminate; try reflexivity; try (split; discriminate);
    destruct H; congruence.
Qed.


Lemma concat_same_columns (a b : DataFrame) :
  columns a = columns b ->
  concat a b = Ok (mkDF (columns a) (rows a ++ rows b)).
Proof.
  intros Heq. unfold concat. now rewrite Heq, list_label_eqb_refl.
Qed.


Section Rows.

Variable sort_rows : list row -> list row.
Hypothesis sort_rows_contract : sorts_by_label sort_rows.


(** C2. With none of the boxes "Remove Duplicates", "Drop Rows with
    Missing Values" and "Fill Missing Values" ticked, for a table with at
    least one column and a non-empty set of its row labels: dropping those
    rows and then restoring them both succeed; the table has its columns
    and, up to order, its rows again, and the rows are in ascending order
    of their labels. *)
Theorem drop_then_restore_rows (rd dm : bool) (fm : option string)
  (s : Session) (keys : list Z) :
  ticked rd dm fm = false ->
  columns (dataset s) <> [] ->
  keys <> [] -> NoDup keys -> incl keys (index (dataset s)) ->
  exists s1 s2,
    click (Preprocessing rd dm fm ;; Drop_Selected_Rows keys) s
    = (Success, s1) /\
    click (Preprocessing rd dm fm ;; Restore_Selected_Rows sort_rows keys) s1
    = (Success, s2) /\
    columns (dataset s2) = columns (dataset s) /\
    Permutation (rows (dataset s)) (rows (dataset s2)) /\
    Sorted label_le (rows (dataset s2)).
Proof.
  intros Hbox Hcols Hkeys Hnd Hin.
  enough (exists s1 s2,
            dropRows s keys = (Success, s1) /\
            restoreRows sort_rows s1 keys = (Success, s2) /\
            columns (dataset s2) = columns (dataset s) /\
            Permutation (rows (dataset s)) (rows (dataset s2)) /\
            Sorted label_le (rows (dataset s2)))
    as (s1 & s2 & H1 & H2 & H3).
  { exists s1, s2. rewrite !(@click_unticked rd dm fm _ _ Hbox).
    exact (conj H1 (conj H2 H3)). }
  clear Hbox.
  destruct s as [[cols rs] st]. cbn [dataset columns rows] in *.
  unfold index in Hin. cbn [rows] in Hin.
  assert (Hall : forallb (fun k => mem_Z k (map fst rs)) keys = true).
  { apply forallb_forall. intros k Hk. apply mem_Z_In. now apply Hin. }
  eexists. eexists. split; [|split].
  - rewrite dropRows_eq. unfold loc, drop_index_of, index.
    cbn [dataset columns rows]. rewrite Hall. reflexivity.
  - rewrite restoreRows_eq.
    cbn [dataset settings dropped_rows_df dropped_columns dropped_rows
         dropped_columns_df].
    replace (empty _) with false.
    2:{ symmetry. apply empty_false_iff. cbn [columns rows].
        split; [assumption | now apply loc_rows_nonempty]. }
    rewrite concat_same_columns by reflexivity.
    reflexivity.
  - cbn [dataset columns rows sort_index loc_isin]. split; [reflexivity|].
    split; [|apply sort_rows_contract].
    rewrite <- (proj1 sort_rows_contract).
    rewrite isin_of_loc, <- (rows_labelled_perm rs Hnd).
    apply filter_partition_perm.
Qed.

End Rows.


Lemma drop_then_restore_rows_witness :
  (sorts_by_label insertion_sort /\
   ticked false false None = false /\
   columns (dataset sample_session) <> [] /\
   [1; 0] <> [] /\ NoDup [1; 0] /\
   incl [1; 0] (index (dataset sample_session))) /\
  exists s1 s2,
    click (Preprocessing false false None ;; Drop_Selected_Rows [1; 0])
          sample_session = (Success, s1) /\
    click (Preprocessing false false None ;;
           Restore_Selected_Rows insertion_sort [1; 0]) s1 = (Success, s2) /\
    columns (dataset s2) = columns (dataset sample_session) /\
    Permutation (rows (dataset sample_session)) (rows (dataset s2)) /\
    Sorted label_le (rows (dataset s2)).
Proof.
  assert (H0 : ticked false false None = false) by reflexivity.
  assert (H1 : columns (dataset sample_session) <> []) by discriminate.
  assert (H2 : [1; 0] <> []) by discriminate.
  assert (H3 : NoDup [1; 0]) by (repeat constructor; cbn; intuition lia).
  assert (H4 : incl [1; 0] (index (dataset sample_session))).
  { intros k [<-|[<-|[]]]; cbn; tauto. }
  split.
  - exact (conj insertion_sort_contract
             (conj H0 (conj H1 (conj H2 (conj H3 H4))))).
  - exact (@drop_then_restore_rows insertion_sort insertion_sort_contract
             false false None sample_session [1; 0] H0 H1 H2 H3 H4).
Defined.


(** C2, as stated, fails in two corners.  With no label selected on a table
    whose index is not ascending, the restore stops at its guard and the
    rows stay in the order they had.  On a table without columns, the
    snapshot of the dropped row counts as nothing to restore and the row
    does not come back. *)
Lemma drop_restore_rows_corners :
  (fst (dropRows unsorted_session []) = Success /\
   restoreRows insertion_sort (snd (dropRows unsorted_session [])) []
   = (Warning, snd (dropRows unsorted_session [])) /\
   ~ Sorted label_le (rows (dataset (snd (dropRows unsorted_session []))))) /\
  (fst (dropRows sample_without_v_id [1]) = Success /\
   restoreRows insertion_sort (snd (dropRows sample_without_v_id [1])) [1]
   = (Warning, snd (dropRows sample_without_v_id [1])) /\
   index (dataset sample_without_v_id) = [0; 1; 2] /\
   index (dataset (snd (dropRows sample_without_v_id [1]))) = [0; 2]).
Proof.
  split; [split; [reflexivity | split; [reflexivity|]] | repeat split].
  cbn. intros H. inversion H as [|? ? _ Hhd]; subst.
  inversion Hhd as [|? ? Hle]; subst. unfold label_le in Hle. cbn in Hle. lia.
Qed.

(** ** The edit history along a sequence of operations *)

Lemma restoreColumns_success (s s' : Session) (names : list label) :
  restoreColumns s names = (Success, s') ->
  dropped_columns (settings s') =
    filter (fun c => negb (mem_label c names)) (dropped_columns (settings s)) /\
  dropped_columns_df (settings s') = dropped_columns_df (settings s) /\
  dropped_rows (settings s') = dropped_rows (settings s) /\
  dropped_rows_df (settings s') = dropped_rows_df (settings s) /\
  forall n, In n names -> In n (columns (dropped_columns_df (settings s))).
Proof.
  rewrite restoreColumns_eq. destruct (empty _); [discriminate|].
  destruct (getitem _ names) as [restored|e] eqn:Hg; [|discriminate].
  destruct (concat_axis1 _ restored); [|discriminate].
  intros H. injection H as _ <-. cbn. repeat split.
  intros n Hn.
  assert (Hall : forallb
            (fun n => mem_label n (columns (dropped_columns_df (settings s))))
            names = true) by (apply getitem_ok_iff; now exists restored).
  rewrite forallb_forall in Hall. now apply mem_label_In, Hall.
Qed.

Lemma restoreRows_success (sort_rows : list row -> list row) (s s' : Session)
  (keys : list Z) :
  restoreRows sort_rows s keys = (Success, s') ->
  dropped_rows (settings s') =
    filter (fun k => negb (mem_Z k keys)) (dropped_rows (settings s)) /\
  dropped_rows_df (settings s') = dropped_rows_df (settings s) /\
  dropped_columns (settings s') = dropped_columns (settings s) /\
  dropped_columns_df (settings s') = dropped_columns_df (settings s).
Proof.
  rewrite restoreRows_eq. destruct (empty _); [discriminate|].
  destruct (concat _ _); [|discriminate].
  intros H. injection H as <-. cbn. repeat split.
Qed.

Lemma dropRows_success (s s' : Session) (keys : list Z) :
  dropRows s keys = (Success, s') ->
  loc (dataset s) keys = Ok (dropped_rows_df (settings s')) /\
  drop_index_of (dataset s) keys = Ok (dataset s') /\
  dropped_rows (settings s') = dropped_rows (settings s) ++ keys /\
  dropped_columns (settings s') = dropped_columns (settings s) /\
  dropped_columns_df (settings s') = dropped_columns_df (settings s).
Proof.
  rewrite dropRows_eq.
  destruct (loc (dataset s) keys) as [snap|e]; [|discriminate].
  destruct (drop_index_of (dataset s) keys) as [d|e]; [|discriminate].
  intros H. injection H as <-. cbn. repeat split.
Qed.

Lemma loc_index (df d : DataFrame) (keys : list Z) :
  loc df keys = Ok d -> forall k, In k keys -> In k (index d).
Proof.
  unfold loc. destruct (forallb _ keys) eqn:Hall; [|discriminate].
  intros H. injection H as <-. intros k Hk. unfold index. cbn [rows].
  rewrite forallb_forall in Hall. specialize (Hall k Hk).
  apply mem_Z_In in Hall. unfold index in Hall.
  apply in_map_iff in Hall as [r [Hr Hin]].
  apply in_map_iff. exists r. split; [assumption|].
  apply in_flat_map. exists k. split; [assumption|].
  apply filter_In. split; [assumption | now apply Z.eqb_eq].
Qed.

Section History.

Variable sort_rows : list row -> list row.
Variable astype : string -> list value -> result (list value).
Variable df_eval : DataFrame -> string -> result (list value).

Lemma snapshots_after (op : operation) (s s' : Session) (o : outcome) :
  apply sort_rows astype df_eval op s = (o, s') ->
  ((exists names, op = DropColumns names /\
                  (o = Success \/ o = Error TypeError)) \/
   dropped_columns_df (settings s') = dropped_columns_df (settings s)) /\
  ((exists keys, op = DropRows keys /\ o = Success) \/
   dropped_rows_df (settings s') = dropped_rows_df (settings s)).
Proof.
  destruct op as [names|names|keys|keys|c t|old new|f|others k].
  - change (apply sort_rows astype df_eval (DropColumns names) s)
      with (dropColumns s names).
    rewrite dropColumns_eq.
    destruct (getitem _ _); [destruct (drop_columns_of _ _)|].
    + intros H. injection H as <- <-. split; [left|now right].
      exists names. split; [reflexivity | apply reported_cases].
    + intros H. injection H as _ <-. now split; right.
    + intros H. injection H as _ <-. now split; right.
  - change (apply sort_rows astype df_eval (RestoreColumns names) s)
      with (restoreColumns s names).
    rewrite restoreColumns_eq. destruct (empty _).
    + intros H. injection H as _ <-. now split; right.
    + destruct (getitem _ names) as [restored|e].
      * destruct (concat_axis1 _ restored); intros H; injection H as _ <-;
          now split; right.
      * intros H. injection H as _ <-. now split; right.
  - change (apply sort_rows astype df_eval (DropRows keys) s)
      with (dropRows s keys).
    destruct o; intros H.
    1:{ split; [|left; now exists keys].
        right. now apply dropRows_success in H. }
    all: rewrite dropRows_eq in H;
      destruct (loc _ _); [destruct (drop_index_of _ _)|];
      try discriminate; injection H as _ <-; now split; right.
  - change (apply sort_rows astype df_eval (RestoreRows keys) s)
      with (restoreRows sort_rows s keys).
    rewrite restoreRows_eq. destruct (empty _).
    + intros H. injection H as _ <-. now split; right.
    + destruct (concat _ _); intros H; injection H as _ <-; now split; right.
  - destruct s as [d st]. unfold_script.
    destruct (positions c (columns d) 0) as [|j js].
    + intros H. injection H as _ <-. now split; right.
    + destruct (result_all _); intros H; injection H as _ <-; now split; right.
  - destruct s as [d st]. unfold_script.
    destruct (String.eqb new ""); intros H; injection H as _ <-;
      now split; right.
  - destruct s as [d st]. unfold_script.
    destruct (String.eqb f "").
    + intros H; injection H as _ <-; now split; right.
    + destruct (split_on "=" f) as [|a [|b [|x l]]];
        try (intros H; injection H as _ <-; now split; right).
      destruct (df_eval d (strip b)); intros H; injection H as _ <-;
        now split; right.
  - destruct s as [d st]. unfold_script.
    destruct others as [|x others].
    + intros H; injection H as _ <-; now split; right.
    + destruct (merge_loop d (x :: others) k).
      * destruct (String.eqb k ""); intros H; injection H as _ <-;
          now split; right.
      * intros H; injection H as _ <-; now split; right.
Qed.

Lemma step_tracked_retrievable (t : Tracked) (op : operation) :
  last_drop_retrievable t ->
  last_drop_retrievable (step_tracked sort_rows astype df_eval t op).
Proof.
  intros [Hc Hr]. unfold step_tracked.
  destruct (apply sort_rows astype df_eval op (now t)) as [o s'] eqn:E.
  destruct (snapshots_after _ _ E) as [Hcols Hrows].
  assert (Hdrop : forall names,
            op = DropColumns names -> o = Success \/ o = Error TypeError ->
            last_drop_retrievable (mkTracked s' names (last_rows t))).
  { intros names -> Ho.
    change (apply sort_rows astype df_eval (DropColumns names) (now t))
      with (dropColumns (now t) names) in E.
    apply (dropColumns_carried_out _ _ E) in Ho
      as (_ & Hg & _ & _ & _ & Hrdf).
    split; cbn.
    - intros n Hn. apply (getitem_columns _ _ Hg). split; [assumption|].
      assert (Hall : forallb (fun n => mem_label n (columns (dataset (now t))))
                             names = true)
        by (apply getitem_ok_iff; eexists; exact Hg).
      rewrite forallb_forall in Hall. now apply mem_label_In, Hall.
    - intros k Hk. rewrite Hrdf. now apply Hr. }
  destruct op as [names|names|keys|keys|c ty|old new|f|others k];
    destruct o as [| |e|e]; try destruct e;
    try (apply Hdrop; [reflexivity | auto]; fail);
    try (destruct Hcols as [[? [? [?|?]]]|Hcols];
         [discriminate | discriminate |];
         destruct Hrows as [[? [? ?]]|Hrows]; [discriminate|];
         split; cbn; intros x Hx;
         [rewrite Hcols; now apply Hc | rewrite Hrows; now apply Hr]).
  change (apply sort_rows astype df_eval (DropRows keys) (now t))
      with (dropRows (now t) keys) in E.
    apply dropRows_success in E as (Hl & _ & _ & _ & Hcdf).
    split; cbn.
    + intros n Hn. rewrite Hcdf. now apply Hc.
    + intros k Hk. now apply (loc_index _ _ Hl).
Qed.

Lemma run_tracked_retrievable (ops : list operation) (t : Tracked) :
  last_drop_retrievable t ->
  last_drop_retrievable (run_tracked sort_rows astype df_eval ops t).
Proof.
  unfold run_tracked. revert t.
  induction ops as [|op ops IH]; intros t Ht; [exact Ht|].
  cbn [fold_left]. apply IH. now apply step_tracked_retrievable.
Qed.

Lemma run_tracked_now (ops : list operation) (t : Tracked) :
  now (run_tracked sort_rows astype df_eval ops t)
  = run sort_rows astype df_eval ops (now t).
Proof.
  unfold run_tracked, run. revert t.
  induction ops as [|op ops IH]; intros t; [reflexivity|].
  cbn [fold_left]. rewrite IH. f_equal. unfold step_tracked.
  destruct (apply sort_rows astype df_eval op (now t)) as [o s'].
  destruct op; destruct o as [| |e|e]; try destruct e; reflexivity.
Qed.

End History.

(** C3. After any sequence of operations, the names of the most recent
    column drop that was carried out are columns of the column snapshot,
    and the labels of the most recent row drop that went through are in the
    index of the row snapshot.  A restore that goes through removes exactly the requested
    names, or labels, from the dropped list, keeps the others in their
    order, and leaves both snapshots as they were. *)
Theorem edit_history_after_any_sequence
  (sort_rows : list row -> list row)
  (astype : string -> list value -> result (list value))
  (df_eval : DataFrame -> string -> result (list value))
  (ops : list operation) (s : Session) :
  let t := run_tracked sort_rows astype df_eval ops (mkTracked s [] []) in
  (now t = run sort_rows astype df_eval ops s /\ last_drop_retrievable t) /\
  (forall names s',
     restoreColumns (now t) names = (Success, s') ->
     dropped_columns (settings s') =
       filter (fun c => negb (mem_label c names))
              (dropped_columns (settings (now t))) /\
     dropped_columns_df (settings s') = dropped_columns_df (settings (now t)) /\
     dropped_rows_df (settings s') = dropped_rows_df (settings (now t))) /\
  (forall keys s',
     restoreRows sort_rows (now t) keys = (Success, s') ->
     dropped_rows (settings s') =
       filter (fun k => negb (mem_Z k keys))
              (dropped_rows (settings (now t))) /\
     dropped_columns_df (settings s') = dropped_columns_df (settings (now t)) /\
     dropped_rows_df (settings s') = dropped_rows_df (settings (now t))).
Proof.
  intros t. split; [split|split].
  - apply run_tracked_now.
  - apply run_tracked_retrievable. split; cbn; contradiction.
  - intros names s' H.
    apply restoreColumns_success in H as (H1 & H2 & _ & H3 & _). auto.
  - intros keys s' H.
    apply restoreRows_success in H as (H1 & H2 & _ & H3). auto.
Qed.

Lemma edit_history_after_any_sequence_witness :
  restoreColumns sample_without_v [Text "v"]
  = (Success, snd (restoreColumns sample_without_v [Text "v"])) /\
  dropped_columns (settings (snd (restoreColumns sample_without_v [Text "v"])))
  = filter (fun c => negb (mem_label c [Text "v"]))
           (dropped_columns (settings sample_without_v)).
Proof.
  split; [reflexivity|].
  exact (proj1 (proj1 (proj2 (edit_history_after_any_sequence
                                insertion_sort astype_refuses eval_refuses
                                [DropColumns [Text "v"]] sample_session))
                      [Text "v"] (snd (restoreColumns sample_without_v [Text "v"]))
                      eq_refl)).
Defined.

(** C3, as stated, fails.  After [v] and then [id] were dropped from the
    table [{id, v}], the name [v] is listed in [dropped_columns] and is not
    a column of the snapshot, which the second drop overwrote.  And after
    [v] was dropped and restored, [v] has left [dropped_columns] and is
    still a column of the snapshot. *)
Lemma dropped_name_not_in_snapshot :
  (In (Text "v") (dropped_columns (settings sample_without_v_id)) /\
   ~ In (Text "v") (columns (dropped_columns_df (settings sample_without_v_id))) /\
   getitem (dropped_columns_df (settings sample_without_v_id)) [Text "v"]
   = Raise KeyError) /\
  (fst (restoreColumns sample_without_v [Text "v"]) = Success /\
   ~ In (Text "v") (dropped_columns
               (settings (snd (restoreColumns sample_without_v [Text "v"])))) /\
   In (Text "v") (columns (dropped_columns_df
                      (settings (snd (restoreColumns sample_without_v [Text "v"])))))).
Proof.
  split; split.
  - cbn. tauto.
  - split; [|reflexivity]. cbn. intuition discriminate.
  - reflexivity.
  - split; cbn; tauto.
Qed.

(** ** Filter *)

Lemma re_compile_no_meta (pat : string) :
  no_meta pat ->
  re_compile pat = Some (map Lit (list_ascii_of_string pat)).
Proof.
  unfold no_meta. induction pat as [|c pat IH]; cbn; [reflexivity|].
  intros H. inversion H as [|? ? Hc Hrest]; subst.
  destruct (Ascii.eqb_spec c ".") as [->|_]; [discriminate|].
  rewrite Hc, (IH Hrest). reflexivity.
Qed.

Lemma re_match_literal (pat s : string) :
  re_match (map Lit (list_ascii_of_string pat)) s = true <->
  exists post, s = String.append pat post.
Proof.
  revert s. induction pat as [|c pat IH]; intros s; cbn.
  - split; [intros _; now exists s | reflexivity].
  - destruct s as [|x s]; cbn.
    + split; [discriminate | intros [post H]; discriminate].
    + rewrite andb_true_iff, IH. split.
      * intros [Hx [post ->]]. apply Ascii.eqb_eq in Hx. subst. now exists post.
      * intros [post H]. injection H as -> ->. split.
        -- apply Ascii.eqb_refl.
        -- now exists post.
Qed.

Lemma re_search_literal (pat s : string) :
  re_search (map Lit (list_ascii_of_string pat)) s = true <->
  substring_of pat s.
Proof.
  unfold substring_of. induction s as [|x s IH]; cbn [re_search].
  - rewrite orb_false_r, re_match_literal. split.
    + intros [post H]. now exists EmptyString, post.
    + intros [[|c pre] [post H]]; [now exists post | discriminate].
  - rewrite orb_true_iff, re_match_literal, IH. split.
    + intros [[post H] | [pre [post H]]].
      * now exists EmptyString, post.
      * exists (String x pre), post. cbn. now rewrite H.
    + intros [[|c pre] [post H]].
      * left. now exists post.
      * right. cbn in H. injection H as -> ->. now exists pre, post.
Qed.

Lemma positions_absent (n : label) (cols : list label) (from : nat) :
  ~ In n cols -> positions n cols from = [].
Proof.
  revert from. induction cols as [|c cols IH]; intros from H; cbn; [reflexivity|].
  destruct (label_eqb_spec c n) as [->|Hne].
  - exfalso. apply H. now left.
  - apply IH. intros Hin. apply H. now right.
Qed.

Lemma positions_NoDup (n : label) (cols : list label) (from : nat) :
  NoDup cols -> In n cols -> exists j, positions n cols from = [j].
Proof.
  revert from. induction cols as [|c cols IH]; intros from Hnd Hin; cbn;
    [contradiction|].
  inversion Hnd as [|? ? Hc Hnd']; subst.
  destruct (label_eqb_spec c n) as [->|Hne].
  - exists from. now rewrite positions_absent.
  - apply IH; [assumption|]. destruct Hin; [contradiction|assumption].
Qed.

(** C8. On a table with unique column names, for a chosen column and a
    filter text without any of the characters [. ^ $ * + ? { } [ ] \ | ( )],
    the filter keeps, in their order, exactly the rows whose value in that
    column, converted to text, has the filter text as a substring, with
    case respected.  A filter text with such a character is a pattern. *)
Theorem filter_keeps_literal_matches (data : DataFrame)
  (col_to_filter : label) (filter_value : string) :
  NoDup (columns data) -> In col_to_filter (columns data) ->
  no_meta filter_value ->
  exists keep : row -> bool,
    (forall r, keep r = true <->
       substring_of filter_value
         (to_text (cell (columns data) (snd r) col_to_filter))) /\
    Apply_Filter data col_to_filter filter_value
    = Some (Ok (mkDF (columns data) (filter keep (rows data)))).
Proof.
  intros Hnd Hin Hpat.
  exists (fun r : row =>
            re_search (map Lit (list_ascii_of_string filter_value))
                      (to_text (cell (columns data) (snd r) col_to_filter))).
  split.
  - intros r. apply re_search_literal.
  - unfold Apply_Filter.
    destruct (@positions_NoDup col_to_filter (columns data) 0%nat Hnd Hin)
      as [j ->].
    now rewrite (re_compile_no_meta Hpat).
Qed.

Lemma filter_keeps_literal_matches_witness :
  (NoDup (columns codes_table) /\ In (Text "code") (columns codes_table) /\
   no_meta "ac") /\
  exists keep : row -> bool,
    (forall r, keep r = true <->
       substring_of "ac" (to_text (cell (columns codes_table) (snd r) (Text "code"))))
    /\
    Apply_Filter codes_table (Text "code") "ac"
    = Some (Ok (mkDF (columns codes_table) (filter keep (rows codes_table)))).
Proof.
  assert (H1 : NoDup (columns codes_table))
    by (repeat constructor; cbn; intuition).
  assert (H2 : In (Text "code") (columns codes_table)) by (cbn; tauto).
  assert (H3 : no_meta "ac") by (repeat constructor).
  split; [exact (conj H1 (conj H2 H3))|].
  exact (@filter_keeps_literal_matches codes_table (Text "code") "ac" H1 H2 H3).
Defined.

(** C8, as stated, fails: the filter text [a.c] is read as a pattern whose
    dot stands for any character, and the row holding [abc] is kept
    although [a.c] is not a substring of [abc]. *)
Lemma filter_value_is_a_pattern :
  Apply_Filter codes_table (Text "code") "a.c"
  = Some (Ok (mkDF [Text "code"] [(0, [VStr "abc"]); (1, [VStr "a.c"])])) /\
  to_text (cell (columns codes_table) [VStr "abc"] (Text "code")) = "abc" /\
  ~ substring_of "a.c" "abc".
Proof.
  split; [reflexivity|]. split; [reflexivity|].
  intros H. apply re_search_literal in H. discriminate.
Qed.

(** ** Merge/Join *)

Lemma value_eqb_eq (a b : value) : value_eqb a b = true <-> a = b.
Proof.
  destruct a, b; cbn; split; intros H; try discriminate; try reflexivity.
  - apply Z.eqb_eq in H. now subst.
  - injection H as ->. apply Z.eqb_refl.
  - apply String.eqb_eq in H. now subst.
  - injection H as ->. apply String.eqb_refl.
Qed.

Lemma merge_without_key_right (left right : DataFrame) (on : label) :
  ~ In on (columns right) -> merge left right on = Raise KeyError.
Proof.
  intros H. unfold merge. apply mem_label_false in H. now rewrite H.
Qed.

Lemma merge_without_key (left right : DataFrame) (on : label) :
  ~ In on (columns left) \/ ~ In on (columns right) ->
  exists e, merge left right on = Raise e.
Proof.
  intros H. unfold merge.
  destruct (mem_label on (columns right)) eqn:Hr; cbn [negb]; [|now eexists].
  destruct (1 <? count_label on (columns right))%nat; [now eexists|].
  destruct (mem_label on (columns left)) eqn:Hl; cbn [negb]; [|now eexists].
  apply mem_label_In in Hr, Hl. tauto.
Qed.


(** A table without the key anywhere in the chain makes the loop fail. *)
Lemma merge_loop_without_key (acc : DataFrame) (rest : list DataFrame)
  (on : string) :
  on <> "" -> rest <> [] ->
  (exists d, In d (acc :: rest) /\ ~ In (Text on) (columns d)) ->
  exists e, merge_loop acc rest on = Raise e.
Proof.
  intros Hon. apply String.eqb_neq in Hon.
  revert acc. induction rest as [|df t IH]; intros acc Hne Hmiss;
    [congruence|].
  cbn [merge_loop]. rewrite Hon.
  destruct (merge acc df (Text on)) as [acc'|e] eqn:Hm; [|now exists e].
  cbn [result_bind].
  destruct Hmiss as [d [[<-|[<-|Hd]] Hd']].
  - destruct (@merge_without_key acc df (Text on) (or_introl Hd')) as [e He].
    congruence.
  - destruct (@merge_without_key acc df (Text on) (or_intror Hd')) as [e He].
    congruence.
  - apply IH.
    + intros ->. contradiction.
    + exists d. split; [now right | assumption].
Qed.

Lemma NoDup_app_disjoint {A} (a b : list A) (x : A) :
  NoDup (a ++ b) -> In x a -> In x b -> False.
Proof.
  induction a as [|y a IH]; cbn; intros Hnd Ha Hb; [contradiction|].
  inversion Hnd as [|? ? Hy Hnd']; subst.
  destruct Ha as [->|Ha].
  - apply Hy. apply in_or_app. now right.
  - now apply IH.
Qed.

Lemma NoDup_app_left {A} (a b : list A) : NoDup (a ++ b) -> NoDup a.
Proof.
  induction a as [|y a IH]; cbn; intros Hnd; [constructor|].
  inversion Hnd as [|? ? Hy Hnd']; subst. constructor.
  - intros H. apply Hy. apply in_or_app. now left.
  - now apply IH.
Qed.

Lemma suffix_clash_same (l seen : list label) :
  suffix_clash l l seen seen = false.
Proof.
  revert seen. induction l as [|x l IH]; intros seen; cbn; [reflexivity|].
  now rewrite andb_negb_r, IH.
Qed.

Lemma count_label_le_1 (on : label) (l : list label) :
  NoDup l -> (count_label on l <= 1)%nat.
Proof.
  unfold count_label. induction 1 as [|x l Hx Hnd IH]; cbn; [lia|].
  destruct (label_eqb_spec on x) as [->|Hne]; [|exact IH].
  cbn. replace (filter (label_eqb x) l) with (@nil label); [cbn; lia|].
  symmetry. clear IH Hnd. induction l as [|y l IH]; [reflexivity|].
  cbn. destruct (label_eqb_spec x y) as [->|Hy].
  - exfalso. apply Hx. now left.
  - apply IH. intros H. apply Hx. now right.
Qed.

Lemma other_columns_In (on c : label) (df : DataFrame) :
  In c (other_columns on df) <-> In c (columns df) /\ c <> on.
Proof.
  unfold other_columns. rewrite filter_In, negb_true_iff, label_eqb_neq.
  tauto.
Qed.

(** Without shared names the join renames nothing and cannot clash. *)
Lemma merge_apart (left right : DataFrame) (on : label) :
  In on (columns left) -> In on (columns right) ->
  (count_label on (columns left) <= 1)%nat ->
  (count_label on (columns right) <= 1)%nat ->
  merge_keys_refused (key_values on left) (key_values on right) = false ->
  NoDup (other_columns on left ++ other_columns on right) ->
  merge left right on = Ok (joined left right on).
Proof.
  intros Hl Hr Hcl Hcr Hkeys Hnd. unfold merge.
  apply mem_label_In in Hl, Hr. rewrite Hl, Hr. cbn [negb].
  apply Nat.ltb_ge in Hcl, Hcr. rewrite Hcl, Hcr, Hkeys. cbv zeta.
  assert (Hleft :
            map (fun c => if mem_label c (other_columns on right)
                          then with_suffix c "_x" else c) (columns left)
            = columns left).
  { rewrite <- (map_id (columns left)) at 2. apply map_ext_in. intros c Hc.
    destruct (mem_label c (other_columns on right)) eqn:Hm; [|reflexivity].
    exfalso. apply mem_label_In in Hm.
    apply (NoDup_app_disjoint _ _ c Hnd); [|assumption].
    apply other_columns_In. split; [assumption|].
    now apply other_columns_In in Hm. }
  assert (Hright :
            map (fun c => if mem_label c (columns left)
                          then with_suffix c "_y" else c)
                (other_columns on right)
            = other_columns on right).
  { rewrite <- (map_id (other_columns on right)) at 2.
    apply map_ext_in. intros c Hc.
    destruct (mem_label c (columns left)) eqn:Hm; [|reflexivity].
    exfalso. apply mem_label_In in Hm.
    apply (NoDup_app_disjoint _ _ c Hnd); [|assumption].
    apply other_columns_In. split; [assumption|].
    now apply other_columns_In in Hc. }
  rewrite Hleft, Hright, !suffix_clash_same. reflexivity.
Qed.

Lemma in_number_rows (r : row) (cells : list (list value)) (from : Z) :
  In r (number_rows from cells) -> In (snd r) cells.
Proof.
  revert from. induction cells as [|c cells IH]; intros from; cbn;
    [contradiction|].
  intros [<-|H]; [now left | right; now apply (IH (from + 1))].
Qed.

Lemma labelled_names (cols : list label) (cells : list value) (n : label) :
  In n (map fst (labelled cols cells)) -> In n cols.
Proof.
  unfold labelled. revert cells.
  induction cols as [|c cols IH]; intros [|v cells]; cbn; try contradiction.
  intros [<-|H]; [now left | right; now apply (IH cells)].
Qed.

Lemma cell_app_left (c1 c2 : list label) (v1 v2 : list value) (n : label) :
  List.length v1 = List.length c1 -> ~ In n c2 ->
  cell (c1 ++ c2) (v1 ++ v2) n = cell c1 v1 n.
Proof.
  intros Hlen Hn. unfold cell, cells_named.
  rewrite labelled_app by exact Hlen. rewrite named_app.
  rewrite (@named_absent n (labelled c2 v2)); [now rewrite app_nil_r|].
  intros H. apply Hn. now apply labelled_names in H.
Qed.

Lemma count_label_app (on : label) (a b : list label) :
  count_label on (a ++ b) = (count_label on a + count_label on b)%nat.
Proof. unfold count_label. now rewrite filter_app, length_app. Qed.

Lemma count_label_absent (on : label) (l : list label) :
  ~ In on l -> count_label on l = 0%nat.
Proof.
  unfold count_label. induction l as [|x l IH]; cbn; intros H; [reflexivity|].
  destruct (label_eqb_spec on x) as [->|Hne].
  - exfalso. apply H. now left.
  - apply IH. intros Hin. apply H. now right.
Qed.

Lemma other_columns_without_key (on : label) (df : DataFrame) :
  ~ In on (other_columns on df).
Proof. intros H. apply other_columns_In in H. tauto. Qed.

Section JoinStep.

Variables (left right : DataFrame) (on : label).

Hypothesis left_fits :
  Forall (fun r : row => List.length (snd r) = List.length (columns left))
         (rows left).
Hypothesis right_fits :
  Forall (fun r : row => List.length (snd r) = List.length (columns right))
         (rows right).

Lemma joined_row (r : row) :
  In r (rows (joined left right on)) ->
  exists l r', In l (rows left) /\ In r' (rows right) /\
    snd r = snd l ++ without_column on (columns right) (snd r') /\
    cell (columns left) (snd l) on = cell (columns right) (snd r') on.
Proof.
  intros H. apply in_number_rows in H.
  cbn [rows joined] in H. apply in_flat_map in H as [l [Hl H]].
  apply in_map_iff in H as [r' [Heq H]].
  apply filter_In in H as [Hr' Hv]. apply value_eqb_eq in Hv.
  exists l, r'. auto.
Qed.

Lemma joined_fits :
  Forall (fun r : row =>
            List.length (snd r) = List.length (columns (joined left right on)))
         (rows (joined left right on)).
Proof.
  apply Forall_forall. intros r Hr.
  destruct (joined_row _ Hr) as (l & r' & Hl & Hr' & -> & _).
  rewrite Forall_forall in left_fits, right_fits.
  cbn [columns joined]. rewrite !length_app, (left_fits l Hl). f_equal.
  unfold without_column, other_columns.
  apply (kept_cells_length (fun c => negb (label_eqb c on))).
  now apply right_fits.
Qed.

Lemma joined_key_values (v : value) :
  In v (key_values on (joined left right on)) ->
  In v (key_values on left) /\ In v (key_values on right).
Proof.
  unfold key_values. intros H. apply in_map_iff in H as [r [<- Hr]].
  destruct (joined_row _ Hr) as (l & r' & Hl & Hr' & Hcells & Hv).
  rewrite Forall_forall in left_fits.
  cbn [columns joined]. rewrite Hcells.
  rewrite cell_app_left;
    [| now apply left_fits | apply other_columns_without_key].
  split.
  - apply in_map_iff. now exists l.
  - rewrite Hv. apply in_map_iff. now exists r'.
Qed.

Lemma joined_kind (kind : value -> bool) :
  forallb kind (key_values on left) = true ->
  forallb kind (key_values on (joined left right on)) = true.
Proof.
  rewrite !forallb_forall. intros H v Hv.
  apply H. now apply joined_key_values.
Qed.

Lemma joined_other_columns :
  other_columns on (joined left right on)
  = other_columns on left ++ other_columns on right.
Proof.
  unfold other_columns. cbn [columns joined]. rewrite filter_app. f_equal.
  fold (other_columns on right). unfold other_columns.
  apply forallb_filter_id. apply forallb_forall. intros c Hc.
  now apply filter_In in Hc.
Qed.

Lemma joined_count :
  (count_label on (columns left) <= 1)%nat ->
  (count_label on (columns (joined left right on)) <= 1)%nat.
Proof.
  intros H. cbn [columns joined].
  rewrite count_label_app, (@count_label_absent on (other_columns on right)); [lia|].
  apply other_columns_without_key.
Qed.

End JoinStep.

Lemma merge_without_key_left (left right : DataFrame) (on : label) :
  In on (columns right) -> (count_label on (columns right) <= 1)%nat ->
  ~ In on (columns left) ->
  merge left right on = Raise KeyError.
Proof.
  intros Hr Hc Hl. unfold merge.
  apply mem_label_In in Hr. apply mem_label_false in Hl.
  apply Nat.ltb_ge in Hc. now rewrite Hr, Hc, Hl.
Qed.

Lemma merge_loop_empty_key (acc : DataFrame) (rest : list DataFrame) :
  merge_loop acc rest "" = Ok acc.
Proof.
  induction rest as [|df t IH]; [reflexivity | exact IH].
Qed.

(** Key columns that hold integers only go together, and so do key columns
    that hold text only. *)
Lemma all_int_dtype (vs : list value) :
  forallb is_int vs = true ->
  existsb is_str vs = false /\ existsb isna vs = false.
Proof.
  induction vs as [|v vs IH]; cbn; [auto|].
  intros H. apply andb_true_iff in H as [Hv Hvs].
  destruct (IH Hvs) as [-> ->]. destruct v; try discriminate. auto.
Qed.

Lemma int_keys_go_together (lk rk : list value) :
  forallb is_int lk = true -> forallb is_int rk = true ->
  merge_keys_refused lk rk = false.
Proof.
  intros Hl Hr. unfold merge_keys_refused.
  destruct lk as [|l lk], rk as [|r rk]; try reflexivity.
  unfold dtype_of.
  destruct (all_int_dtype _ Hl) as [-> ->].
  destruct (all_int_dtype _ Hr) as [-> ->]. reflexivity.
Qed.

Lemma str_keys_go_together (lk rk : list value) :
  forallb is_str lk = true -> forallb is_str rk = true ->
  merge_keys_refused lk rk = false.
Proof.
  intros Hl Hr. unfold merge_keys_refused.
  destruct lk as [|l lk], rk as [|r rk]; try reflexivity.
  unfold dtype_of. cbn in Hl, Hr.
  apply andb_true_iff in Hl as [Hl _]. apply andb_true_iff in Hr as [Hr _].
  cbn [existsb]. now rewrite Hl, Hr.
Qed.

Section KeyKinds.

(** A kind of cells whose key columns go together. *)
Variable kind : value -> bool.
Hypothesis kind_goes_together :
  forall lk rk, forallb kind lk = true -> forallb kind rk = true ->
                merge_keys_refused lk rk = false.

(** The loop over tables that can be joined without renaming. *)
Lemma merge_loop_apart (rest : list DataFrame) (on : string) :
  on <> "" ->
  forall acc,
    Forall (fun r : row => List.length (snd r) = List.length (columns acc))
           (rows acc) ->
    (count_label (Text on) (columns acc) <= 1)%nat ->
    Forall well_formed rest ->
    NoDup (other_columns (Text on) acc
           ++ flat_map (other_columns (Text on)) rest) ->
    (forall d, In d (acc :: rest) -> In (Text on) (columns d) ->
               forallb kind (key_values (Text on) d) = true) ->
    (In (Text on) (columns acc) ->
     (forall d, In d rest -> In (Text on) (columns d)) ->
     exists out,
       merge_loop acc rest on = Ok out /\
       forall v, In v (key_values (Text on) out) ->
                 In v (key_values (Text on) acc) /\
                 forall d, In d rest -> In v (key_values (Text on) d)) /\
    (rest <> [] ->
     (exists d, In d (acc :: rest) /\ ~ In (Text on) (columns d)) ->
     merge_loop acc rest on = Raise KeyError).
Proof.
  intros Hon. apply String.eqb_neq in Hon.
  induction rest as [|df t IH]; intros acc Hfit Hcount Hwf Hnd Hkind.
  - split.
    + intros _ _. exists acc. split; [reflexivity|]. intros v Hv.
      split; [assumption | contradiction].
    + congruence.
  - inversion Hwf as [|? ? [Hdf_nd Hdf_fit] Hwf_t]; subst.
    cbn [flat_map] in Hnd. cbn [merge_loop]. rewrite Hon.
    assert (Hdf_count := count_label_le_1 (Text on) Hdf_nd).
    destruct (in_dec label_dec (Text on) (columns df)) as [Hdf|Hdf].
    2:{ rewrite (@merge_without_key_right acc df (Text on) Hdf). split.
        - intros _ Hall. exfalso. apply Hdf, Hall. now left.
        - reflexivity. }
    destruct (in_dec label_dec (Text on) (columns acc)) as [Hacc|Hacc].
    2:{ rewrite (@merge_without_key_left acc df (Text on) Hdf Hdf_count Hacc).
        split.
        - intros Hin. contradiction.
        - reflexivity. }
    assert (Hkacc : forallb kind (key_values (Text on) acc) = true)
      by (apply Hkind; [now left | exact Hacc]).
    assert (Hkdf : forallb kind (key_values (Text on) df) = true)
      by (apply Hkind; [right; now left | exact Hdf]).
    rewrite app_assoc in Hnd.
    rewrite (@merge_apart acc df (Text on) Hacc Hdf Hcount Hdf_count
               (kind_goes_together _ _ Hkacc Hkdf)
               (@NoDup_app_left _ _ _ Hnd)).
    cbn [result_bind].
    rewrite <- (joined_other_columns acc df (Text on)) in Hnd.
    destruct (IH _ (@joined_fits acc df (Text on) Hfit Hdf_fit)
                 (@joined_count acc df (Text on) Hcount) Hwf_t Hnd)
      as [IHok IHmiss].
    { intros d [<-|Hd] Hin.
      - now apply joined_kind.
      - apply Hkind; [right; now right | exact Hin]. }
    split.
    + intros _ Hall.
      destruct IHok as [out [Hout Hvals]].
      * cbn [columns]. apply in_or_app. now left.
      * intros d Hd. apply Hall. now right.
      * exists out. split; [exact Hout|]. intros v Hv.
        destruct (Hvals v Hv) as [Hj Ht].
        destruct (@joined_key_values acc df (Text on) Hfit v Hj) as [Hva Hvd].
        split; [exact Hva|]. intros d [<-|Hd]; [exact Hvd | now apply Ht].
    + intros _ [d [[<-|[<-|Hd]] Hmiss]]; try contradiction.
      apply IHmiss.
      * intros ->. contradiction.
      * exists d. split; [now right | assumption].
Qed.

End KeyKinds.

(** The loop over joinable tables with key columns of one kind. *)
Lemma merge_loop_alike (d0 : DataFrame) (rest : list DataFrame)
  (merge_on : string) :
  merge_on <> "" ->
  joinable (Text merge_on) (d0 :: rest) ->
  keys_alike (Text merge_on) (d0 :: rest) ->
  (In (Text merge_on) (columns d0) ->
   (forall d, In d rest -> In (Text merge_on) (columns d)) ->
   exists out,
     merge_loop d0 rest merge_on = Ok out /\
     forall v, In v (key_values (Text merge_on) out) ->
               In v (key_values (Text merge_on) d0) /\
               forall d, In d rest -> In v (key_values (Text merge_on) d)) /\
  (rest <> [] ->
   (exists d, In d (d0 :: rest) /\ ~ In (Text merge_on) (columns d)) ->
   merge_loop d0 rest merge_on = Raise KeyError).
Proof.
  intros Hon [Hwf Hnd] [_ Halike]. cbn [flat_map] in Hnd.
  inversion Hwf as [|? ? [Hd0_nd Hd0_fit] Hwf_rest]; subst.
  destruct Halike as [Hint|Hstr].
  - exact (@merge_loop_apart is_int int_keys_go_together rest merge_on Hon d0
             Hd0_fit (count_label_le_1 (Text merge_on) Hd0_nd) Hwf_rest Hnd
             Hint).
  - exact (@merge_loop_apart is_str str_keys_go_together rest merge_on Hon d0
             Hd0_fit (count_label_le_1 (Text merge_on) Hd0_nd) Hwf_rest Hnd
             Hstr).
Qed.

(** C9. With an empty key name no join is made and the first table is the
    result.  With a key name and at least two tables, each with an index
    that has no name: if the key column is absent from a table, Merge/Join
    fails; and when the tables satisfy the table invariant, share no column
    name but the key, have at least one row each and have key columns of
    one kind (integers everywhere, or text everywhere), the failure is the
    key error, and if the key column is in every table and no key value
    occurs in all of them the result is a table without rows, not an
    error. *)
Theorem merge_join_outcomes (d0 : DataFrame) (rest : list DataFrame)
  (merge_on : string) :
  Merge_Join (d0 :: rest) "" = Ok d0 /\
  (merge_on <> "" -> rest <> [] ->
   ((exists d, In d (d0 :: rest) /\ ~ In (Text merge_on) (columns d)) ->
    exists e, Merge_Join (d0 :: rest) merge_on = Raise e) /\
   (joinable (Text merge_on) (d0 :: rest) ->
    keys_alike (Text merge_on) (d0 :: rest) ->
    ((exists d, In d (d0 :: rest) /\ ~ In (Text merge_on) (columns d)) ->
     Merge_Join (d0 :: rest) merge_on = Raise KeyError) /\
    ((forall d, In d (d0 :: rest) -> In (Text merge_on) (columns d)) ->
     (forall v,
        ~ (forall d, In d (d0 :: rest) ->
                     In v (key_values (Text merge_on) d))) ->
     exists out,
       Merge_Join (d0 :: rest) merge_on = Ok out /\ rows out = []))).
Proof.
  split; [apply merge_loop_empty_key|].
  intros Hon Hrest. split.
  - intros Hmiss. now apply merge_loop_without_key.
  - intros Hjoin Halike.
    destruct (@merge_loop_alike d0 rest merge_on Hon Hjoin Halike)
      as [Hok Hmiss].
    split.
    + intros H. now apply Hmiss.
    + intros Hall Hnone.
      destruct Hok as [out [Hout Hvals]].
      * apply Hall. now left.
      * intros d Hd. apply Hall. now right.
      * exists out. split; [exact Hout|].
        destruct (rows out) as [|r rs] eqn:Hrows; [reflexivity|].
        exfalso.
        apply (Hnone (cell (columns out) (snd r) (Text merge_on))).
        assert (Hv : In (cell (columns out) (snd r) (Text merge_on))
                        (key_values (Text merge_on) out)).
        { unfold key_values. rewrite Hrows. now left. }
        destruct (Hvals _ Hv) as [Hv0 Hvr].
        intros d [<-|Hd]; [exact Hv0 | now apply Hvr].
Qed.

Lemma merge_join_outcomes_witness :
  ("k" <> "" /\ [clients; regions] <> [] /\
   joinable (Text "k") [orders; clients; regions] /\
   keys_alike (Text "k") [orders; clients; regions] /\
   (forall d, In d [orders; clients; regions] -> In (Text "k") (columns d)) /\
   (forall v,
      ~ (forall d, In d [orders; clients; regions] ->
                   In v (key_values (Text "k") d)))) /\
  exists out,
    Merge_Join [orders; clients; regions] "k" = Ok out /\ rows out = [].
Proof.
  assert (H1 : "k" <> "") by discriminate.
  assert (H2 : [clients; regions] <> []) by discriminate.
  assert (H3 : joinable (Text "k") [orders; clients; regions]).
  { split.
    - repeat constructor; cbn; intuition discriminate.
    - repeat constructor; cbn; intuition discriminate. }
  assert (Hk : keys_alike (Text "k") [orders; clients; regions]).
  { split.
    - intros d [<-|[<-|[<-|[]]]]; discriminate.
    - left. intros d [<-|[<-|[<-|[]]]] _; reflexivity. }
  assert (H4 : forall d, In d [orders; clients; regions] ->
                         In (Text "k") (columns d)).
  { intros d [<-|[<-|[<-|[]]]]; now left. }
  assert (H5 : forall v,
             ~ (forall d, In d [orders; clients; regions] ->
                          In v (key_values (Text "k") d))).
  { intros v H.
    assert (Ho := H orders (or_introl eq_refl)).
    assert (Hc := H clients (or_intror (or_introl eq_refl))).
    assert (Hr := H regions (or_intror (or_intror (or_introl eq_refl)))).
    cbn in Ho, Hc, Hr.
    destruct Ho as [<-|[<-|[]]];
      destruct Hc as [Hc|[Hc|[]]]; try discriminate;
      destruct Hr as [Hr|[Hr|[]]]; discriminate. }
  split; [exact (conj H1 (conj H2 (conj H3 (conj Hk (conj H4 H5)))))|].
  exact (proj2 (proj2 (proj2 (merge_join_outcomes orders [clients; regions] "k")
                         H1 H2) H3 Hk) H4 H5).
Defined.

(** C9, as stated, fails in two ways.  With the key name left empty no
    table has the key column and Merge/Join does not fail: it gives the
    first table.  And four tables that all have the key column [k], no key
    value in common and a second column [v] do not give a table without
    rows: the third join makes the suffixed names collide and fails. *)
Lemma merge_join_corners :
  (forall d, In d [orders; clients] -> ~ In (Text "") (columns d)) /\
  Merge_Join [orders; clients] "" = Ok orders /\
  (forall d, In d [readings_a; readings_b; readings_a; readings_b] ->
             In (Text "k") (columns d)) /\
  (forall v, ~ (In v (key_values (Text "k") readings_a) /\
                In v (key_values (Text "k") readings_b))) /\
  Merge_Join [readings_a; readings_b; readings_a; readings_b] "k"
  = Raise MergeError.
Proof.
  split; [|split; [|split; [|split]]].
  - intros d [<-|[<-|[]]]; cbn; intuition discriminate.
  - reflexivity.
  - intros d [<-|[<-|[<-|[<-|[]]]]]; now left.
  - intros v [[<-|[]] [H|[]]]. discriminate.
  - reflexivity.
Qed.

(** * More of the script *)

(** ** The options of the drop widgets *)

(** X1. A selection made among the columns the drop widget offers (line
    120), with no box ticked that rebinds [data], is always carried out:
    the lookups of lines 125 and 129 cannot raise.  The click reports
    success when the selected labels are all text; otherwise it reports the
    [TypeError] of the message of line 132, after the columns were dropped.
    Either way the selected columns have left the table, none of them is
    offered afterwards, and nothing is offered that was not offered
    before. *)
Theorem offered_columns_can_be_dropped (s : Session) (sel : list label) :
  incl sel (available_columns (dataset s) (settings s)) ->
  exists s',
    dropColumns s sel
    = (if forallb is_text sel then Success else Error TypeError, s') /\
    (forall c, In c sel -> ~ In c (columns (dataset s'))) /\
    (forall c, In c sel ->
               ~ In c (available_columns (dataset s') (settings s'))) /\
    (forall c, In c (available_columns (dataset s') (settings s')) ->
               In c (available_columns (dataset s) (settings s))).
Proof.
  intros Hsel.
  assert (Hall : forallb (fun n => mem_label n (columns (dataset s))) sel = true).
  { apply forallb_forall. intros n Hn. apply mem_label_In.
    apply Hsel in Hn. unfold available_columns in Hn.
    now apply filter_In in Hn. }
  destruct (proj2 (getitem_ok_iff (dataset s) sel) Hall) as [snap Hsnap].
  eexists. split; [|split; [|split]].
  - rewrite dropColumns_eq, Hsnap. unfold drop_columns_of. rewrite Hall.
    rewrite reported_if. reflexivity.
  - cbn [dataset columns]. intros c Hc Hin.
    apply filter_In in Hin as [_ Hin].
    apply negb_true_iff, mem_label_false in Hin. contradiction.
  - cbn [dataset settings dropped_columns columns]. intros c Hc Hin.
    unfold available_columns in Hin. cbn [columns dropped_columns] in Hin.
    apply filter_In in Hin as [Hin _]. apply filter_In in Hin as [_ Hin].
    apply negb_true_iff, mem_label_false in Hin. contradiction.
  - cbn [dataset settings dropped_columns columns]. intros c Hin.
    unfold available_columns in *. cbn [columns dropped_columns] in Hin.
    apply filter_In in Hin as [Hin Hd]. apply filter_In in Hin as [Hin _].
    apply filter_In. split; [assumption|].
    apply negb_true_iff, mem_label_false. apply negb_true_iff, mem_label_false in Hd.
    intros H. apply Hd. apply in_or_app. now left.
Qed.

Lemma offered_columns_can_be_dropped_witness :
  incl [Text "v"] (available_columns (dataset sample_session)
                                (settings sample_session)) /\
  exists s',
    dropColumns sample_session [Text "v"]
    = (if forallb is_text [Text "v"] then Success else Error TypeError, s') /\
    (forall c, In c [Text "v"] -> ~ In c (columns (dataset s'))) /\
    (forall c, In c [Text "v"] ->
               ~ In c (available_columns (dataset s') (settings s'))) /\
    (forall c, In c (available_columns (dataset s') (settings s')) ->
               In c (available_columns (dataset sample_session)
                                       (settings sample_session))).
Proof.
  assert (H : incl [Text "v"] (available_columns (dataset sample_session)
                                            (settings sample_session))).
  { intros c [<-|[]]. cbn. tauto. }
  split; [exact H|].
  exact (@offered_columns_can_be_dropped sample_session [Text "v"] H).
Defined.

Lemma insert_label_In (x k : Z) (l : list Z) :
  In k (insert_label x l) <-> k = x \/ In k l.
Proof.
  induction l as [|h t IH]; cbn.
  - intuition.
  - destruct (Z.ltb_spec x h).
    + cbn. intuition.
    + destruct (Z.eqb_spec x h) as [->|Hne].
      * cbn. intuition.
      * cbn. rewrite IH. intuition.
Qed.

Lemma insert_label_sorted (x : Z) (l : list Z) :
  Sorted Z.lt l -> Sorted Z.lt (insert_label x l).
Proof.
  induction 1 as [|h t Hs IH Hhd]; cbn.
  - repeat constructor.
  - destruct (Z.ltb_spec x h).
    + constructor; [now constructor | now constructor].
    + destruct (Z.eqb_spec x h) as [->|Hne]; [now constructor|].
      constructor; [exact IH|].
      destruct t as [|h' t']; cbn.
      * constructor. lia.
      * inversion Hhd; subst.
        destruct (Z.ltb_spec x h'); [constructor; lia|].
        destruct (Z.eqb_spec x h'); constructor; lia.
Qed.

Lemma unique_In (idx seen : list Z) (k : Z) :
  In k (unique seen idx) <-> In k idx /\ ~ In k seen.
Proof.
  revert seen. induction idx as [|x idx IH]; intros seen; cbn; [tauto|].
  destruct (mem_Z x seen) eqn:Hx.
  - apply mem_Z_In in Hx. rewrite IH. split.
    + intros [H1 H2]. auto.
    + intros [[->|H1] H2]; [contradiction | auto].
  - apply mem_Z_false in Hx. cbn. rewrite IH. cbn. split.
    + intros [->|[H1 H2]]; [auto|]. split; [now right | tauto].
    + intros [[->|H1] H2]; [now left|].
      destruct (Z.eq_dec x k) as [->|Hne]; [now left | right].
      split; [exact H1 | tauto].
Qed.

Lemma unique_NoDup (idx seen : list Z) : NoDup (unique seen idx).
Proof.
  revert seen. induction idx as [|x idx IH]; intros seen; cbn; [constructor|].
  destruct (mem_Z x seen); [apply IH|].
  constructor; [|apply IH].
  rewrite unique_In. cbn. tauto.
Qed.

Lemma unique_of_NoDup (idx seen : list Z) :
  NoDup idx -> (forall k, In k idx -> ~ In k seen) -> unique seen idx = idx.
Proof.
  intros Hnd. revert seen.
  induction Hnd as [|x idx Hx Hnd IH]; intros seen Hseen; cbn; [reflexivity|].
  replace (mem_Z x seen) with false.
  2:{ symmetry. apply mem_Z_false. apply Hseen. now left. }
  f_equal. apply IH. intros k Hk [<-|Hin]; [contradiction|].
  apply (Hseen k); [now right | exact Hin].
Qed.

Lemma sorted_lt_NoDup (l : list Z) : Sorted Z.lt l -> NoDup l.
Proof.
  intros H. apply Sorted_StronglySorted in H; [|exact Z.lt_trans].
  induction H as [|x l Hs IH Hall]; constructor; [|exact IH].
  intros Hin. rewrite Forall_forall in Hall. specialize (Hall x Hin). lia.
Qed.

Lemma index_difference_In (idx other : list Z) (k : Z) :
  In k (index_difference idx other) <-> In k idx /\ ~ In k other.
Proof.
  unfold index_difference. destruct other as [|o other].
  - apply unique_In.
  - rewrite <- (mem_Z_false k (o :: other)), <- negb_true_iff.
    rewrite <- (filter_In (fun k => negb (mem_Z k (o :: other)))).
    induction (filter _ idx) as [|x l IH]; cbn [fold_right]; [cbn; tauto|].
    rewrite insert_label_In, IH. cbn [In]. intuition.
Qed.

Lemma index_difference_sorted (idx other : list Z) :
  other <> [] -> Sorted Z.lt (index_difference idx other).
Proof.
  unfold index_difference. destruct other as [|o other]; [congruence|].
  intros _.
  induction (filter _ idx) as [|x l IH]; cbn; [constructor|].
  now apply insert_label_sorted.
Qed.

Lemma index_difference_NoDup (idx other : list Z) :
  NoDup (index_difference idx other).
Proof.
  destruct other as [|o other].
  - apply unique_NoDup.
  - apply sorted_lt_NoDup. now apply index_difference_sorted.
Qed.

(** X2. With no box ticked that rebinds [data], the row widget (line 163)
    offers exactly the labels of the index that are not listed in
    [dropped_rows], each once.  While [dropped_rows] is empty they come in
    the order of the index (as they are, when no label is repeated); once a
    label is listed they come in ascending order.  A selection made among
    them is always dropped: the click cannot end in the error branch. *)
Theorem offered_rows_can_be_dropped (s : Session) :
  (forall k, In k (available_rows (dataset s) (settings s)) <->
             In k (index (dataset s)) /\
             ~ In k (dropped_rows (settings s))) /\
  NoDup (available_rows (dataset s) (settings s)) /\
  (dropped_rows (settings s) = [] -> NoDup (index (dataset s)) ->
   available_rows (dataset s) (settings s) = index (dataset s)) /\
  (dropped_rows (settings s) <> [] ->
   Sorted Z.lt (available_rows (dataset s) (settings s))) /\
  (forall sel,
     incl sel (available_rows (dataset s) (settings s)) ->
     exists s',
       dropRows s sel = (Success, s') /\
       dropped_rows (settings s') = dropped_rows (settings s) ++ sel /\
       forall k, In k sel -> ~ In k (index (dataset s'))).
Proof.
  split; [|split; [|split; [|split]]].
  - intros k. apply index_difference_In.
  - apply index_difference_NoDup.
  - intros Hnil Hnd. unfold available_rows, index_difference. rewrite Hnil.
    apply unique_of_NoDup; [exact Hnd | intros k _ []].
  - apply index_difference_sorted.
  - intros sel Hsel.
    assert (Hall : forallb (fun k => mem_Z k (index (dataset s))) sel = true).
    { apply forallb_forall. intros k Hk. apply mem_Z_In.
      now apply Hsel, index_difference_In in Hk. }
    eexists. split; [|split].
    + rewrite dropRows_eq. unfold loc, drop_index_of. rewrite Hall.
      reflexivity.
    + reflexivity.
    + cbn [dataset]. unfold index. cbn [rows]. intros k Hk Hin.
      apply in_map_iff in Hin as [r [<- Hr]].
      apply filter_In in Hr as [_ Hr].
      apply negb_true_iff, mem_Z_false in Hr. contradiction.
Qed.

Lemma offered_rows_can_be_dropped_witness :
  (dropped_rows (settings unsorted_session) = [] /\
   NoDup (index (dataset unsorted_session)) /\
   incl [1] (available_rows (dataset unsorted_session)
                            (settings unsorted_session))) /\
  available_rows (dataset unsorted_session) (settings unsorted_session)
  = [2; 1] /\
  exists s',
    dropRows unsorted_session [1] = (Success, s') /\
    dropped_rows (settings s') =
      dropped_rows (settings unsorted_session) ++ [1] /\
    forall k, In k [1] -> ~ In k (index (dataset s')).
Proof.
  assert (H1 : dropped_rows (settings unsorted_session) = []) by reflexivity.
  assert (H2 : NoDup (index (dataset unsorted_session)))
    by (repeat constructor; cbn; intuition lia).
  assert (H3 : incl [1] (available_rows (dataset unsorted_session)
                                        (settings unsorted_session))).
  { intros k [<-|[]]; cbn; tauto. }
  split; [exact (conj H1 (conj H2 H3))|]. split.
  - exact (proj1 (proj2 (proj2 (offered_rows_can_be_dropped unsorted_session)))
                 H1 H2).
  - exact (proj2 (proj2 (proj2 (proj2
                   (offered_rows_can_be_dropped unsorted_session)))) [1] H3).
Defined.

(** X3. With no box ticked that rebinds [data]: right after a drop of
    columns that was carried out, a drop whose selection names one of the
    columns just dropped ends in the error branch with a key error and
    changes nothing.  The widget does not offer such a column; it is the
    lookup of line 125 that refuses it. *)
Theorem dropped_column_cannot_be_dropped_again (rd dm : bool)
  (fm : option string) (s s1 : Session) (A names : list label) (a : label) :
  ticked rd dm fm = false ->
  click (Preprocessing rd dm fm ;; Drop_Selected_Columns A) s
  = (reported A, s1) ->
  In a A -> In a names ->
  click (Preprocessing rd dm fm ;; Drop_Selected_Columns names) s1
  = (Error KeyError, s1).
Proof.
  intros Hbox HA Ha Hn. rewrite (@click_unticked rd dm fm _ _ Hbox) in HA.
  rewrite (@click_unticked rd dm fm _ _ Hbox).
  change (click (Drop_Selected_Columns A) s) with (dropColumns s A) in HA.
  change (click (Drop_Selected_Columns names) s1) with (dropColumns s1 names).
  destruct (dropColumns_carried_out _ _ HA (reported_cases A))
    as (_ & _ & HdA & _).
  apply drop_columns_of_columns in HdA.
  rewrite dropColumns_eq.
  rewrite (@getitem_absent (dataset s1) names a); [reflexivity | exact Hn |].
  rewrite HdA. intros Hin. apply filter_In in Hin as [_ Hin].
  apply negb_true_iff, mem_label_false in Hin. contradiction.
Qed.

Lemma dropped_column_cannot_be_dropped_again_witness :
  (ticked false false None = false /\
   click (Preprocessing false false None ;; Drop_Selected_Columns [Text "v"])
         sample_session = (reported [Text "v"], sample_without_v) /\
   In (Text "v") [Text "v"] /\ In (Text "v") [Text "id"; Text "v"]) /\
  click (Preprocessing false false None ;;
         Drop_Selected_Columns [Text "id"; Text "v"]) sample_without_v
  = (Error KeyError, sample_without_v).
Proof.
  assert (H0 : ticked false false None = false) by reflexivity.
  assert (H1 : click (Preprocessing false false None ;;
                      Drop_Selected_Columns [Text "v"]) sample_session
               = (reported [Text "v"], sample_without_v)) by reflexivity.
  assert (H2 : In (Text "v") [Text "v"]) by (cbn; tauto).
  assert (H3 : In (Text "v") [Text "id"; Text "v"]) by (cbn; tauto).
  split; [exact (conj H0 (conj H1 (conj H2 H3)))|].
  exact (@dropped_column_cannot_be_dropped_again false false None
           sample_session sample_without_v [Text "v"] [Text "id"; Text "v"]
           (Text "v") H0 H1 H2 H3).
Defined.

(** ** Duplicates and missing values *)

Lemma cells_eqb_eq (a b : list value) : cells_eqb a b = true <-> a = b.
Proof.
  revert b. induction a as [|x a IH]; intros [|y b]; cbn;
    try (split; [discriminate | congruence]); [tauto|].
  rewrite andb_true_iff, value_eqb_eq, IH. split.
  - intros [-> ->]. reflexivity.
  - intros H. injection H as -> ->. now split.
Qed.

Lemma seen_In (c : list value) (seen : list (list value)) :
  existsb (cells_eqb c) seen = true <-> In c seen.
Proof.
  rewrite existsb_exists. split.
  - intros [x [Hx Heq]]. apply cells_eqb_eq in Heq. now subst.
  - intros H. exists c. split; [assumption | now apply cells_eqb_eq].
Qed.

Lemma unseen_rows_In (c : list value) (rs : list row)
  (seen : list (list value)) :
  In c (map snd (unseen_rows seen rs)) <->
  In c (map snd rs) /\ ~ In c seen.
Proof.
  revert seen. induction rs as [|r t IH]; intros seen; cbn; [tauto|].
  destruct (existsb (cells_eqb (snd r)) seen) eqn:Hs.
  - apply seen_In in Hs. rewrite IH. split.
    + intros [H1 H2]. tauto.
    + intros [[<-|H1] H2]; [contradiction | tauto].
  - assert (Hn : ~ In (snd r) seen).
    { intros H. apply seen_In in H. congruence. }
    cbn. rewrite IH. cbn. split.
    + intros [<-|[H1 H2]]; [tauto|]. split; [tauto|]. intros H. apply H2. now right.
    + intros [[<-|H1] H2]; [now left|].
      destruct (cells_eqb (snd r) c) eqn:Hc;
        [apply cells_eqb_eq in Hc as Heq
        | assert (Hne : snd r <> c)
            by (intros E; apply cells_eqb_eq in E; congruence)].
      * now left.
      * right. split; [assumption|]. intros [H|H]; [contradiction | tauto].
Qed.

Lemma unseen_rows_NoDup (rs : list row) (seen : list (list value)) :
  NoDup (map snd (unseen_rows seen rs)).
Proof.
  revert seen. induction rs as [|r t IH]; intros seen; cbn; [constructor|].
  destruct (existsb (cells_eqb (snd r)) seen); [apply IH|].
  cbn. constructor; [|apply IH].
  intros H. apply unseen_rows_In in H as [_ H]. apply H. now left.
Qed.

Lemma unseen_rows_fixed (rs : list row) (seen : list (list value)) :
  (forall r, In r rs -> ~ In (snd r) seen) ->
  NoDup (map snd rs) ->
  unseen_rows seen rs = rs.
Proof.
  revert seen. induction rs as [|r t IH]; intros seen Hout Hnd; cbn;
    [reflexivity|].
  cbn in Hnd. inversion Hnd as [|? ? Hr Hnd']; subst.
  replace (existsb (cells_eqb (snd r)) seen) with false.
  2:{ symmetry. apply not_true_is_false. intros H. apply seen_In in H.
      apply (Hout r); [now left | assumption]. }
  f_equal. apply IH; [|assumption].
  intros r' Hr' [Heq|Hin].
  - apply Hr. rewrite Heq. now apply in_map.
  - apply (Hout r'); [now right | assumption].
Qed.

Lemma drop_duplicates_columns (df : DataFrame) :
  columns (drop_duplicates df) = columns df.
Proof. unfold drop_duplicates. now destruct (empty df). Qed.

Lemma drop_duplicates_empty (df : DataFrame) :
  empty df = true -> drop_duplicates df = df.
Proof. unfold drop_duplicates. now intros ->. Qed.

Lemma drop_duplicates_not_empty (df : DataFrame) :
  empty df = false ->
  drop_duplicates df = mkDF (columns df) (unseen_rows [] (rows df)).
Proof. unfold drop_duplicates. now intros ->. Qed.

(** X4. "Remove Duplicates" (line 56) keeps the columns, loses no
    combination of cells that the table had, keeps the first row of the
    table, and changes nothing when applied a second time.  On a table
    that has a column it leaves no two rows with the same cells; a table
    without columns comes back as it is, with all its rows. *)
Theorem drop_duplicates_properties (df : DataFrame) :
  columns (drop_duplicates df) = columns df /\
  (columns df <> [] -> NoDup (map snd (rows (drop_duplicates df)))) /\
  (columns df = [] -> drop_duplicates df = df) /\
  (forall c, In c (map snd (rows (drop_duplicates df))) <->
             In c (map snd (rows df))) /\
  hd_error (rows (drop_duplicates df)) = hd_error (rows df) /\
  drop_duplicates (drop_duplicates df) = drop_duplicates df.
Proof.
  destruct (empty df) eqn:He.
  - rewrite !(drop_duplicates_empty _ He).
    split; [reflexivity|]. split.
    { intros Hcols. unfold empty in He.
      destruct (columns df); [congruence|].
      destruct (rows df); [constructor | discriminate]. }
    split; [reflexivity|]. split; [tauto|]. split; reflexivity.
  - rewrite !(drop_duplicates_not_empty _ He).
    split; [reflexivity|]. split; [intros _; apply unseen_rows_NoDup|].
    split.
    { intros Hcols. unfold empty in He. rewrite Hcols in He. discriminate. }
    split; [|split].
    + intros c. cbn [rows]. rewrite unseen_rows_In. cbn. tauto.
    + cbn [rows]. now destruct (rows df).
    + set (d := mkDF (columns df) (unseen_rows [] (rows df))).
      unfold drop_duplicates. destruct (empty d) eqn:Hd; [reflexivity|].
      unfold d. cbn [columns rows]. f_equal.
      apply unseen_rows_fixed; [|apply unseen_rows_NoDup].
      intros r _ [].
Qed.

Lemma drop_duplicates_properties_witness :
  (columns repeated_table <> [] /\
   columns (dataset sample_without_v_id) = []) /\
  NoDup (map snd (rows (drop_duplicates repeated_table))) /\
  index (drop_duplicates repeated_table) = [0; 2] /\
  index (drop_duplicates (dataset sample_without_v_id)) = [0; 1; 2].
Proof.
  assert (H1 : columns repeated_table <> []) by discriminate.
  assert (H2 : columns (dataset sample_without_v_id) = []) by reflexivity.
  split; [exact (conj H1 H2)|]. split; [|split].
  - exact (proj1 (proj2 (drop_duplicates_properties repeated_table)) H1).
  - reflexivity.
  - rewrite (proj1 (proj2 (proj2 (drop_duplicates_properties
                                    (dataset sample_without_v_id)))) H2).
    reflexivity.
Defined.

Lemma no_missing_filled (fill_value : string) (cells : list value) :
  existsb isna (map (fun v => if isna v then VStr fill_value else v) cells)
  = false.
Proof.
  induction cells as [|v cells IH]; cbn; [reflexivity|].
  rewrite IH. now destruct v.
Qed.

Lemma fill_without_missing (fill_value : string) (cells : list value) :
  existsb isna cells = false ->
  map (fun v => if isna v then VStr fill_value else v) cells = cells.
Proof.
  induction cells as [|v cells IH]; cbn; [reflexivity|].
  intros H. apply orb_false_iff in H as [Hv Hc]. rewrite Hv.
  f_equal. now apply IH.
Qed.

(** X5. After "Fill Missing Values" (line 100) no cell is missing, so
    dropping the rows with a missing cell then changes nothing; and with
    both boxes ticked, where the drop of line 97 runs first, the fill has
    nothing left to fill.  Neither changes the columns, and the fill keeps
    the index. *)
Theorem fill_and_drop_missing (df : DataFrame) (fill_value : string) :
  (forall r, In r (rows (fillna df fill_value)) -> ~ In VNaN (snd r)) /\
  dropna (fillna df fill_value) = fillna df fill_value /\
  fillna (dropna df) fill_value = dropna df /\
  index (fillna df fill_value) = index df /\
  columns (fillna df fill_value) = columns df /\
  columns (dropna df) = columns df.
Proof.
  split; [|split; [|split; [|split; [|split]]]]; try reflexivity.
  - intros r Hr Hin. cbn [fillna rows] in Hr.
    apply in_map_iff in Hr as [r0 [<- _]]. cbn [snd] in Hin.
    apply in_map_iff in Hin as [v [Hv _]]. now destruct v.
  - unfold dropna. cbn [fillna columns rows]. unfold fillna. f_equal.
    apply forallb_filter_id. apply forallb_forall. intros r Hr.
    apply in_map_iff in Hr as [r0 [<- _]]. cbn [snd].
    now rewrite no_missing_filled.
  - unfold fillna. cbn [dropna columns rows]. unfold dropna. f_equal.
    rewrite <- (map_id (filter _ (rows df))) at 2.
    apply map_ext_in. intros [k cells] Hr.
    apply filter_In in Hr as [_ Hr]. cbn [fst snd] in *.
    apply negb_true_iff in Hr. now rewrite (fill_without_missing _ _ Hr).
  - unfold index. cbn [fillna rows]. rewrite map_map. reflexivity.
Qed.

(** ** Drops while a check box has rebound [data] *)

Lemma Preprocessing_rebinds (rd dm : bool) (fm : option string) (s : Session) :
  ticked rd dm fm = true ->
  exists d, Preprocessing rd dm fm (mkRun s Aliased) = (Ok tt, mkRun s (Rebound d)).
Proof.
  unfold ticked, Preprocessing. destruct s as [d0 st].
  destruct rd, dm, fm; cbn; intros H; try discriminate; eexists; reflexivity.
Qed.

Lemma Drop_Selected_Columns_rebound (s : Session) (d : DataFrame)
  (names : list label) :
  Drop_Selected_Columns names (mkRun s (Rebound d)) =
  match getitem d names, drop_columns_of d names with
  | Ok snap, Ok d' =>
      (Ok (reported names),
       mkRun (mkSession (dataset s)
                (mkSettings (dropped_columns (settings s) ++ names)
                            (dropped_rows (settings s))
                            (dropped_rows_df (settings s)) snap))
             (Rebound d'))
  | _, _ => (Ok (Error KeyError), mkRun s (Rebound d))
  end.
Proof.
  destruct s as [d0 [dc dr drd dcd]]. unfold_script.
  unfold getitem, drop_columns_of, reported.
  destruct (forallb _ names); [|reflexivity].
  destruct (join ", " names); reflexivity.
Qed.

Lemma Drop_Selected_Rows_rebound (s : Session) (d : DataFrame)
  (keys : list Z) :
  Drop_Selected_Rows keys (mkRun s (Rebound d)) =
  match loc d keys, drop_index_of d keys with
  | Ok snap, Ok d' =>
      (Ok Success,
       mkRun (mkSession (dataset s)
                (mkSettings (dropped_columns (settings s))
                            (dropped_rows (settings s) ++ keys)
                            snap (dropped_columns_df (settings s))))
             (Rebound d'))
  | _, _ => (Ok (Error KeyError), mkRun s (Rebound d))
  end.
Proof.
  destruct s as [d0 [dc dr drd dcd]]. unfold_script.
  unfold loc, drop_index_of.
  destruct (forallb _ keys); reflexivity.
Qed.

(** X6. While "Remove Duplicates", "Drop Rows with Missing Values" or
    "Fill Missing Values" is ticked, [data] is a new frame and the in-place
    drops of lines 129 and 172 act on that frame: a column drop or a row
    drop leaves the stored table as it was, and when it goes through it
    still lists the selection in [dropped_columns] or [dropped_rows]. *)
Theorem drop_under_tick_misses_stored_table (rd dm : bool)
  (fm : option string) (s : Session) (names : list label) (keys : list Z) :
  ticked rd dm fm = true ->
  (dataset (snd (click (Preprocessing rd dm fm ;; Drop_Selected_Columns names) s))
   = dataset s /\
   (fst (click (Preprocessing rd dm fm ;; Drop_Selected_Columns names) s)
    = Success ->
    dropped_columns
      (settings (snd (click (Preprocessing rd dm fm ;;
                             Drop_Selected_Columns names) s)))
    = dropped_columns (settings s) ++ names)) /\
  (dataset (snd (click (Preprocessing rd dm fm ;; Drop_Selected_Rows keys) s))
   = dataset s /\
   (fst (click (Preprocessing rd dm fm ;; Drop_Selected_Rows keys) s)
    = Success ->
    dropped_rows
      (settings (snd (click (Preprocessing rd dm fm ;;
                             Drop_Selected_Rows keys) s)))
    = dropped_rows (settings s) ++ keys)).
Proof.
  intros Ht. destruct (Preprocessing_rebinds rd dm fm s Ht) as [d Hd].
  unfold click, bind. rewrite Hd. split.
  - rewrite Drop_Selected_Columns_rebound.
    destruct (getitem d names); [destruct (drop_columns_of d names)|];
      cbn; split; try reflexivity; discriminate.
  - rewrite Drop_Selected_Rows_rebound.
    destruct (loc d keys); [destruct (drop_index_of d keys)|];
      cbn; split; try reflexivity; discriminate.
Qed.

Lemma drop_under_tick_misses_stored_table_witness :
  ticked true false None = true /\
  fst (click (Preprocessing true false None ;; Drop_Selected_Columns [Text "v"])
             sample_session) = Success /\
  dataset (snd (click (Preprocessing true false None ;;
                       Drop_Selected_Columns [Text "v"]) sample_session))
  = sample_table /\
  dropped_columns
    (settings (snd (click (Preprocessing true false None ;;
                           Drop_Selected_Columns [Text "v"]) sample_session)))
  = [Text "v"].
Proof.
  assert (H : ticked true false None = true) by reflexivity.
  split; [exact H|]. split; [reflexivity|].
  destruct (@drop_under_tick_misses_stored_table true false None
              sample_session [Text "v"] [] H) as [[H1 H2] _].
  split; [exact H1 | exact (H2 eq_refl)].
Defined.

(** ** Rename *)

Lemma click_Rename_Columns (s : Session) (old : label) (new : string) :
  click (Rename_Columns old new) s =
  (Success,
   if String.eqb new "" then s
   else mkSession (rename_column (dataset s) old (Text new)) (settings s)).
Proof.
  destruct s as [d st]. unfold_script.
  destruct (String.eqb new ""); reflexivity.
Qed.

Lemma rename_labels_back (old new : label) (cols : list label) :
  ~ In new cols ->
  map (fun c => if label_eqb c new then old else c)
      (map (fun c => if label_eqb c old then new else c) cols) = cols.
Proof.
  induction cols as [|c cols IH]; cbn; intros H; [reflexivity|].
  rewrite IH by tauto. f_equal.
  destruct (label_eqb_spec c old) as [->|Hne].
  - now rewrite label_eqb_refl.
  - destruct (label_eqb_spec c new) as [->|_]; [|reflexivity].
    exfalso. apply H. now left.
Qed.

(** X7. Renaming a column to a name the table does not have, and then
    renaming that name back, gives the session back as it was; both
    renames report success. *)
Theorem rename_round_trip (s : Session) (old new : string) :
  new <> "" -> old <> "" -> ~ In (Text new) (columns (dataset s)) ->
  fst (click (Rename_Columns (Text old) new) s) = Success /\
  click (Rename_Columns (Text new) old)
        (snd (click (Rename_Columns (Text old) new) s))
  = (Success, s).
Proof.
  intros Hnew Hold Hfresh. rewrite !click_Rename_Columns.
  apply String.eqb_neq in Hnew, Hold. rewrite Hnew, Hold.
  split; [reflexivity|]. cbn [snd dataset settings]. f_equal.
  destruct s as [[cols rs] st]. unfold rename_column. cbn [columns rows].
  cbn [dataset columns] in Hfresh. now rewrite rename_labels_back.
Qed.

Lemma rename_round_trip_witness :
  ("value" <> "" /\ "v" <> "" /\
   ~ In (Text "value") (columns (dataset sample_session))) /\
  click (Rename_Columns (Text "value") "v")
        (snd (click (Rename_Columns (Text "v") "value") sample_session))
  = (Success, sample_session).
Proof.
  assert (H1 : "value" <> "") by discriminate.
  assert (H2 : "v" <> "") by discriminate.
  assert (H3 : ~ In (Text "value") (columns (dataset sample_session)))
    by (cbn; intuition discriminate).
  split; [exact (conj H1 (conj H2 H3))|].
  exact (proj2 (@rename_round_trip sample_session "v" "value" H1 H2 H3)).
Defined.






(** ** Filter: edge cases *)

Lemma re_search_empty (s : string) : re_search [] s = true.
Proof. destruct s; reflexivity. Qed.

Lemma filter_twice {A} (f : A -> bool) (l : list A) :
  filter f (filter f l) = filter f l.
Proof.
  apply forallb_filter_id. apply forallb_forall. intros x Hx.
  now apply filter_In in Hx.
Qed.

(** X9. The filter on a column the table does not have raises a key error.
    On a table with unique column names an empty filter text keeps every
    row.  A filter that goes through keeps the columns, keeps only rows of
    the table, and applied again with the same column and text changes
    nothing. *)
Theorem filter_edge_cases (data : DataFrame) (col_to_filter : label) :
  (~ In col_to_filter (columns data) ->
   forall filter_value,
     Apply_Filter data col_to_filter filter_value = Some (Raise KeyError)) /\
  (NoDup (columns data) -> In col_to_filter (columns data) ->
   Apply_Filter data col_to_filter "" = Some (Ok data)) /\
  (forall filter_value d,
     Apply_Filter data col_to_filter filter_value = Some (Ok d) ->
     columns d = columns data /\
     incl (rows d) (rows data) /\
     Apply_Filter d col_to_filter filter_value = Some (Ok d)).
Proof.
  split; [|split].
  - intros Hout filter_value. unfold Apply_Filter.
    now rewrite positions_absent.
  - intros Hnd Hin. unfold Apply_Filter.
    destruct (@positions_NoDup col_to_filter (columns data) 0%nat Hnd Hin)
      as [j ->].
    cbn [re_compile option_map]. destruct data as [cols rs]. cbn [columns rows].
    do 3 f_equal. apply forallb_filter_id. apply forallb_forall.
    intros r _. apply re_search_empty.
  - intros filter_value d. unfold Apply_Filter.
    destruct (positions col_to_filter (columns data) 0) as [|j [|j' js]] eqn:Hp;
      try discriminate.
    destruct (re_compile filter_value) as [p|]; [|discriminate].
    cbn [option_map]. intros H. injection H as <-. cbn [columns rows].
    split; [reflexivity|]. split.
    + intros r Hr. now apply filter_In in Hr.
    + rewrite Hp. now rewrite filter_twice.
Qed.

Lemma filter_edge_cases_witness :
  (NoDup (columns codes_table) /\ In (Text "code") (columns codes_table)) /\
  Apply_Filter codes_table (Text "code") "" = Some (Ok codes_table).
Proof.
  assert (H1 : NoDup (columns codes_table))
    by (repeat constructor; cbn; intuition).
  assert (H2 : In (Text "code") (columns codes_table)) by (cbn; tauto).
  split; [exact (conj H1 H2)|].
  exact (proj1 (proj2 (filter_edge_cases codes_table (Text "code"))) H1 H2).
Defined.

(** ** The formula box *)

Lemma split_on_length (s : string) :
  List.length (split_on "=" s) = S (equal_signs s).
Proof.
  unfold equal_signs. induction s as [|c s IH]; [reflexivity|].
  cbn [split_on list_ascii_of_string filter].
  destruct (Ascii.eqb_spec c "=") as [->|Hne].
  - cbn [Ascii.eqb Bool.eqb List.length]. cbn. now rewrite IH.
  - replace (Ascii.eqb "=" c) with false
      by (symmetry; apply Ascii.eqb_neq; congruence).
    destruct (split_on "=" s) as [|h r]; [discriminate | exact IH].
Qed.

Section Formula.

Variable df_eval : DataFrame -> string -> result (list value).

(** X10. A formula whose text has no [=] sign, or more than one (a
    comparison written [==], say), ends in the error branch with a value
    error, before anything is evaluated, and changes nothing. *)
Theorem formula_needs_one_equal_sign (s : Session) (custom_formula : string) :
  custom_formula <> "" -> equal_signs custom_formula <> 1%nat ->
  click (Custom_Formula df_eval custom_formula) s = (Error ValueError, s).
Proof.
  intros Hne Hsigns. apply String.eqb_neq in Hne.
  assert (Hlen := split_on_length custom_formula).
  destruct s as [d st]. unfold_script. rewrite Hne.
  destruct (split_on "=" custom_formula) as [|a [|b [|c l]]];
    cbn in Hlen; try reflexivity.
  exfalso. apply Hsigns. congruence.
Qed.

End Formula.

Lemma formula_needs_one_equal_sign_witness :
  ("z == x" <> "" /\ equal_signs "z == x" <> 1%nat) /\
  click (Custom_Formula eval_refuses "z == x") sample_session
  = (Error ValueError, sample_session).
Proof.
  assert (H1 : "z == x" <> "") by discriminate.
  assert (H2 : equal_signs "z == x" <> 1%nat) by (cbn; discriminate).
  split; [exact (conj H1 H2)|].
  exact (@formula_needs_one_equal_sign eval_refuses sample_session "z == x"
           H1 H2).
Defined.







(** ** Restores after the table changed *)



Section LostRows.

Variable sort_rows : list row -> list row.
Hypothesis sort_rows_contract : sorts_by_label sort_rows.


End LostRows.










(** ** Concatenate *)

Lemma nodup_labelb_true (l : list label) : NoDup l -> nodup_labelb l = true.
Proof.
  induction 1 as [|x l Hx Hl IH]; cbn; [reflexivity|].
  rewrite IH, andb_true_r. apply negb_true_iff. now apply mem_label_false.
Qed.

Lemma list_label_eqb_true (a b : list label) :
  list_label_eqb a b = true -> a = b.
Proof.
  revert b. induction a as [|x a IH]; intros [|y b]; cbn;
    try discriminate; [reflexivity|].
  intros H. apply andb_true_iff in H as [Hx Ha].
  apply label_eqb_eq in Hx. subst. f_equal. now apply IH.
Qed.

Lemma cell_absent (cols : list label) (cells : list value) (c : label) :
  ~ In c cols -> cell cols cells c = VNaN.
Proof.
  intros H. unfold cell, cells_named. rewrite named_absent; [reflexivity|].
  intros Hin. apply H. now apply labelled_names in Hin.
Qed.

Lemma cell_tabulated (f : label -> value) (names : list label) (c : label) :
  NoDup names ->
  cell names (map f names) c = if mem_label c names then f c else VNaN.
Proof.
  intros Hnd. unfold cell, cells_named.
  rewrite labelled_map, (named_tabulate _ _ Hnd).
  now destruct (mem_label c names).
Qed.

Lemma cells_relaid_on_own_columns (cols : list label) (cells : list value) :
  NoDup cols -> List.length cells = List.length cols ->
  map (cell cols cells) cols = cells.
Proof.
  intros Hnd. revert cells.
  induction Hnd as [|c cols Hc Hnd IH]; intros [|v cells] Hlen;
    try discriminate; [reflexivity|].
  cbn [map]. f_equal.
  - unfold cell, cells_named, named, labelled. cbn.
    now rewrite label_eqb_refl.
  - rewrite <- (IH cells) at 2 by (now injection Hlen).
    apply map_ext_in. intros x Hx.
    unfold cell, cells_named, named, labelled. cbn.
    destruct (label_eqb_spec c x) as [->|_]; [contradiction | reflexivity].
Qed.

Lemma relaid_on_own_columns (d : DataFrame) :
  well_formed d -> relaid (columns d) d = map snd (rows d).
Proof.
  intros [Hnd Hfit]. unfold relaid. apply map_ext_in. intros r Hr.
  rewrite Forall_forall in Hfit.
  apply cells_relaid_on_own_columns; [assumption | now apply Hfit].
Qed.

Lemma relaid_twice (u ca : list label) (t : DataFrame) :
  NoDup ca -> incl (columns t) ca ->
  map (fun cells => map (cell ca cells) u) (relaid ca t) = relaid u t.
Proof.
  intros Hnd Hin. unfold relaid. rewrite map_map.
  apply map_ext. intros r. apply map_ext. intros c.
  rewrite (cell_tabulated _ c Hnd).
  destruct (mem_label c ca) eqn:Hm; [reflexivity|].
  apply mem_label_false in Hm. symmetry. apply cell_absent.
  intros H. apply Hm. now apply Hin.
Qed.

Lemma map_flat_map {A B C} (g : B -> C) (f : A -> list B) (l : list A) :
  map g (flat_map f l) = flat_map (fun x => map g (f x)) l.
Proof.
  induction l as [|x l IH]; cbn; [reflexivity|].
  now rewrite map_app, IH.
Qed.

Lemma flat_map_ext_in {A B} (f g : A -> list B) (l : list A) :
  (forall x, In x l -> f x = g x) -> flat_map f l = flat_map g l.
Proof.
  induction l as [|x l IH]; cbn; intros H; [reflexivity|].
  rewrite (H x (or_introl eq_refl)), IH; [reflexivity|].
  intros y Hy. apply H. now right.
Qed.

Lemma union_label_In (a b : list label) (c : label) :
  In c (union_label a b) <-> In c a \/ In c b.
Proof.
  unfold union_label. rewrite in_app_iff, filter_In, negb_true_iff, mem_label_false.
  destruct (in_dec label_dec c a); tauto.
Qed.

Lemma union_label_NoDup (a b : list label) :
  NoDup a -> NoDup b -> NoDup (union_label a b).
Proof.
  intros Ha Hb. unfold union_label. apply NoDup_app.
  - exact Ha.
  - now apply NoDup_filter.
  - intros c Hc Hin. apply filter_In in Hin as [_ Hin].
    apply negb_true_iff, mem_label_false in Hin. contradiction.
Qed.

Lemma number_rows_cells (from : Z) (cells : list (list value)) :
  map snd (number_rows from cells) = cells.
Proof.
  revert from. induction cells as [|c cells IH]; intros from; cbn;
    [reflexivity|]. now rewrite IH.
Qed.

Lemma number_rows_index (from : Z) (cells : list (list value)) :
  map fst (number_rows from cells)
  = map (fun i => from + Z.of_nat i) (seq 0 (List.length cells)).
Proof.
  revert from. induction cells as [|c cells IH]; intros from; [reflexivity|].
  cbn [number_rows map List.length seq fst]. f_equal; [cbn; lia|].
  rewrite IH, <- seq_shift, map_map. apply map_ext. intros i. lia.
Qed.

Lemma number_rows_length (from : Z) (cells : list (list value)) :
  List.length (number_rows from cells) = List.length cells.
Proof.
  revert from. induction cells as [|c cells IH]; intros from; cbn;
    [reflexivity|]. now rewrite IH.
Qed.

(** The loop of [concat_all], with the tables already stacked in [prev]. *)
Lemma concat_all_relaid (rest : list DataFrame) :
  Forall well_formed rest ->
  forall acc prev,
    NoDup (columns acc) ->
    map snd (rows acc) = flat_map (relaid (columns acc)) prev ->
    (forall t, In t prev -> incl (columns t) (columns acc)) ->
    exists out,
      concat_all acc rest = Ok out /\
      NoDup (columns out) /\
      map snd (rows out) = flat_map (relaid (columns out)) (prev ++ rest) /\
      (forall c, In c (columns out) <->
                 In c (columns acc) \/
                 exists t, In t rest /\ In c (columns t)).
Proof.
  induction 1 as [|d rest Hd Hrest IH]; intros acc prev Hnd Hrows Hprev.
  - exists acc. split; [reflexivity|]. split; [assumption|].
    rewrite app_nil_r. split; [assumption|].
    intros c. split; [tauto|]. intros [H|[t [[] _]]]. exact H.
  - cbn [concat_all]. unfold concat.
    destruct (list_label_eqb (columns acc) (columns d)) eqn:Heq.
    + apply list_label_eqb_true in Heq. cbn [result_bind].
      destruct (IH (mkDF (columns acc) (rows acc ++ rows d)) (prev ++ [d]))
        as (out & Hout & Hnd' & Hrows' & Hcols').
      * exact Hnd.
      * change (map snd (rows acc ++ rows d)
                = flat_map (relaid (columns acc)) (prev ++ [d])).
        rewrite map_app, flat_map_app. cbn [flat_map].
        rewrite app_nil_r. f_equal; [exact Hrows|]. rewrite Heq.
        symmetry. now apply relaid_on_own_columns.
      * change (forall t, In t (prev ++ [d]) -> incl (columns t) (columns acc)).
        intros t Ht. apply in_app_iff in Ht as [Ht|[<-|[]]].
        -- now apply Hprev.
        -- rewrite Heq. apply incl_refl.
      * exists out. split; [exact Hout|]. split; [exact Hnd'|].
        rewrite <- app_assoc in Hrows'. split; [exact Hrows'|].
        intros c. rewrite Hcols'.
        change (columns (mkDF (columns acc) (rows acc ++ rows d)))
          with (columns acc). split.
        -- intros [H|[t [Ht Hc]]]; [now left|]. right. exists t. split;
             [now right | assumption].
        -- intros [H|[t [[<-|Ht] Hc]]]; [now left | left; now rewrite Heq|].
           right. now exists t.
    + destruct Hd as [Hd_nd Hd_fit].
      rewrite (nodup_labelb_true Hnd), (nodup_labelb_true Hd_nd).
      cbn [andb result_bind].
      set (u := union_label (columns acc) (columns d)).
      destruct (IH (mkDF u (map (realign u (columns acc)) (rows acc)
                            ++ map (realign u (columns d)) (rows d)))
                   (prev ++ [d]))
        as (out & Hout & Hnd' & Hrows' & Hcols').
      * now apply union_label_NoDup.
      * change (map snd (map (realign u (columns acc)) (rows acc)
                         ++ map (realign u (columns d)) (rows d))
                = flat_map (relaid u) (prev ++ [d])).
        rewrite map_app, !map_map. unfold realign at 1 2.
        change (map (fun x : row => map (cell (columns acc) (snd x)) u)
                    (rows acc)
                ++ map (fun x : row => map (cell (columns d) (snd x)) u)
                       (rows d)
                = flat_map (relaid u) (prev ++ [d])).
        rewrite flat_map_app. cbn [flat_map]. rewrite app_nil_r. f_equal.
        assert (H := f_equal
                       (map (fun cells => map (cell (columns acc) cells) u))
                       Hrows).
        rewrite map_map, map_flat_map in H.
        etransitivity; [exact H|].
        apply flat_map_ext_in. intros t Ht.
        apply relaid_twice; [assumption | now apply Hprev].
      * change (forall t, In t (prev ++ [d]) -> incl (columns t) u).
        intros t Ht c Hc. apply union_label_In.
        apply in_app_iff in Ht as [Ht|[<-|[]]].
        -- left. now apply (Hprev t).
        -- now right.
      * exists out. split; [exact Hout|]. split; [exact Hnd'|].
        rewrite <- app_assoc in Hrows'. split; [exact Hrows'|].
        intros c. rewrite Hcols'.
        match goal with
        | |- context [columns (mkDF u ?r)] =>
            change (columns (mkDF u r)) with u
        end.
        unfold u. rewrite union_label_In. split.
        -- intros [[H|H]|[t [Ht Hc]]]; [now left | |].
           ++ right. exists d. split; [now left | assumption].
           ++ right. exists t. split; [now right | assumption].
        -- intros [H|[t [[<-|Ht] Hc]]]; [tauto | tauto|].
           right. now exists t.
Qed.

(** X14. "Concatenate" (line 212) of well-formed tables always goes
    through.  The result has every column of every table once, its rows
    are the rows of the tables in their order, each laid out on these
    columns, with the missing value wherever a table lacks a column, and
    its index counts the rows from 0. *)
Theorem concatenate_stacks_rows (d0 : DataFrame) (rest : list DataFrame) :
  Forall well_formed (d0 :: rest) ->
  exists out,
    Concatenate (d0 :: rest) = Ok out /\
    NoDup (columns out) /\
    (forall c, In c (columns out) <->
               exists t, In t (d0 :: rest) /\ In c (columns t)) /\
    index out = map Z.of_nat (seq 0 (List.length (rows out))) /\
    map snd (rows out) = flat_map (relaid (columns out)) (d0 :: rest) /\
    (forall t cells c, ~ In c (columns t) -> cell (columns t) cells c = VNaN).
Proof.
  intros Hwf. inversion Hwf as [|? ? Hd0 Hrest]; subst.
  destruct (@concat_all_relaid rest Hrest d0 [d0]) as (out & Hout & Hnd & Hrows & Hcols).
  - apply Hd0.
  - cbn [flat_map]. rewrite app_nil_r. symmetry.
    now apply relaid_on_own_columns.
  - intros t [<-|[]]. apply incl_refl.
  - exists (reset_index out). unfold Concatenate. rewrite Hout.
    cbn [result_bind reset_index columns rows].
    split; [reflexivity|]. split; [exact Hnd|]. split; [|split; [|split]].
    + intros c. rewrite Hcols. split.
      * intros [H|[t [Ht Hc]]]; [exists d0; split; [now left | assumption]|].
        exists t. split; [now right | assumption].
      * intros [t [[<-|Ht] Hc]]; [now left|]. right. now exists t.
    + unfold index. cbn [rows].
      transitivity (map (fun i => 0 + Z.of_nat i)
                        (seq 0 (List.length (map snd (rows out)))));
        [apply number_rows_index|].
      rewrite number_rows_length. apply map_ext. intros i. lia.
    + rewrite number_rows_cells. exact Hrows.
    + intros t cells c. apply cell_absent.
Qed.

Lemma concatenate_stacks_rows_witness :
  Forall well_formed [orders; clients] /\
  exists out,
    Concatenate [orders; clients] = Ok out /\
    columns out = [Text "k"; Text "amount"; Text "name"] /\
    index out = [0; 1; 2; 3] /\
    map snd (rows out) =
      [[VInt 1; VInt 50; VNaN]; [VInt 2; VInt 70; VNaN];
       [VInt 2; VNaN; VStr "Ada"]; [VInt 3; VNaN; VStr "Bob"]].
Proof.
  assert (H : Forall well_formed [orders; clients]).
  { repeat constructor; cbn; intuition discriminate. }
  split; [exact H|].
  destruct (@concatenate_stacks_rows orders [clients] H)
    as (out & Hout & _).
  exists out. split; [exact Hout|].
  vm_compute in Hout. injection Hout as <-. repeat split.
Defined.

(** ** Merge/Join of tables that share only the key *)

Section FrameOfTheJoin.

Variable kind : value -> bool.
Hypothesis kind_goes_together :
  forall lk rk, forallb kind lk = true -> forallb kind rk = true ->
                merge_keys_refused lk rk = false.

Lemma merge_loop_apart_frame (rest : list DataFrame) (on : string) :
  on <> "" ->
  forall acc,
    Forall (fun r : row => List.length (snd r) = List.length (columns acc))
           (rows acc) ->
    (count_label (Text on) (columns acc) <= 1)%nat ->
    In (Text on) (columns acc) ->
    Forall well_formed rest ->
    (forall d, In d rest -> In (Text on) (columns d)) ->
    (forall d, In d (acc :: rest) ->
               forallb kind (key_values (Text on) d) = true) ->
    NoDup (other_columns (Text on) acc
           ++ flat_map (other_columns (Text on)) rest) ->
    exists out,
      merge_loop acc rest on = Ok out /\
      columns out = columns acc ++ flat_map (other_columns (Text on)) rest /\
      Forall (fun r : row => List.length (snd r) = List.length (columns out))
             (rows out).
Proof.
  intros Hon. apply String.eqb_neq in Hon.
  induction rest as [|df t IH]; intros acc Hfit Hcount Hacc Hwf Hall Hkind Hnd.
  - exists acc. cbn. rewrite app_nil_r. auto.
  - inversion Hwf as [|? ? [Hdf_nd Hdf_fit] Hwf_t]; subst.
    cbn [flat_map] in Hnd. cbn [merge_loop]. rewrite Hon.
    assert (Hdf_count := count_label_le_1 (Text on) Hdf_nd).
    assert (Hdf : In (Text on) (columns df)) by (apply Hall; now left).
    rewrite app_assoc in Hnd.
    rewrite (@merge_apart acc df (Text on) Hacc Hdf Hcount Hdf_count
               (kind_goes_together _ _ (Hkind acc (or_introl eq_refl))
                  (Hkind df (or_intror (or_introl eq_refl))))
               (@NoDup_app_left _ _ _ Hnd)).
    cbn [result_bind].
    rewrite <- (joined_other_columns acc df (Text on)) in Hnd.
    destruct (IH (joined acc df (Text on))
                 (@joined_fits acc df (Text on) Hfit Hdf_fit)
                 (@joined_count acc df (Text on) Hcount))
      as (out & Hout & Hcols & Hfits).
    + unfold joined. cbn [columns]. apply in_or_app. now left.
    + exact Hwf_t.
    + intros d Hd. apply Hall. now right.
    + intros d [<-|Hd].
      * apply joined_kind; [exact Hfit|]. apply Hkind. now left.
      * apply Hkind. right. now right.
    + exact Hnd.
    + exists out. split; [exact Hout|]. split; [|exact Hfits].
      rewrite Hcols. unfold joined. cbn [columns flat_map].
      now rewrite app_assoc.
Qed.

End FrameOfTheJoin.

(** X15. Merge/Join on a key that every table has, of well-formed tables
    with an index that has no name and at least one row each, that share no
    other column name and whose key columns are of one kind (integers
    everywhere, or text everywhere), goes through.  The result has the columns of the first
    table followed by the other columns of the next tables, in their order,
    all different, with one cell per column in every row; and every key
    value of the result is a key value of every table. *)
Theorem merge_join_of_joinable_tables (d0 : DataFrame)
  (rest : list DataFrame) (merge_on : string) :
  merge_on <> "" ->
  joinable (Text merge_on) (d0 :: rest) ->
  keys_alike (Text merge_on) (d0 :: rest) ->
  (forall d, In d (d0 :: rest) -> In (Text merge_on) (columns d)) ->
  exists out,
    Merge_Join (d0 :: rest) merge_on = Ok out /\
    columns out
    = columns d0 ++ flat_map (other_columns (Text merge_on)) rest /\
    well_formed out /\
    forall v, In v (key_values (Text merge_on) out) ->
              forall d, In d (d0 :: rest) ->
                        In v (key_values (Text merge_on) d).
Proof.
  intros Hon Hjoin Halike Hall.
  destruct (@merge_loop_alike d0 rest merge_on Hon Hjoin Halike) as [Hok _].
  destruct Hjoin as [Hwf Hnd]. cbn [flat_map] in Hnd.
  inversion Hwf as [|? ? [Hd0_nd Hd0_fit] Hwf_rest]; subst.
  assert (Hd0 : In (Text merge_on) (columns d0)) by (apply Hall; now left).
  assert (Hrest : forall d, In d rest -> In (Text merge_on) (columns d))
    by (intros d Hd; apply Hall; now right).
  assert (Hframe : exists out,
            merge_loop d0 rest merge_on = Ok out /\
            columns out
            = columns d0 ++ flat_map (other_columns (Text merge_on)) rest /\
            Forall (fun r : row =>
                      List.length (snd r) = List.length (columns out))
                   (rows out)).
  { destruct Halike as [_ [Hint|Hstr]].
    - apply (@merge_loop_apart_frame is_int int_keys_go_together rest
               merge_on Hon d0 Hd0_fit
               (count_label_le_1 (Text merge_on) Hd0_nd) Hd0 Hwf_rest Hrest);
        [|exact Hnd].
      intros d Hd. apply Hint; [exact Hd | now apply Hall].
    - apply (@merge_loop_apart_frame is_str str_keys_go_together rest
               merge_on Hon d0 Hd0_fit
               (count_label_le_1 (Text merge_on) Hd0_nd) Hd0 Hwf_rest Hrest);
        [|exact Hnd].
      intros d Hd. apply Hstr; [exact Hd | now apply Hall]. }
  destruct Hframe as (out & Hout & Hcols & Hfits).
  destruct (Hok Hd0 Hrest) as (out' & Hout' & Hvals).
  assert (out' = out) by congruence. subst out'.
  exists out. split; [exact Hout|]. split; [exact Hcols|]. split.
  - split; [|exact Hfits]. rewrite Hcols. apply NoDup_app.
    + exact Hd0_nd.
    + now apply NoDup_app_remove_l in Hnd.
    + intros c Hc Hin.
      apply (NoDup_app_disjoint _ _ c Hnd); [|exact Hin].
      apply other_columns_In. split; [exact Hc|].
      intros ->. apply in_flat_map in Hin as [d [_ Hin]].
      now apply other_columns_without_key in Hin.
  - intros v Hv d [<-|Hd].
    + exact (proj1 (Hvals v Hv)).
    + exact (proj2 (Hvals v Hv) d Hd).
Qed.

Lemma merge_join_of_joinable_tables_witness :
  ("k" <> "" /\ joinable (Text "k") [orders; clients] /\
   keys_alike (Text "k") [orders; clients] /\
   (forall d, In d [orders; clients] -> In (Text "k") (columns d))) /\
  Merge_Join [orders; clients] "k"
  = Ok (mkDF [Text "k"; Text "amount"; Text "name"]
             [(0, [VInt 2; VInt 70; VStr "Ada"])]).
Proof.
  assert (H1 : "k" <> "") by discriminate.
  assert (H2 : joinable (Text "k") [orders; clients]).
  { split; repeat constructor; cbn; intuition discriminate. }
  assert (Hk : keys_alike (Text "k") [orders; clients]).
  { split.
    - intros d [<-|[<-|[]]]; discriminate.
    - left. intros d [<-|[<-|[]]] _; reflexivity. }
  assert (H3 : forall d, In d [orders; clients] -> In (Text "k") (columns d)).
  { intros d [<-|[<-|[]]]; now left. }
  split; [exact (conj H1 (conj H2 (conj Hk H3)))|].
  destruct (@merge_join_of_joinable_tables orders [clients] "k" H1 H2 Hk H3)
    as (out & Hout & _).
  rewrite Hout. vm_compute in Hout. now injection Hout as <-.
Defined.

(** ** Convert Column *)











(** ** Restores while a check box has rebound [data] *)

Lemma Preprocessing_run (rd dm : bool) (fm : option string) (s : Session) :
  Preprocessing rd dm fm (mkRun s Aliased) =
  (Ok tt,
   mkRun s (if ticked rd dm fm
            then Rebound (preprocessed rd dm fm (dataset s))
            else Aliased)).
Proof.
  unfold ticked, preprocessed, Preprocessing. destruct s as [d0 st].
  destruct rd, dm, fm; reflexivity.
Qed.

Lemma Restore_Selected_Rows_run (sort_rows : list row -> list row)
  (s : Session) (b : binding) (keys : list Z) :
  Restore_Selected_Rows sort_rows keys (mkRun s b) =
  if empty (dropped_rows_df (settings s)) then (Ok Warning, mkRun s b)
  else
    match concat (match b with Aliased => dataset s | Rebound d => d end)
                 (loc_isin (dropped_rows_df (settings s)) keys) with
    | Raise e => (Ok (Error e), mkRun s b)
    | Ok c =>
        (Ok Success,
         mkRun (mkSession (sort_index sort_rows c)
                  (mkSettings
                     (dropped_columns (settings s))
                     (filter (fun k => negb (mem_Z k keys))
                             (dropped_rows (settings s)))
                     (dropped_rows_df (settings s))
                     (dropped_columns_df (settings s))))
               (Rebound (sort_index sort_rows c)))
    end.
Proof.
  destruct s as [d [dc dr drd dcd]]. unfold_script.
  destruct (empty drd); [reflexivity|].
  destruct b as [|d']; cbn; destruct (concat _ (loc_isin drd keys)); reflexivity.
Qed.

Section RestoreUnderTick.

Variable sort_rows : list row -> list row.
Hypothesis sort_rows_contract : sorts_by_label sort_rows.

(** X17. A restore of rows builds the new table from the frame [data]
    designates and stores it (lines 191, 194).  With boxes ticked that
    frame is the stored table after the ticked clean-ups, so the restore
    makes them permanent: with "Drop Rows with Missing Values" ticked, the
    stored table is left with the rows that have no missing cell and the
    restored rows, and any other row is gone. *)
Theorem restore_rows_stores_preprocessed_table (rd dm : bool)
  (fm : option string) (s : Session) (keys : list Z) :
  empty (dropped_rows_df (settings s)) = false ->
  columns (dataset s) = columns (dropped_rows_df (settings s)) ->
  exists s',
    click (Preprocessing rd dm fm ;; Restore_Selected_Rows sort_rows keys) s
    = (Success, s') /\
    Permutation
      (rows (preprocessed rd dm fm (dataset s))
       ++ filter (fun r : row => mem_Z (fst r) keys)
                 (rows (dropped_rows_df (settings s))))
      (rows (dataset s')) /\
    (rd = false -> dm = true -> fm = None ->
     forall r, In r (rows (dataset s')) ->
       (In r (rows (dataset s)) /\ ~ In VNaN (snd r)) \/
       In r (rows (dropped_rows_df (settings s)))).
Proof.
  intros Hne Hcols.
  assert (Hsame : columns (preprocessed rd dm fm (dataset s))
                  = columns (loc_isin (dropped_rows_df (settings s)) keys)).
  { unfold preprocessed.
    destruct rd, dm, fm; cbn [fillna dropna columns];
      rewrite ?drop_duplicates_columns; exact Hcols. }
  assert (Hrun :
    click (Preprocessing rd dm fm ;; Restore_Selected_Rows sort_rows keys) s
    = (Success,
       mkSession
         (sort_index sort_rows
            (mkDF (columns (preprocessed rd dm fm (dataset s)))
                  (rows (preprocessed rd dm fm (dataset s))
                   ++ rows (loc_isin (dropped_rows_df (settings s)) keys))))
         (mkSettings
            (dropped_columns (settings s))
            (filter (fun k => negb (mem_Z k keys)) (dropped_rows (settings s)))
            (dropped_rows_df (settings s))
            (dropped_columns_df (settings s))))).
  { unfold click, bind. rewrite Preprocessing_run, Restore_Selected_Rows_run, Hne.
    destruct (ticked rd dm fm) eqn:Ht.
    - rewrite (concat_same_columns _ _ Hsame). reflexivity.
    - assert (Hid : preprocessed rd dm fm (dataset s) = dataset s).
      { unfold ticked in Ht. unfold preprocessed.
        destruct rd, dm, fm; try discriminate; reflexivity. }
      rewrite Hid in *. rewrite (concat_same_columns _ _ Hsame). reflexivity. }
  eexists. split; [exact Hrun|]. cbn [dataset sort_index rows loc_isin]. split.
  - apply sort_rows_contract.
  - intros -> -> -> r Hr.
    apply (Permutation_in _ (Permutation_sym (proj1 sort_rows_contract _))) in Hr.
    apply in_app_iff in Hr as [Hr|Hr].
    + left. cbn [preprocessed dropna rows] in Hr.
      apply filter_In in Hr as [Hr Hna]. split; [exact Hr|].
      intros Hin. apply negb_true_iff in Hna.
      assert (existsb isna (snd r) = true)
        by (apply existsb_exists; now exists VNaN).
      congruence.
    + right. now apply filter_In in Hr.
Qed.

End RestoreUnderTick.

Lemma restore_rows_stores_preprocessed_table_witness :
  (sorts_by_label insertion_sort /\
   empty (dropped_rows_df (settings gappy_row_dropped)) = false /\
   columns (dataset gappy_row_dropped)
   = columns (dropped_rows_df (settings gappy_row_dropped))) /\
  index (dataset gappy_row_dropped) = [1; 2] /\
  exists s',
    click (Preprocessing false true None ;;
           Restore_Selected_Rows insertion_sort [0]) gappy_row_dropped
    = (Success, s') /\
    index (dataset s') = [0; 2].
Proof.
  assert (H1 : empty (dropped_rows_df (settings gappy_row_dropped)) = false)
    by reflexivity.
  assert (H2 : columns (dataset gappy_row_dropped)
               = columns (dropped_rows_df (settings gappy_row_dropped)))
    by reflexivity.
  split; [exact (conj insertion_sort_contract (conj H1 H2))|].
  split; [reflexivity|].
  destruct (@restore_rows_stores_preprocessed_table insertion_sort
              insertion_sort_contract false true None gappy_row_dropped [0]
              H1 H2) as (s' & Hr & _).
  exists s'. split; [exact Hr|].
  vm_compute in Hr. injection Hr as <-. reflexivity.
Defined.

(** ** Restored rows and columns, and the widgets *)

(** X18. A restore of rows keeps every column of either side.  With
    unique column names in the table and in a snapshot that is not empty,
    it goes through, and the columns of the table become those of the table
    together with those of the snapshot: a column dropped after the rows
    were dropped comes back with them. *)
Theorem restore_rows_brings_columns_back (sort_rows : list row -> list row)
  (s : Session) (keys : list Z) :
  empty (dropped_rows_df (settings s)) = false ->
  NoDup (columns (dataset s)) ->
  NoDup (columns (dropped_rows_df (settings s))) ->
  exists s',
    restoreRows sort_rows s keys = (Success, s') /\
    NoDup (columns (dataset s')) /\
    forall c, In c (columns (dataset s')) <->
              In c (columns (dataset s)) \/
              In c (columns (dropped_rows_df (settings s))).
Proof.
  intros Hne Hd Hs. rewrite restoreRows_eq, Hne. unfold concat.
  cbn [loc_isin columns].
  destruct (list_label_eqb _ _) eqn:Heq.
  - apply list_label_eqb_true in Heq. eexists. split; [reflexivity|].
    cbn [dataset sort_index columns]. split; [exact Hd|].
    intros c. rewrite <- Heq. tauto.
  - rewrite (nodup_labelb_true Hd), (nodup_labelb_true Hs). cbn [andb].
    eexists. split; [reflexivity|]. cbn [dataset sort_index columns]. split.
    + now apply union_label_NoDup.
    + intros c. apply union_label_In.
Qed.

Lemma restore_rows_brings_columns_back_witness :
  (empty (dropped_rows_df
            (settings (snd (dropColumns sample_rows_dropped [Text "v"])))) = false /\
   NoDup (columns (dataset (snd (dropColumns sample_rows_dropped [Text "v"])))) /\
   NoDup (columns (dropped_rows_df
                     (settings (snd (dropColumns sample_rows_dropped [Text "v"])))))) /\
  ~ In (Text "v") (columns (dataset (snd (dropColumns sample_rows_dropped [Text "v"])))) /\
  exists s',
    restoreRows insertion_sort (snd (dropColumns sample_rows_dropped [Text "v"])) [1]
    = (Success, s') /\
    In (Text "v") (columns (dataset s')).
Proof.
  assert (H1 : empty (dropped_rows_df
                        (settings (snd (dropColumns sample_rows_dropped [Text "v"]))))
               = false) by reflexivity.
  assert (H2 : NoDup (columns (dataset (snd (dropColumns sample_rows_dropped
                                                         [Text "v"])))))
    by (repeat constructor; cbn; intuition discriminate).
  assert (H3 : NoDup (columns (dropped_rows_df
                     (settings (snd (dropColumns sample_rows_dropped [Text "v"]))))))
    by (repeat constructor; cbn; intuition discriminate).
  split; [exact (conj H1 (conj H2 H3))|].
  split; [cbn; intuition discriminate|].
  destruct (@restore_rows_brings_columns_back insertion_sort
              (snd (dropColumns sample_rows_dropped [Text "v"])) [1] H1 H2 H3)
    as (s' & Hr & _ & Hc).
  exists s'. split; [exact Hr|]. apply Hc. right. cbn. tauto.
Defined.



(** X20. After a restore of columns that goes through, every restored
    name is a column of the table again and is no longer listed in
    [dropped_columns]: the drop widget offers it again. *)
Theorem restored_columns_are_offered_again (s s' : Session)
  (names : list label) :
  restoreColumns s names = (Success, s') ->
  forall n, In n names ->
            In n (available_columns (dataset s') (settings s')).
Proof.
  rewrite restoreColumns_eq. destruct (empty _); [discriminate|].
  destruct (getitem _ names) as [restored|e] eqn:Hg; [|discriminate].
  destruct (concat_axis1 _ restored) as [d|e] eqn:Hc; [|discriminate].
  intros H. injection H as _ <-. intros n Hn.
  unfold available_columns. cbn [dataset settings dropped_columns].
  apply filter_In. split.
  - rewrite (concat_axis1_columns _ _ Hc). apply in_or_app. right.
    apply (getitem_columns _ _ Hg). split; [exact Hn|].
    assert (Hall : forallb
              (fun n => mem_label n (columns (dropped_columns_df (settings s))))
              names = true) by (apply getitem_ok_iff; now exists restored).
    rewrite forallb_forall in Hall. now apply mem_label_In, Hall.
  - apply negb_true_iff, mem_label_false. intros Hin.
    apply filter_In in Hin as [_ Hin].
    apply negb_true_iff, mem_label_false in Hin. contradiction.
Qed.

Lemma restored_columns_are_offered_again_witness :
  restoreColumns sample_without_v [Text "v"]
  = (Success, snd (restoreColumns sample_without_v [Text "v"])) /\
  In (Text "v") (available_columns
            (dataset (snd (restoreColumns sample_without_v [Text "v"])))
            (settings (snd (restoreColumns sample_without_v [Text "v"])))).
Proof.
  assert (H : restoreColumns sample_without_v [Text "v"]
              = (Success, snd (restoreColumns sample_without_v [Text "v"])))
    by reflexivity.
  split; [exact H|].
  apply (@restored_columns_are_offered_again sample_without_v _ [Text "v"] H).
  cbn. tauto.
Defined.
